(** * TabCtrl.c: tab control property pages

    A shallow embedding of [GUI/TabCtrl.c] and the properties of its
    page-visibility state machine, keyboard navigation, nested message pump,
    page placement and construction.

    The C code is a thin layer over Win32.  The embedding keeps the program's
    own memory (the [TABCTRL] structures and the static [m_lptc] pointer) and
    a small window-system state in one [World]; every Win32 call that changes
    something is also appended to a [trace], so that statements of the form
    "the handler sets ..." are statements about the calls the code makes.
    What the toolkit and the host's window procedures do in reaction to a call
    whose outcome the source does not determine (selection messages sent to
    the tab strip, dialog navigation, message routing) is a parameter of the
    development, a [Toolkit]. *)

From stdpp Require Import base numbers option list gmap strings.

Local Open Scope Z_scope.

(** ** Machine integers *)

(** [int], [LONG] and [INT] are 32-bit two's complement; arithmetic on them is
    written with its wrap-around. *)
Definition wrap32 (z : Z) : Z := (z + 2 ^ 31) `mod` 2 ^ 32 - 2 ^ 31.

Definition int_add (a b : Z) : Z := wrap32 (a + b).
Definition int_sub (a b : Z) : Z := wrap32 (a - b).
(** C division truncates toward zero. *)
Definition int_div (a b : Z) : Z := wrap32 (a `quot` b).

Definition in_int (z : Z) : Prop := - 2 ^ 31 ≤ z < 2 ^ 31.

(** ** Win32 constants (Windows SDK headers) *)

Definition HWND := Z.
Definition NULL : Z := 0.
Definition BOOL := Z.
Definition TRUE : Z := 1.
Definition FALSE : Z := 0.

Definition WM_QUIT : Z := 18.
Definition WM_SHOWWINDOW : Z := 24.
Definition WM_NEXTDLGCTL : Z := 40.
Definition WM_KEYDOWN : Z := 256.

Definition VK_TAB : Z := 9.
Definition VK_PRIOR : Z := 33.
Definition VK_NEXT : Z := 34.
Definition VK_LEFT : Z := 37.
Definition VK_UP : Z := 38.
Definition VK_RIGHT : Z := 39.
Definition VK_DOWN : Z := 40.

Definition GWL_STYLE : Z := -16.
Definition GWL_USERDATA : Z := -21.
Definition TCS_BOTTOM : Z := 2.
Definition TCS_VERTICAL : Z := 128.
(** [TCN_FIRST] is [0U-550U]; notification codes are [UINT]. *)
Definition TCN_FIRST : Z := 2 ^ 32 - 550.
Definition TCN_KEYDOWN : Z := TCN_FIRST - 0.
Definition TCN_SELCHANGE : Z := TCN_FIRST - 1.
Definition SW_SHOW : Z := 5.
Definition HWND_TOP : Z := 0.

(** ** Data *)

Record RECT := mkRECT { left : Z; top : Z; right : Z; bottom : Z }.

Record MSG := mkMSG { hwnd : HWND; message : Z; wParam : Z; lParam : Z }.

(** Modelled from the spec: the declaration of [TABCTRL] ([TabCtrl.h] is not
    among the sources).  The fields are those of the spec's TabControlState
    that [TabCtrl.c] reads and writes; [hTabPages] and [tabNames] are the
    contents of the arrays the C fields point to.  The function-pointer fields
    ([ParentProc], [TabPage_OnSize], [Notify], [StretchTabPage],
    [CenterTabPage]) are set once by [New_TabControl] to the functions of the
    same name and are called directly here. *)
Record TABCTRL := mkTABCTRL {
  hTab : HWND;
  hVisiblePage : HWND;
  hTabPages : list HWND;
  tabNames : list string;
  tabPageCount : Z;
  blStretchTabs : BOOL
}.

(** What the window system knows of a window.  [wRect] is what
    [GetWindowRect] reports (screen coordinates), [wOrigin] the screen
    position of the client area's origin (what [ScreenToClient] subtracts),
    [wClient] what [GetClientRect] reports, [wPlacement] the position and
    size last requested with [SetWindowPos]. *)
Record Window := mkWindow {
  wParent : HWND;
  wStyle : Z;
  wUserData : Z;
  wVisible : bool;
  wRect : RECT;
  wOrigin : Z * Z;
  wClient : RECT;
  wPlacement : option (Z * Z * Z * Z)
}.

(** The part of a tab control's state the code asks for: its items (labels),
    the selected item (-1 when none) and the bounding rectangle of its first
    tab. *)
Record TabStrip := mkTabStrip {
  tsItems : list string;
  tsCurSel : Z;
  tsItemRect0 : RECT
}.

(** A dialog resource: the client size of the dialog it describes and
    whether its style has [WS_VISIBLE]. *)
Record DlgTemplate := mkDlgTemplate {
  dtWidth : Z;
  dtHeight : Z;
  dtVisible : bool
}.

Record World := mkWorld {
  windows : gmap Z Window;
  strips : gmap Z TabStrip;
  templates : gmap Z DlgTemplate;
  focus : HWND;
  heap : gmap Z TABCTRL;      (* the TABCTRL structures, by address *)
  m_lptc : Z                  (* static LPTABCTRL m_lptc *)
}.

(** The Win32 calls the code makes that change something, in the order made. *)
Inductive Call :=
  | CShowWindow (h : HWND) (nCmdShow : Z)
  | CPostMessage (m : MSG)
  | CSendMessage (m : MSG)
  | CSetFocus (h : HWND)
  | CSetCurSel (h : HWND) (i : Z)
  | CSetCurFocus (h : HWND) (i : Z)
  | CSetWindowPos (h after : HWND) (x y cx cy flags : Z)
  | CSetWindowLong (h : HWND) (idx v : Z)
  | CInsertItem (h : HWND) (i : Z) (text : string)
  | CCreateDialog (template : Z) (parent : HWND)
  | CIsDialogMessage (h : HWND) (m : MSG)
  | CTranslateMessage (m : MSG)
  | CDispatchMessage (m : MSG)
  | CPostQuitMessage (code : Z).

(** The machine: the world, the calls made so far, and what the coming
    [GetMessage] calls of the running pump retrieve, each with the status
    [GetMessage] returns for it. *)
Record Machine := mkMachine {
  world : World;
  trace : list Call;
  inbox : list (Z * MSG)
}.

(** ** The monad of the handlers *)

(** A handler returns, runs into undefined behaviour (a null or dangling
    structure pointer, an index outside an array, an uninitialised read), or
    waits in [GetMessage] with nothing left to retrieve. *)
Inductive Res (A : Type) :=
  | Done (a : A) (m : Machine)
  | Fault
  | Blocked (m : Machine).
Arguments Done {A} a m.
Arguments Fault {A}.
Arguments Blocked {A} m.

Definition M (A : Type) : Type := Machine → Res A.

Global Instance M_ret : MRet M := λ A a m, Done a m.
Global Instance M_bind : MBind M := λ A B f c m,
  match c m with
  | Done a m' => f a m'
  | Fault => Fault
  | Blocked m' => Blocked m'
  end.

Definition fault {A} : M A := λ _, Fault.
Definition blocked {A} : M A := λ m, Blocked m.
Definition gets {A} (f : World → A) : M A := λ m, Done (f (world m)) m.
Definition modify (f : World → World) : M unit :=
  λ m, Done tt (mkMachine (f (world m)) (trace m) (inbox m)).
Definition call (c : Call) : M unit :=
  λ m, Done tt (mkMachine (world m) (trace m ++ [c]) (inbox m)).
Definition set_inbox (q : list (Z * MSG)) : M unit :=
  λ m, Done tt (mkMachine (world m) (trace m) q).
Definition defined {A} (o : option A) : M A :=
  match o with Some a => mret a | None => fault end.

Definition with_inbox (q : list (Z * MSG)) (m : Machine) : Machine :=
  mkMachine (world m) (trace m) q.

(** The machine a handler leaves when it returns. *)
Definition exec {A} (c : M A) (m : Machine) : Machine :=
  match c m with Done _ m' => m' | _ => m end.

(** ** Notifications *)

Record NMHDR := mkNMHDR { hwndFrom : HWND; idFrom : Z; code : Z }.

(** [TC_KEYDOWN]: the header and the virtual key.  [Notify] receives a
    pointer to the header; for [TCN_KEYDOWN] the same memory is read as a
    [TC_KEYDOWN]. *)
Record TC_KEYDOWN := mkTC_KEYDOWN { hdr : NMHDR; wVKey : Z; flags : Z }.

(** ** Win32 primitives with a determined outcome *)

Definition upd_windows (f : gmap Z Window → gmap Z Window) (w : World) : World :=
  mkWorld (f (windows w)) (strips w) (templates w) (focus w) (heap w) (m_lptc w).
Definition upd_strips (f : gmap Z TabStrip → gmap Z TabStrip) (w : World) : World :=
  mkWorld (windows w) (f (strips w)) (templates w) (focus w) (heap w) (m_lptc w).
Definition upd_focus (h : HWND) (w : World) : World :=
  mkWorld (windows w) (strips w) (templates w) h (heap w) (m_lptc w).
Definition upd_heap (f : gmap Z TABCTRL → gmap Z TABCTRL) (w : World) : World :=
  mkWorld (windows w) (strips w) (templates w) (focus w) (f (heap w)) (m_lptc w).
Definition upd_m_lptc (p : Z) (w : World) : World :=
  mkWorld (windows w) (strips w) (templates w) (focus w) (heap w) p.

Definition set_wUserData (v : Z) (x : Window) : Window :=
  mkWindow (wParent x) (wStyle x) v (wVisible x) (wRect x) (wOrigin x)
    (wClient x) (wPlacement x).
Definition set_wVisible (b : bool) (x : Window) : Window :=
  mkWindow (wParent x) (wStyle x) (wUserData x) b (wRect x) (wOrigin x)
    (wClient x) (wPlacement x).
Definition set_wPlacement (p : Z * Z * Z * Z) (x : Window) : Window :=
  mkWindow (wParent x) (wStyle x) (wUserData x) (wVisible x) (wRect x)
    (wOrigin x) (wClient x) (Some p).

(** [GetWindowLong] answers 0 for a handle that is no window. *)
Definition window_long (h : HWND) (idx : Z) (w : World) : Z :=
  match windows w !! h with
  | Some x => if idx =? GWL_USERDATA then wUserData x
              else if idx =? GWL_STYLE then wStyle x else 0
  | None => 0
  end.

Definition GetWindowLong (h : HWND) (idx : Z) : M Z := gets (window_long h idx).

Definition SetWindowLong (h : HWND) (idx v : Z) : M unit :=
  call (CSetWindowLong h idx v);;
  if idx =? GWL_USERDATA
  then modify (upd_windows (alter (set_wUserData v) h))
  else mret tt.

Definition parent_of (h : HWND) (w : World) : HWND :=
  from_option wParent NULL (windows w !! h).

Definition GetParent (h : HWND) : M HWND := gets (parent_of h).

Definition IsWindowVisible (h : HWND) (w : World) : bool :=
  from_option wVisible false (windows w !! h).

(** [ShowWindow] hides with [SW_HIDE] (0, [FALSE]) and shows with any other
    command; it does nothing to a handle that is no window. *)
Definition ShowWindow (h : HWND) (nCmdShow : Z) : M unit :=
  call (CShowWindow h nCmdShow);;
  modify (upd_windows (alter (set_wVisible (negb (nCmdShow =? 0))) h)).

Definition GetFocus : M HWND := gets focus.

(** [SetFocus] fails, leaving the focus where it is, for a handle that is
    neither [NULL] nor a window. *)
Definition focus_on (h : HWND) (w : World) : World :=
  if (h =? NULL) || bool_decide (is_Some (windows w !! h))
  then upd_focus h w else w.

Definition SetFocus (h : HWND) : M unit :=
  call (CSetFocus h);; modify (focus_on h).

Definition PostMessage (m : MSG) : M unit := call (CPostMessage m).

Definition PostQuitMessage (nExitCode : Z) : M unit :=
  call (CPostQuitMessage nExitCode).

(** [SetWindowPos] returns [TRUE] when the handle is a window. *)
Definition SetWindowPos (h after : HWND) (x y cx cy uFlags : Z) : M BOOL :=
  call (CSetWindowPos h after x y cx cy uFlags);;
  w ← gets id;
  match windows w !! h with
  | Some _ =>
      modify (upd_windows (alter (set_wPlacement (x, y, cx, cy)) h));;
      mret TRUE
  | None => mret FALSE
  end.

(** [GetWindowRect], [GetClientRect] and [TabCtrl_GetItemRect] fill the
    caller's rectangle on success only; the code reads the rectangle without
    looking at the result, so a failure leaves an uninitialised read. *)
Definition GetWindowRect (h : HWND) : M RECT :=
  w ← gets id; defined (wRect <$> windows w !! h).

Definition GetClientRect (h : HWND) : M RECT :=
  w ← gets id; defined (wClient <$> windows w !! h).

Definition TabCtrl_GetItemRect0 (h : HWND) : M RECT :=
  w ← gets id;
  match strips w !! h with
  | Some s => match tsItems s with [] => fault | _ :: _ => mret (tsItemRect0 s) end
  | None => fault
  end.

(** [ScreenToClient] leaves the point alone when the handle is no window. *)
Definition ScreenToClient (h : HWND) (pt : Z * Z) : M (Z * Z) :=
  gets (λ w, match windows w !! h with
             | Some x => (int_sub pt.1 (wOrigin x).1, int_sub pt.2 (wOrigin x).2)
             | None => pt
             end).

(** The [(int)SendMessage] of the [TabCtrl_Get...] macros; a window that is
    no tab control answers 0. *)
Definition item_count (h : HWND) (w : World) : Z :=
  from_option (λ s, wrap32 (Z.of_nat (length (tsItems s)))) 0 (strips w !! h).

Definition cur_sel (h : HWND) (w : World) : Z :=
  from_option (λ s, wrap32 (tsCurSel s)) 0 (strips w !! h).

Definition TabCtrl_GetItemCount (h : HWND) : M Z := gets (item_count h).

Definition TabCtrl_GetCurSel (h : HWND) : M Z := gets (cur_sel h).

(** [TCM_INSERTITEM]: the item goes in at the index, at the end when the
    index is past it; a first item becomes the selection and an item put at
    or before the selection moves the selection along. *)
Definition insert_item (i : Z) (text : string) (s : TabStrip) : TabStrip :=
  if i <? 0 then s else
  let k := Nat.min (Z.to_nat i) (length (tsItems s)) in
  mkTabStrip (take k (tsItems s) ++ text :: drop k (tsItems s))
    (match tsItems s with
     | [] => 0
     | _ :: _ => if Z.of_nat k <=? tsCurSel s then tsCurSel s + 1 else tsCurSel s
     end)
    (tsItemRect0 s).

Definition TabCtrl_InsertItem (h : HWND) (i : Z) (text : string) : M unit :=
  call (CInsertItem h i text);;
  modify (upd_strips (alter (insert_item i text) h)).

(** A handle no window has, and not [NULL]. *)
Definition fresh_hwnd (w : World) : HWND :=
  Z.succ (map_fold (λ k _ acc, Z.max k acc) 0 (windows w)).

(** The window of a dialog just made from a template. *)
Definition dialog_window (parent : HWND) (t : DlgTemplate) : Window :=
  mkWindow parent 0 0 (dtVisible t)
    (mkRECT 0 0 (dtWidth t) (dtHeight t)) (0, 0)
    (mkRECT 0 0 (dtWidth t) (dtHeight t)) None.

(** [CreateDialog] answers [NULL] when there is no such dialog resource, and
    otherwise makes a child of [parent] with the template's size.  The
    messages the dialog gets while it is made go through [TabPage_DlgProc] to
    the host's procedure, which is taken to leave this state alone. *)
Definition CreateDialog (template : Z) (parent : HWND) : M HWND :=
  call (CCreateDialog template parent);;
  w ← gets id;
  match templates w !! template with
  | None => mret NULL
  | Some t =>
      let h := fresh_hwnd w in
      modify (upd_windows (insert h (dialog_window parent t)));;
      mret h
  end.

(** ** The program's own memory *)

(** [*m_lptc]: undefined when [m_lptc] is null or points to no structure. *)
Definition deref_m_lptc : M TABCTRL :=
  w ← gets id;
  if m_lptc w =? NULL then fault else defined (heap w !! m_lptc w).

(** [m_lptc->field = v] *)
Definition store_m_lptc (f : TABCTRL → TABCTRL) : M unit :=
  _ ← deref_m_lptc; modify (λ w, upd_heap (alter f (m_lptc w)) w).

Definition set_hTab (v : HWND) (t : TABCTRL) : TABCTRL :=
  mkTABCTRL v (hVisiblePage t) (hTabPages t) (tabNames t) (tabPageCount t)
    (blStretchTabs t).
Definition set_hVisiblePage (v : HWND) (t : TABCTRL) : TABCTRL :=
  mkTABCTRL (hTab t) v (hTabPages t) (tabNames t) (tabPageCount t)
    (blStretchTabs t).
Definition set_hTabPages (v : list HWND) (t : TABCTRL) : TABCTRL :=
  mkTABCTRL (hTab t) (hVisiblePage t) v (tabNames t) (tabPageCount t)
    (blStretchTabs t).
Definition set_tabNames (v : list string) (t : TABCTRL) : TABCTRL :=
  mkTABCTRL (hTab t) (hVisiblePage t) (hTabPages t) v (tabPageCount t)
    (blStretchTabs t).
Definition set_tabPageCount (v : Z) (t : TABCTRL) : TABCTRL :=
  mkTABCTRL (hTab t) (hVisiblePage t) (hTabPages t) (tabNames t) v
    (blStretchTabs t).
Definition set_blStretchTabs (v : BOOL) (t : TABCTRL) : TABCTRL :=
  mkTABCTRL (hTab t) (hVisiblePage t) (hTabPages t) (tabNames t)
    (tabPageCount t) v.

(** [a[i]]: undefined outside the array. *)
Definition index {A} (a : list A) (i : Z) : option A :=
  if i <? 0 then None else a !! Z.to_nat i.

(** [m_lptc->hTabPages[i]] *)
Definition page_at (i : Z) : M HWND :=
  t ← deref_m_lptc; defined (index (hTabPages t) i).

(** ** The toolkit *)

(** What the window system and the window procedures it runs (the tab
    control's, the dialog manager's, the host's) do with the world when the
    code sends a selection message to the strip, sends a message, or routes a
    retrieved message.  Nothing is assumed of it: it may select or not,
    notify the host, and re-enter this module. *)
Record Toolkit := mkToolkit {
  tk_SetCurSel : HWND → Z → World → World;
  tk_SetCurFocus : HWND → Z → World → World;
  tk_SendMessage : MSG → World → World;
  tk_IsDialogMessage : HWND → MSG → World → BOOL * World;
  tk_TranslateMessage : MSG → World → World;
  tk_DispatchMessage : MSG → World → World
}.

(** The state the pump carries from one retrieved message to the next:
    [BOOL fFirstStop] and [HWND hFirstStop], the latter indeterminate until
    assigned. *)
Record TabStops := mkTabStops {
  fFirstStop : bool;
  hFirstStop : option HWND
}.

(** How an iteration of the pump ends: at the end of the body, at a [return]
    inside it, or at the [while] condition with status 0. *)
Inductive Flow :=
  | Next (st : TabStops)
  | Return
  | Leave.

Section Program.

Variable tk : Toolkit.

Definition TabCtrl_SetCurSel (h : HWND) (i : Z) : M unit :=
  call (CSetCurSel h i);; modify (tk_SetCurSel tk h i).

Definition TabCtrl_SetCurFocus (h : HWND) (i : Z) : M unit :=
  call (CSetCurFocus h i);; modify (tk_SetCurFocus tk h i).

Definition SendMessage (m : MSG) : M unit :=
  call (CSendMessage m);; modify (tk_SendMessage tk m).

Definition IsDialogMessage (h : HWND) (m : MSG) : M BOOL :=
  call (CIsDialogMessage h m);;
  w ← gets id;
  modify (λ _, (tk_IsDialogMessage tk h m w).2);;
  mret (tk_IsDialogMessage tk h m w).1.

Definition TranslateMessage (m : MSG) : M unit :=
  call (CTranslateMessage m);; modify (tk_TranslateMessage tk m).

Definition DispatchMessage (m : MSG) : M unit :=
  call (CDispatchMessage m);; modify (tk_DispatchMessage tk m).

(** *** FirstTabstop_SetFocus *)

Definition FirstTabstop_SetFocus (hwnd : HWND) : M unit :=
  SendMessage (mkMSG hwnd WM_NEXTDLGCTL 1 FALSE);;
  f ← GetFocus;
  PostMessage (mkMSG f WM_KEYDOWN VK_TAB 0).

(** *** TabControl_GetClientRect *)

(** The adjustment of the rectangle for the four placements of the tabs;
    [prc] holds left, top, width, height afterwards. *)
Definition display_area (lStyle : Z) (rtab_0 prc : RECT) : RECT :=
  if negb (Z.land lStyle TCS_BOTTOM =? 0) && negb (Z.land lStyle TCS_VERTICAL =? 0)
  then (* Tabs to Right *)
    mkRECT (int_add (left prc) 4)
           (int_add (top prc) 6)
           (int_sub (right prc) (int_sub (int_add 12 (right rtab_0)) (left rtab_0)))
           (int_sub (bottom prc) 12)
  else if negb (Z.land lStyle TCS_VERTICAL =? 0)
  then (* Tabs to Left *)
    mkRECT (int_add (left prc) (int_sub (int_add 4 (right rtab_0)) (left rtab_0)))
           (int_add (top prc) 6)
           (int_sub (right prc) (int_sub (int_add 12 (right rtab_0)) (left rtab_0)))
           (int_sub (bottom prc) 12)
  else if negb (Z.land lStyle TCS_BOTTOM =? 0)
  then (* Tabs on Bottom *)
    mkRECT (int_add (left prc) 4)
           (int_add (top prc) 6)
           (int_sub (right prc) 12)
           (int_sub (bottom prc) (int_sub (int_add 16 (bottom rtab_0)) (top rtab_0)))
  else (* Tabs on top *)
    mkRECT (int_add (left prc) 4)
           (int_add (top prc) (int_sub (int_add 6 (bottom rtab_0)) (top rtab_0)))
           (int_sub (right prc) 12)
           (int_sub (bottom prc) (int_sub (int_add 16 (bottom rtab_0)) (top rtab_0))).

Definition TabControl_GetClientRect (hwnd : HWND) : M RECT :=
  lStyle ← GetWindowLong hwnd GWL_STYLE;
  prc ← GetWindowRect hwnd;
  parent ← GetParent hwnd;
  lt ← ScreenToClient parent (left prc, top prc);
  rb ← ScreenToClient hwnd (right prc, bottom prc);
  rtab_0 ← TabCtrl_GetItemRect0 hwnd;
  mret (display_area lStyle rtab_0 (mkRECT lt.1 lt.2 rb.1 rb.2)).

(** *** CenterTabPage, StretchTabPage *)

(** Lines 174-184: [rclient] becomes the page's natural size placed in
    [rect]; left, top, width, height. *)
Definition centered (rect rclient : RECT) : RECT :=
  let width := int_sub (right rclient) (left rclient) in
  let height := int_sub (bottom rclient) (top rclient) in
  mkRECT
    (if width <? right rect
     then int_add (left rect) (int_div (int_sub (right rect) width) 2)
     else left rect)
    (if height <? bottom rect
     then int_add (top rect) (int_div (int_sub (bottom rect) height) 2)
     else top rect)
    width height.

Definition CenterTabPage (hTab : HWND) (iPage : Z) : M BOOL :=
  p ← GetWindowLong hTab GWL_USERDATA;
  modify (upd_m_lptc p);;
  rect ← TabControl_GetClientRect hTab;
  page ← page_at iPage;
  rclient ← GetClientRect page;
  let rclient := centered rect rclient in
  page ← page_at iPage;
  SetWindowPos page HWND_TOP (left rclient) (top rclient) (right rclient)
    (bottom rclient) 0.

Definition StretchTabPage (hTab : HWND) (iPage : Z) : M BOOL :=
  p ← GetWindowLong hTab GWL_USERDATA;
  modify (upd_m_lptc p);;
  rect ← TabControl_GetClientRect hTab;
  page ← page_at iPage;
  SetWindowPos page HWND_TOP (left rect) (top rect) (right rect) (bottom rect) 0.

(** *** TabPageMessageLoop *)

(** The loop's test for the message [TabCtrl_OnSelChanged] posts. *)
Definition is_hide (msg : MSG) : bool :=
  (WM_SHOWWINDOW =? message msg) && (FALSE =? wParam msg).

Definition is_tab_keydown (msg : MSG) : bool :=
  (WM_KEYDOWN =? message msg) && (VK_TAB =? wParam msg).

(** The strip to tab off to (lines 548-550): the one the parent of the
    message's window is linked to, else [m_lptc]'s. *)
Definition strip_of (msg : MSG) : M HWND :=
  parent ← GetParent (hwnd msg);
  h ← GetWindowLong parent GWL_USERDATA;
  if NULL =? h then t ← deref_m_lptc; mret (hTab t) else mret h.

(** Tab off the tab page (lines 548-552). *)
Definition tab_off (msg : MSG) : M unit :=
  h ← strip_of msg;
  SetFocus h.

(** The Tab sniffer (lines 536-554). *)
Definition sniff_tab (msg : MSG) (st : TabStops) : M Flow :=
  if is_tab_keydown msg then
    if negb (fFirstStop st) then mret (Next (mkTabStops true (Some (hwnd msg))))
    else
      hFirst ← defined (hFirstStop st);
      if hFirst =? hwnd msg then tab_off msg;; mret Return
      else mret (Next st)
  else mret (Next st).

(** Default dialog message processing (lines 556-563). *)
Definition route (hwnd : HWND) (msg : MSG) : M unit :=
  handled ← IsDialogMessage hwnd msg;
  if handled =? 0 then TranslateMessage msg;; DispatchMessage msg
  else mret tt.

(** One turn of the [while]: the condition on the status of [GetMessage] and
    the body. *)
Definition pump_step (hwnd : HWND) (status : Z) (msg : MSG) (st : TabStops) : M Flow :=
  if status =? 0 then mret Leave
  else if -1 =? status then mret Return
  else if is_hide msg then mret Return
  else
    f ← sniff_tab msg st;
    match f with
    | Next st' => route hwnd msg;; mret (Next st')
    | _ => mret f
    end.

(** The pump over what [GetMessage] retrieves. *)
Fixpoint pump (hwnd : HWND) (st : TabStops) (q : list (Z * MSG)) : M unit :=
  match q with
  | [] => blocked
  | (status, msg) :: q' =>
      set_inbox q';;
      f ← pump_step hwnd status msg st;
      match f with
      | Next st' => pump hwnd st' q'
      | Return => mret tt
      | Leave => PostQuitMessage 0
      end
  end.

Definition TabPageMessageLoop (hwnd : HWND) : M unit :=
  λ m, pump hwnd (mkTabStops false None) (inbox m) m.

(** A retrieval that is a message ([GetMessage] returned neither 0 nor -1)
    other than the hide message. *)
Definition quiet (x : Z * MSG) : Prop :=
  x.1 ≠ 0 ∧ x.1 ≠ -1 ∧ is_hide x.2 = false.

(** The machine after the default processing of each of the messages. *)
Definition route_all (hwnd : HWND) (l : list (Z * MSG)) (m : Machine) : Machine :=
  foldl (λ m x, exec (route hwnd x.2) m) m l.

(** The pump over retrievals it stays in the loop for: the state it carries
    and the machine after them, [None] when it returns, leaves or faults on
    one of them. *)
Fixpoint pump_through (hwnd : HWND) (st : TabStops) (pre : list (Z * MSG))
    (m : Machine) : option (TabStops * Machine) :=
  match pre with
  | [] => Some (st, m)
  | (status, msg) :: pre' =>
      match pump_step hwnd status msg st m with
      | Done (Next st') m' => pump_through hwnd st' pre' m'
      | _ => None
      end
  end.

(** *** TabCtrl_OnKeyDown *)

(** Select [sel], put the strip's focus on [foc]. *)
Definition select (h : HWND) (sel foc : Z) : M unit :=
  TabCtrl_SetCurSel h sel;; TabCtrl_SetCurFocus h foc.

(** Navigate within the selected child tab page. *)
Definition enter_page (currentSel : Z) : M unit :=
  page ← page_at currentSel;
  SetFocus page;;
  page ← page_at currentSel;
  FirstTabstop_SetFocus page;;
  page ← page_at currentSel;
  TabPageMessageLoop page.

Definition TabCtrl_OnKeyDown (tkd : TC_KEYDOWN) : M unit :=
  let from := hwndFrom (hdr tkd) in
  itemCount ← TabCtrl_GetItemCount from;
  currentSel ← TabCtrl_GetCurSel from;
  if itemCount <=? 1 then mret tt else
  t ← deref_m_lptc;
  lStyle ← GetWindowLong (hTab t) GWL_STYLE;
  let verticalTabs := Z.land lStyle TCS_VERTICAL in
  let key := wVKey tkd in
  if negb (verticalTabs =? 0) then
    if key =? VK_PRIOR then
      if 0 =? currentSel then mret tt
      else select from (int_sub currentSel 1) (int_sub currentSel 1)
    else if key =? VK_UP then
      if 0 =? currentSel then mret tt
      else select from (int_sub currentSel 1) currentSel
    else if key =? VK_NEXT then
      select from (int_add currentSel 1) (int_add currentSel 1)
    else if key =? VK_DOWN then
      select from (int_add currentSel 1) currentSel
    else if (key =? VK_LEFT) || (key =? VK_RIGHT) then
      enter_page currentSel
    else mret tt
  else
    if key =? VK_NEXT then
      if 0 =? currentSel then mret tt
      else select from (int_sub currentSel 1) (int_sub currentSel 1)
    else if key =? VK_LEFT then
      if 0 =? currentSel then mret tt
      else select from (int_sub currentSel 1) currentSel
    else if key =? VK_PRIOR then
      select from (int_add currentSel 1) (int_add currentSel 1)
    else if key =? VK_RIGHT then
      select from (int_add currentSel 1) currentSel
    else if (key =? VK_UP) || (key =? VK_DOWN) then
      enter_page currentSel
    else mret tt.

(** The cases of the two [switch]es, by what they do: select the previous
    page, select the next page, enter the page. *)
Definition is_prev_key (vert : bool) (key : Z) : bool :=
  if vert then (key =? VK_PRIOR) || (key =? VK_UP)
  else (key =? VK_NEXT) || (key =? VK_LEFT).

Definition is_next_key (vert : bool) (key : Z) : bool :=
  if vert then (key =? VK_NEXT) || (key =? VK_DOWN)
  else (key =? VK_PRIOR) || (key =? VK_RIGHT).

Definition is_enter_key (vert : bool) (key : Z) : bool :=
  if vert then (key =? VK_LEFT) || (key =? VK_RIGHT)
  else (key =? VK_UP) || (key =? VK_DOWN).

(** The strip's focus goes to the new selection for the page keys and to the
    current one for the arrow keys. *)
Definition focus_index (key cur new : Z) : Z :=
  if (key =? VK_PRIOR) || (key =? VK_NEXT) then new else cur.

(** *** TabCtrl_OnSelChanged *)

Definition TabCtrl_OnSelChanged : M BOOL :=
  t ← deref_m_lptc;
  iSel ← TabCtrl_GetCurSel (hTab t);
  t ← deref_m_lptc;
  ShowWindow (hVisiblePage t) FALSE;;
  t ← deref_m_lptc;
  PostMessage (mkMSG (hVisiblePage t) WM_SHOWWINDOW FALSE 0);;
  page ← page_at iSel;
  ShowWindow page TRUE;;
  page ← page_at iSel;
  store_m_lptc (set_hVisiblePage page);;
  mret TRUE.

(** *** Notify *)

Definition Notify (pnm : TC_KEYDOWN) : M BOOL :=
  p ← GetWindowLong (hwndFrom (hdr pnm)) GWL_USERDATA;
  modify (upd_m_lptc p);;
  if code (hdr pnm) =? TCN_KEYDOWN then
    TabCtrl_OnKeyDown pnm;;
    (* fall through to call TabCtrl_OnSelChanged() on each keydown *)
    TabCtrl_OnSelChanged
  else if code (hdr pnm) =? TCN_SELCHANGE then
    TabCtrl_OnSelChanged
  else mret FALSE.

End Program.

(** ** New_TabControl *)

(** [while ( *ptr++ ) m_lptc->tabPageCount++;] over the contents of the
    [dlgNames] array: the entries before the first null one.  Undefined when
    the array has no null entry.  (The count cannot overflow: an array of
    2^31 pointers does not fit the address space.) *)
Fixpoint count_pages (dlgNames : list Z) : option Z :=
  match dlgNames with
  | [] => None
  | d :: ptr => if d =? 0 then Some 0 else Z.succ <$> count_pages ptr
  end.

(** The body of the [for] loop (lines 734-747). *)
Definition add_page (hTab_arg : HWND) (dlgNames : list Z) (i : Z) : M unit :=
  t ← deref_m_lptc;
  text ← defined (index (tabNames t) i);
  TabCtrl_InsertItem (hTab t) i text;;
  (* Add page to each tab *)
  t ← deref_m_lptc;
  parent ← GetParent (hTab t);
  template ← defined (index dlgNames i);
  page ← CreateDialog template parent;
  t ← deref_m_lptc;
  (if (0 <=? i) && (i <? Z.of_nat (length (hTabPages t)))
   then store_m_lptc (set_hTabPages (<[Z.to_nat i := page]> (hTabPages t)))
   else fault);;
  (* Since the hTab is not the parent link it to this page *)
  page ← page_at i;
  SetWindowLong page GWL_USERDATA hTab_arg;;
  (* Set initial tab page position *)
  t ← deref_m_lptc;
  (if negb (blStretchTabs t =? 0)
   then StretchTabPage (hTab t) i
   else CenterTabPage (hTab t) i);;
  mret tt.

(** [for (int i = 0; i < m_lptc->tabPageCount; i++)], from [i] on.  [turns]
    bounds the turns taken; [New_TabControl] gives one more than the count
    it has just stored, so the bound is not met. *)
Fixpoint add_pages (hTab_arg : HWND) (dlgNames : list Z) (turns : nat) (i : Z) : M unit :=
  t ← deref_m_lptc;
  if i <? tabPageCount t then
    match turns with
    | O => fault
    | S turns' =>
        add_page hTab_arg dlgNames i;;
        add_pages hTab_arg dlgNames turns' (i + 1)
    end
  else mret tt.

(** [ParentProc] and [OnSize] only fill function-pointer fields and are left
    out. *)
Definition New_TabControl (lptc : Z) (hTab_arg : HWND) (tabNames_arg : list string)
    (dlgNames : list Z) (fStretch : BOOL) : M unit :=
  modify (upd_m_lptc lptc);;
  (* Link struct m_lptc pointer to hTab *)
  SetWindowLong hTab_arg GWL_USERDATA lptc;;
  store_m_lptc (set_hTab hTab_arg);;
  store_m_lptc (set_tabNames tabNames_arg);;
  store_m_lptc (set_blStretchTabs fStretch);;
  (* Determine number of tab pages to insert based on DlgNames *)
  count ← defined (count_pages dlgNames);
  store_m_lptc (set_tabPageCount count);;
  (* create array based on number of pages; its entries are indeterminate
     until the loop writes them, and each is written before it is read *)
  store_m_lptc (set_hTabPages (replicate (Z.to_nat count) NULL));;
  (* Add a tab for each name in tabnames *)
  add_pages hTab_arg dlgNames (S (Z.to_nat count)) 0;;
  (* Show first tab *)
  page ← page_at 0;
  ShowWindow page SW_SHOW;;
  (* Save the current child *)
  page ← page_at 0;
  store_m_lptc (set_hVisiblePage page).

(** ** Auxiliary notions for the statements and proofs *)

(** The calls made between the machines [m] and [m'] of one run. *)
Definition calls_since (m m' : Machine) : list Call :=
  drop (length (trace m)) (trace m').

(** The indices given to [TabCtrl_SetCurSel] among the calls. *)
Definition selections (l : list Call) : list Z :=
  omap (λ c, match c with CSetCurSel _ i => Some i | _ => None end) l.

(** A handler that returns has added to the trace calls that meet [P]
    only. *)
Definition extends (P : Call → Prop) {A} (c : M A) : Prop :=
  ∀ m a m', c m = Done a m' → ∃ l, trace m' = trace m ++ l ∧ Forall P l.

(** No [TabCtrl_SetCurSel] with a negative index. *)
Definition no_negative_selection (c : Call) : Prop :=
  match c with CSetCurSel _ i => 0 ≤ i | _ => True end.

(** The machine once [m_lptc] is set to [p]. *)
Definition pointing (p : Z) (m : Machine) : Machine :=
  mkMachine (upd_m_lptc p (world m)) (trace m) (inbox m).

(** [m_lptc] points to the structure [t]. *)
Definition this_is (t : TABCTRL) (w : World) : Prop :=
  m_lptc w ≠ NULL ∧ heap w !! m_lptc w = Some t.



(** The strip has its tabs at the side. *)
Definition vertical (t : TABCTRL) (w : World) : bool :=
  negb (Z.land (window_long (hTab t) GWL_STYLE w) TCS_VERTICAL =? 0).

(** The machine after [select]. *)
Definition selected (tk : Toolkit) (h : HWND) (sel foc : Z) (m : Machine) : Machine :=
  mkMachine (tk_SetCurFocus tk h foc (tk_SetCurSel tk h sel (world m)))
    (trace m ++ [CSetCurSel h sel; CSetCurFocus h foc]) (inbox m).

(** The items inserted, the dialogs created and the windows shown among the
    calls. *)
Definition inserted (l : list Call) : list (HWND * Z * string) :=
  omap (λ c, match c with CInsertItem h i s => Some (h, i, s) | _ => None end) l.

Definition created (l : list Call) : list (Z * HWND) :=
  omap (λ c, match c with CCreateDialog d p => Some (d, p) | _ => None end) l.

Definition shown (l : list Call) : list (HWND * Z) :=
  omap (λ c, match c with CShowWindow h c => Some (h, c) | _ => None end) l.

(** Left, top, width and height as [SetWindowPos] takes them. *)
Definition geometry (r : RECT) : Z * Z * Z * Z :=
  (left r, top r, right r, bottom r).

(** The display area of a strip window [sw] with the first tab of [s], in a
    parent [pwin] (lines 111-143 on their values). *)
Definition area_of (sw pwin : Window) (s : TabStrip) : RECT :=
  display_area (wStyle sw) (tsItemRect0 s)
    (mkRECT (int_sub (left (wRect sw)) (wOrigin pwin).1)
            (int_sub (top (wRect sw)) (wOrigin pwin).2)
            (int_sub (right (wRect sw)) (wOrigin sw).1)
            (int_sub (bottom (wRect sw)) (wOrigin sw).2)).

(** The window of a page [New_TabControl] has made from the template [tpl]
    for the strip window [sw]: a dialog in the strip's parent, linked to the
    strip and placed in the display area [rect] by the policy. *)
Definition page_window (hTab_arg : HWND) (fStretch : BOOL) (sw : Window)
    (rect : RECT) (tpl : DlgTemplate) : Window :=
  set_wPlacement
    (geometry (if fStretch =? 0
               then centered rect (wClient (dialog_window (wParent sw) tpl))
               else rect))
    (set_wUserData hTab_arg (dialog_window (wParent sw) tpl)).

(** The machine [mk] while [New_TabControl], started in [m] for the strip
    window [sw] with parent [pwin] and strip state [s0], goes through its
    loop: [pages] are the pages of the turns taken. *)
Record building (lptc : Z) (hTab_arg : HWND) (labels : list string)
    (ids : list Z) (fStretch : BOOL) (m : Machine) (sw pwin : Window)
    (s0 : TabStrip) (pages : list HWND) (mk : Machine) : Prop := mkBuilding {
  b_this : m_lptc (world mk) = lptc;
  b_len : (length pages ≤ length ids)%nat;
  b_struct : ∃ hv, heap (world mk) !! lptc
    = Some (mkTABCTRL hTab_arg hv
              (pages ++ replicate (length ids - length pages) NULL)
              labels (Z.of_nat (length ids)) fStretch);
  b_old : ∀ h, h ∉ pages →
    windows (world mk) !! h
    = alter (set_wUserData lptc) hTab_arg (windows (world m)) !! h;
  b_new : ∀ h, h ∈ pages → windows (world m) !! h = None;
  b_nodup : NoDup pages;
  b_strip : ∃ sk, strips (world mk) !! hTab_arg = Some sk
    ∧ tsItems sk = take (length pages) labels ++ tsItems s0
    ∧ tsItemRect0 sk = tsItemRect0 s0;
  b_templates : templates (world mk) = templates (world m);
  b_pages : ∀ i page, pages !! i = Some page →
    ∃ d tpl, ids !! i = Some d ∧ templates (world m) !! d = Some tpl
      ∧ windows (world mk) !! page
        = Some (page_window hTab_arg fStretch sw (area_of sw pwin s0) tpl);
  b_calls : ∃ l, trace mk = trace m ++ l
    ∧ inserted l
      = imap (λ i s, (hTab_arg, Z.of_nat i, s)) (take (length pages) labels)
    ∧ created l = (λ d, (d, wParent sw)) <$> take (length pages) ids
    ∧ shown l = []
}.

(** The machine after [SetWindowPos] has put [page] at the origin of [r]
    with the size of [r] (left, top, width, height), on top. *)
Definition placed (page : HWND) (r : RECT) (m : Machine) : Machine :=
  mkMachine
    (upd_windows
       (alter (set_wPlacement (left r, top r, right r, bottom r)) page) (world m))
    (trace m ++ [CSetWindowPos page HWND_TOP (left r) (top r) (right r) (bottom r) 0])
    (inbox m).

(** What [SetWindowPos] returns for the handle. *)
Definition is_window (h : HWND) (w : World) : BOOL :=
  if bool_decide (is_Some (windows w !! h)) then TRUE else FALSE.

(** The keys [TabCtrl_OnKeyDown] does nothing for: any key when there is at
    most one tab, a previous-page key at selection 0, a key none of the
    cases names. *)
Definition key_ignored (tkd : TC_KEYDOWN) (t : TABCTRL) (w : World) : Prop :=
  item_count (hwndFrom (hdr tkd)) w ≤ 1
  ∨ (is_prev_key (vertical t w) (wVKey tkd) = true
     ∧ cur_sel (hwndFrom (hdr tkd)) w = 0)
  ∨ (is_prev_key (vertical t w) (wVKey tkd) = false
     ∧ is_next_key (vertical t w) (wVKey tkd) = false
     ∧ is_enter_key (vertical t w) (wVKey tkd) = false).

(** The machine after [TabCtrl_OnSelChanged] has hidden the visible page of
    [t] and shown [page]. *)
Definition switched (t : TABCTRL) (page : HWND) (m : Machine) : Machine :=
  mkMachine
    (upd_heap (alter (set_hVisiblePage page) (m_lptc (world m)))
       (upd_windows (alter (set_wVisible true) page)
          (upd_windows (alter (set_wVisible false) (hVisiblePage t)) (world m))))
    (trace m ++ [CShowWindow (hVisiblePage t) FALSE;
                 CPostMessage (mkMSG (hVisiblePage t) WM_SHOWWINDOW FALSE 0);
                 CShowWindow page TRUE])
    (inbox m).

(** What a handler that does not touch the inbox does with another inbox. *)
Definition res_inbox {A} (q : list (Z * MSG)) (r : Res A) : Res A :=
  match r with
  | Done a m => Done a (with_inbox q m)
  | Fault => Fault
  | Blocked m => Blocked (with_inbox q m)
  end.

Definition inbox_blind {A} (c : M A) : Prop :=
  ∀ q m, c (with_inbox q m) = res_inbox q (c m).

(** ** A concrete world *)

(** A dialog with a tab strip and two page templates, a toolkit whose strip
    selects the item asked for when there is one and whose dialog manager and
    window procedures leave the world alone, and the machine built from them
    by [New_TabControl]. *)
Module Example.

Definition select_item (h : HWND) (i : Z) (w : World) : World :=
  upd_strips (alter (λ s,
    if i <? 0 then mkTabStrip (tsItems s) (-1) (tsItemRect0 s)
    else if i <? Z.of_nat (length (tsItems s))
         then mkTabStrip (tsItems s) i (tsItemRect0 s)
         else s) h) w.

Definition toolkit : Toolkit :=
  mkToolkit select_item (λ _ _ w, w) (λ _ w, w) (λ _ _ w, (FALSE, w))
    (λ _ w, w) (λ _ w, w).

Definition dialog : HWND := 10.
Definition strip : HWND := 11.
Definition this : Z := 7000.

Definition before : World :=
  mkWorld
    {[ dialog := mkWindow NULL 0 0 true (mkRECT 100 100 500 400) (104, 124)
                   (mkRECT 0 0 392 272) None;
       strip := mkWindow dialog 0 0 true (mkRECT 110 130 410 330) (112, 132)
                  (mkRECT 0 0 296 196) None ]}
    {[ strip := mkTabStrip [] (-1) (mkRECT 2 2 50 22) ]}
    {[ 101 := mkDlgTemplate 100 80 false; 102 := mkDlgTemplate 400 300 false ]}
    NULL
    {[ this := mkTABCTRL 0 0 [] [] 0 0 ]}
    NULL.

Definition labels : list string := ["General"; "Advanced"]%string.
Definition dialogs : list Z := [101; 102; 0].

Definition built : Machine :=
  exec (New_TabControl this strip labels dialogs FALSE) (mkMachine before [] []).

(** The two pages, and two controls on the first. *)
Definition page0 : HWND := 12.
Definition page1 : HWND := 13.
Definition edit : HWND := 121.
Definition button : HWND := 122.

Definition control (parent : HWND) : Window :=
  mkWindow parent 0 0 true (mkRECT 0 0 10 10) (0, 0) (mkRECT 0 0 10 10) None.

(** The built machine with the controls, nothing traced, nothing to
    retrieve. *)
Definition ready : Machine :=
  mkMachine
    (upd_windows (λ ws, <[edit := control page0]> (<[button := control page0]> ws))
       (world built))
    [] [].

(** The structure [New_TabControl] has filled, the strip's window and its
    parent's before it did. *)
Definition tabctrl : TABCTRL :=
  mkTABCTRL strip page0 [page0; page1] labels 2 FALSE.
Definition strip_window : Window :=
  mkWindow dialog 0 0 true (mkRECT 110 130 410 330) (112, 132)
    (mkRECT 0 0 296 196) None.
Definition dialog_frame : Window :=
  mkWindow NULL 0 0 true (mkRECT 100 100 500 400) (104, 124)
    (mkRECT 0 0 392 272) None.

(** The strip's display area. *)
Definition area : RECT := mkRECT 10 32 286 162.

(** The ready machine with the second tab selected and the first page still
    visible, and with no tab selected. *)
Definition turned : Machine :=
  mkMachine (select_item strip 1 (world ready)) [] [].
Definition deselected : Machine :=
  mkMachine (select_item strip (-1) (world ready)) [] [].

(** A key-down notification from the strip, and another notification. *)
Definition keydown (key : Z) : TC_KEYDOWN :=
  mkTC_KEYDOWN (mkNMHDR strip 0 TCN_KEYDOWN) key 0.
Definition selchanging : TC_KEYDOWN :=
  mkTC_KEYDOWN (mkNMHDR strip 0 (TCN_FIRST - 2)) 0 0.


Definition tab_to (h : HWND) : Z * MSG := (1, mkMSG h WM_KEYDOWN VK_TAB 0).
Definition hide_of (h : HWND) : Z * MSG := (1, mkMSG h WM_SHOWWINDOW FALSE 0).
Definition char_to (h : HWND) : Z * MSG := (1, mkMSG h 258 65 0).
Definition quit : Z * MSG := (0, mkMSG NULL WM_QUIT 0 0).

End Example.


(** ** Further notions *)

(** The messages offered to the dialog manager with [IsDialogMessage], those
    translated and those dispatched among the calls. *)
Definition offered (l : list Call) : list (HWND * MSG) :=
  omap (λ c, match c with CIsDialogMessage h msg => Some (h, msg) | _ => None end) l.

Definition translated (l : list Call) : list MSG :=
  omap (λ c, match c with CTranslateMessage msg => Some msg | _ => None end) l.

Definition dispatched (l : list Call) : list MSG :=
  omap (λ c, match c with CDispatchMessage msg => Some msg | _ => None end) l.

(** The calls of the default dialog message processing. *)
Definition routing_call (c : Call) : Prop :=
  match c with
  | CIsDialogMessage _ _ | CTranslateMessage _ | CDispatchMessage _ => True
  | _ => False
  end.

(** The window of the first Tab key-down among retrievals, and the state the
    loop carries after them when it was entered before them. *)
Fixpoint first_tab (pre : list (Z * MSG)) : option HWND :=
  match pre with
  | [] => None
  | x :: pre' => if is_tab_keydown x.2 then Some (hwnd x.2) else first_tab pre'
  end.

Definition stops_after (pre : list (Z * MSG)) : TabStops :=
  match first_tab pre with
  | Some h => mkTabStops true (Some h)
  | None => mkTabStops false None
  end.

(** The machine when the "navigate within the page" cases of
    [TabCtrl_OnKeyDown] reach the loop: the focus was put on the page, the
    page was sent [WM_NEXTDLGCTL] and the window that has the focus after
    that was posted a Tab key-down. *)
Definition entered (tk : Toolkit) (page : HWND) (m : Machine) : Machine :=
  let w := tk_SendMessage tk (mkMSG page WM_NEXTDLGCTL 1 FALSE)
             (focus_on page (world m)) in
  mkMachine w
    (trace m ++ [CSetFocus page;
                 CSendMessage (mkMSG page WM_NEXTDLGCTL 1 FALSE);
                 CPostMessage (mkMSG (focus w) WM_KEYDOWN VK_TAB 0)])
    (inbox m).

(** The calls made on the way into a page and in its loop. *)
Definition entering_call (c : Call) : Prop :=
  match c with
  | CSetFocus _ | CSendMessage _ | CPostMessage _ | CIsDialogMessage _ _
  | CTranslateMessage _ | CDispatchMessage _ | CPostQuitMessage _ => True
  | _ => False
  end.

(** A coordinate small enough for the layout arithmetic not to wrap. *)
Definition small (z : Z) : Prop := - 2 ^ 28 ≤ z ≤ 2 ^ 28.

(** The strip as [TabControl_GetClientRect] measures it (lines 111-113):
    its corner in the parent's client area and, the far corner taken in its
    own client area, its width and height. *)
Definition strip_box (sw pwin : Window) : RECT :=
  mkRECT (left (wRect sw) - (wOrigin pwin).1) (top (wRect sw) - (wOrigin pwin).2)
    (right (wRect sw) - (wOrigin sw).1) (bottom (wRect sw) - (wOrigin sw).2).

(** What [New_TabControl] for the structure at [lptc] and the strip
    [hTab_arg] has no business with is in [mk] as it was in [m]: the focus,
    the other strips, the other structures, the messages to come. *)
Definition apart (lptc : Z) (hTab_arg : HWND) (m mk : Machine) : Prop :=
  focus (world mk) = focus (world m)
  ∧ (∀ k, k ≠ hTab_arg → strips (world mk) !! k = strips (world m) !! k)
  ∧ (∀ p, p ≠ lptc → heap (world mk) !! p = heap (world m) !! p)
  ∧ inbox mk = inbox m.

(** The machine after the last lines of [New_TabControl] (750-753), when
    the loop has left [mf]: the first page shown and recorded. *)
Definition first_shown (lptc : Z) (page0 : HWND) (mf : Machine) : Machine :=
  mkMachine
    (upd_heap (alter (set_hVisiblePage page0) lptc)
       (upd_windows (alter (set_wVisible true) page0) (world mf)))
    (trace mf ++ [CShowWindow page0 SW_SHOW]) (inbox mf).

(** ** The handlers of the page's dialog procedure *)

Definition WM_NOTIFY : Z := 78.
Definition WM_COMMAND : Z := 273.

(** [MAKEWPARAM], [LOWORD] and [HIWORD] of the Windows SDK: two 16-bit
    words in one 32-bit one. *)
Definition MAKEWPARAM (l h : Z) : Z :=
  Z.lor (Z.land l 65535) (Z.shiftl (Z.land h 65535) 16).
Definition LOWORD (w : Z) : Z := Z.land w 65535.
Definition HIWORD (w : Z) : Z := Z.land (Z.shiftr w 16) 65535.

(** What the handlers of the pages meet beyond the toolkit.  [ParentProc]
    is the host's dialog procedure, the one the [ParentProc] field of the
    structure at the given address holds ([New_TabControl] stores there the
    pointer it is given); [GetDlgCtrlID] is what the window system answers;
    [nm_address] is where the notification structure a handler builds lies
    on its stack, and [notified] what the receiver of a [WM_NOTIFY] does
    with the world, given the message and the structure its [lParam] points
    to.  Nothing is assumed of them. *)
Record Host := mkHost {
  ParentProc : Z → HWND → Z → Z → Z → World → World;
  GetDlgCtrlID : HWND → World → Z;
  nm_address : Z;
  notified : MSG → TC_KEYDOWN → World → World
}.

Section Pages.

Variables (tk : Toolkit) (host : Host).

(** [FORWARD_WM_NOTIFY(hwnd, idFrom, pnmhdr, SendMessage)] for a
    notification structure on the stack. *)
Definition SendNotify (hwnd : HWND) (idFrom : Z) (nm : TC_KEYDOWN) : M unit :=
  call (CSendMessage (mkMSG hwnd WM_NOTIFY idFrom (nm_address host)));;
  modify (notified host (mkMSG hwnd WM_NOTIFY idFrom (nm_address host)) nm).

(** *** TabPage_OnCommand *)

Definition TabPage_OnCommand (hwnd : HWND) (id : Z) (hwndCtl : HWND)
    (codeNotify : Z) : M unit :=
  (* Forward all commands to the parent proc. *)
  p ← gets m_lptc;
  _ ← deref_m_lptc;
  modify (ParentProc host p hwnd WM_COMMAND (MAKEWPARAM id codeNotify) hwndCtl);;
  if negb (codeNotify =? 0) then mret tt else
  (* Mouse clicks on a control should engage the Message Loop *)
  SetFocus hwndCtl;;
  FirstTabstop_SetFocus tk hwnd;;
  TabPageMessageLoop tk hwnd.

(** *** TabPage_OnLButtonDown *)

Definition TabPage_OnLButtonDown (hwnd : HWND) (fDoubleClick : BOOL)
    (x y keyFlags : Z) : M unit :=
  t ← deref_m_lptc;
  lStyle ← GetWindowLong (hTab t) GWL_STYLE;
  let verticalTabs := Z.land lStyle TCS_VERTICAL in
  if negb (verticalTabs =? 0) then
    t ← deref_m_lptc;
    t' ← deref_m_lptc;
    id ← gets (GetDlgCtrlID host (hTab t'));
    let nm := mkTC_KEYDOWN (mkNMHDR (hTab t) id TCN_KEYDOWN) VK_LEFT 0 in
    SendNotify (hwndFrom (hdr nm)) (idFrom (hdr nm)) nm
  else
    t ← deref_m_lptc;
    t' ← deref_m_lptc;
    id ← gets (GetDlgCtrlID host (hTab t'));
    let nm := mkTC_KEYDOWN (mkNMHDR (hTab t) id TCN_KEYDOWN) VK_DOWN 0 in
    SendNotify (hwndFrom (hdr nm)) (idFrom (hdr nm)) nm.

End Pages.

(** The machine when [TabPage_OnCommand] reaches the loop of [page]: the
    command was forwarded, the focus was put on the control, the page was
    sent [WM_NEXTDLGCTL] and the window that has the focus after that was
    posted a Tab key-down. *)
Definition engaged (tk : Toolkit) (hwndCtl page : HWND) (m : Machine) : Machine :=
  let w := tk_SendMessage tk (mkMSG page WM_NEXTDLGCTL 1 FALSE)
             (focus_on hwndCtl (world m)) in
  mkMachine w
    (trace m ++ [CSetFocus hwndCtl;
                 CSendMessage (mkMSG page WM_NEXTDLGCTL 1 FALSE);
                 CPostMessage (mkMSG (focus w) WM_KEYDOWN VK_TAB 0)])
    (inbox m).

(** The machine after the forward of a command to the host's procedure. *)
Definition forwarded (host : Host) (hwnd : HWND) (id : Z) (hwndCtl : HWND)
    (codeNotify : Z) (m : Machine) : Machine :=
  mkMachine
    (ParentProc host (m_lptc (world m)) hwnd WM_COMMAND
       (MAKEWPARAM id codeNotify) hwndCtl (world m))
    (trace m) (inbox m).

(** The key-down notification [TabPage_OnLButtonDown] makes up for a strip
    with control identifier [id]. *)
Definition click_notification (t : TABCTRL) (id : Z) (vert : bool) : TC_KEYDOWN :=
  mkTC_KEYDOWN (mkNMHDR (hTab t) id TCN_KEYDOWN) (if vert then VK_LEFT else VK_DOWN) 0.

(** ** More of the concrete world *)

Module Scene.

Import Example.

(** The strip of the example after construction: its window, linked to the
    structure, and its two tabs. *)
Definition linked_strip : Window := set_wUserData this strip_window.
Definition two_tabs : TabStrip := mkTabStrip labels 0 (mkRECT 2 2 50 22).

(** The first page of the example as [New_TabControl] leaves it. *)
Definition shown_page : Window :=
  set_wVisible true
    (page_window strip FALSE strip_window area (mkDlgTemplate 100 80 false)).

(** A template identifier that names no dialog resource. *)
Definition unmade : Z := 999.

(** A host whose dialog procedure and whose handling of notifications leave
    the world alone; the strip is control 1000 of the dialog. *)
Definition quiet_host : Host :=
  mkHost (λ _ _ _ _ _ w, w) (λ _ _, 1000) 4096 (λ _ _ w, w).

(** The notification code of an edit control that has got the focus. *)
Definition EN_SETFOCUS : Z := 256.

End Scene.

(** * Properties *)

(** ** The monad *)

Lemma bind_Done {A B} (c : M A) (f : A → M B) m a m' :
  c m = Done a m' → (c ≫= f) m = f a m'.
Proof. intros H. unfold mbind, M_bind. by rewrite H. Qed.

Lemma gets_Done {A} (f : World → A) m : gets f m = Done (f (world m)) m.
Proof. done. Qed.

Lemma with_inbox_inbox q m : inbox (with_inbox q m) = q.
Proof. done. Qed.

Lemma blind_ret {A} (a : A) : inbox_blind (mret a : M A).
Proof. done. Qed.

Lemma blind_bind {A B} (c : M A) (f : A → M B) :
  inbox_blind c → (∀ a, inbox_blind (f a)) → inbox_blind (c ≫= f).
Proof.
  intros Hc Hf q m. unfold mbind, M_bind. rewrite Hc.
  destruct (c m) as [a m'| |m']; simpl; [apply Hf | done | done].
Qed.

Lemma blind_gets {A} (f : World → A) : inbox_blind (gets f).
Proof. done. Qed.
Lemma blind_modify f : inbox_blind (modify f).
Proof. done. Qed.
Lemma blind_call c : inbox_blind (call c).
Proof. done. Qed.
Lemma blind_fault {A} : inbox_blind (fault : M A).
Proof. done. Qed.
Lemma blind_defined {A} (o : option A) : inbox_blind (defined o).
Proof. destruct o; done. Qed.
Lemma blind_if {A} (b : bool) (c d : M A) :
  inbox_blind c → inbox_blind d → inbox_blind (if b then c else d).
Proof. by destruct b. Qed.

#[local] Arguments index : simpl never.
#[local] Arguments cur_sel : simpl never.
#[local] Arguments item_count : simpl never.
#[local] Arguments window_long : simpl never.
#[local] Arguments parent_of : simpl never.
#[local] Arguments focus_on : simpl never.
#[local] Arguments wrap32 : simpl never.

(** Unfold the monad down to the machines. *)
Ltac munfold :=
  unfold mbind, M_bind, mret, M_ret, gets, modify, call, set_inbox, fault,
    blocked; cbn.

Ltac side :=
  first
    [ eassumption
    | match goal with H : this_is ?t _ |- this_is ?t _ => exact H end
    | done ].

Ltac mrun lem :=
  erewrite bind_Done by (eapply lem; side);
  cbv beta; cbn [world trace inbox].

Create HintDb blind.
#[local] Hint Resolve blind_ret blind_gets blind_modify blind_call blind_fault
  blind_defined : blind.

Ltac blind :=
  repeat first
    [ progress intros
    | apply blind_bind
    | apply blind_if
    | solve [auto with blind]
    | match goal with |- inbox_blind (match ?x with _ => _ end) => destruct x end ].

Section Pump.

Variable tk : Toolkit.

Lemma blind_deref : inbox_blind deref_m_lptc.
Proof. unfold deref_m_lptc. blind. Qed.


Lemma blind_pump_step hwnd status msg st :
  inbox_blind (pump_step tk hwnd status msg st).
Proof.
  pose proof blind_deref.
  unfold pump_step, sniff_tab, route, tab_off, strip_of, IsDialogMessage,
    TranslateMessage, DispatchMessage, SetFocus, GetParent, GetWindowLong.
  blind.
Qed.

Lemma pump_inbox hwnd st x q q0 m :
  pump tk hwnd st (x :: q) (with_inbox q0 m) = pump tk hwnd st (x :: q) m.
Proof. by destruct x. Qed.


(** A prefix the pump stays in the loop for is consumed, and the pump goes on
    from the state and machine after it. *)
Lemma pump_app hwnd pre x q st m st' m' :
  pump_through tk hwnd st pre m = Some (st', m') →
  pump tk hwnd st (pre ++ x :: q) m = pump tk hwnd st' (x :: q) m'.
Proof.
  revert st m. induction pre as [|[status msg] pre IH]; intros st m.
  - by intros [= -> ->].
  - cbn [pump_through app pump]. intros H.
    unfold mbind at 1, M_bind at 1; cbn [set_inbox].
    unfold mbind at 1, M_bind at 1.
    change (mkMachine (world m) (trace m) ?q) with (with_inbox q m).
    rewrite blind_pump_step.
    destruct (pump_step tk hwnd status msg st m) as [[st1| |] m1| |]; try done.
    cbn [res_inbox].
    destruct pre as [|y pre]; cbn [app]; rewrite pump_inbox; by apply IH.
Qed.

Lemma route_Done hwnd msg m :
  route tk hwnd msg m = Done tt (exec (route tk hwnd msg) m).
Proof.
  unfold exec, route, IsDialogMessage, TranslateMessage, DispatchMessage.
  munfold. by destruct (_ =? 0).
Qed.







End Pump.

(** ** The page-local input loop *)

Section Loop.

Variable tk : Toolkit.

(** The message [TabCtrl_OnSelChanged] posts meets the loop's test, for any
    page. *)
Lemma posted_hide_is_hide h : is_hide (mkMSG h WM_SHOWWINDOW FALSE 0) = true.
Proof. done. Qed.

(** C1, amended.  Whatever the loop has retrieved and stayed in for, when it
    retrieves a hide message ([WM_SHOWWINDOW] with [wParam] [FALSE]) it
    returns there: nothing more is retrieved, no call is made, the world is
    as the messages before left it.  The window the message is addressed to
    plays no part: the hide message of the loop's own page ends it, and so
    does any other. *)
Theorem hide_message_ends_loop page pre status msg rest m st' m' :
  pump_through tk page (mkTabStops false None) pre m = Some (st', m') →
  status ≠ 0 → status ≠ -1 →
  message msg = WM_SHOWWINDOW → wParam msg = FALSE →
  TabPageMessageLoop tk page (with_inbox (pre ++ (status, msg) :: rest) m)
  = Done tt (with_inbox rest m').
Proof.
  intros Hpre H0 H1 Hm Hw. unfold TabPageMessageLoop.
  rewrite with_inbox_inbox.
  destruct pre as [|x pre]; cbn [app]; rewrite pump_inbox;
    [|change (x :: pre ++ ?l) with ((x :: pre) ++ l)];
    rewrite (pump_app tk page _ _ _ _ _ _ _ Hpre) || injection Hpre as <- <-;
    cbn [pump]; unfold pump_step, is_hide;
    rewrite (proj2 (Z.eqb_neq _ _) H0), (proj2 (Z.eqb_neq (-1) _)) by done;
    rewrite Hm, Hw; done.
Qed.

(** C10.  When [GetMessage] returns 0 (the quit request was retrieved), the
    loop leaves the [while], calls [PostQuitMessage(0)] and returns: the quit
    request is posted again for the pump that called it. *)
Theorem quit_is_posted_again page pre msg rest m st' m' :
  pump_through tk page (mkTabStops false None) pre m = Some (st', m') →
  TabPageMessageLoop tk page (with_inbox (pre ++ (0, msg) :: rest) m)
  = Done tt (mkMachine (world m') (trace m' ++ [CPostQuitMessage 0]) rest).
Proof.
  intros Hpre. unfold TabPageMessageLoop.
  rewrite with_inbox_inbox.
  destruct pre as [|x pre]; cbn [app]; rewrite pump_inbox;
    [|change (x :: pre ++ ?l) with ((x :: pre) ++ l)];
    rewrite (pump_app tk page _ _ _ _ _ _ _ Hpre) || injection Hpre as <- <-;
    done.
Qed.

(** The loop starts with no first tab stop seen. *)
Lemma loop_enters_unset page m :
  TabPageMessageLoop tk page m = pump tk page (mkTabStops false None) (inbox m) m.
Proof. done. Qed.


End Loop.

(** ** Reading the structure *)

Lemma deref_this t m : this_is t (world m) → deref_m_lptc m = Done t m.
Proof.
  intros [Hn Hh]. unfold deref_m_lptc. munfold.
  rewrite (proj2 (Z.eqb_neq _ _) Hn), Hh. done.
Qed.

Lemma page_at_this t i page m :
  this_is t (world m) → index (hTabPages t) i = Some page →
  page_at i m = Done page m.
Proof.
  intros Ht Hi. unfold page_at.
  rewrite (bind_Done _ _ _ _ _ (deref_this _ _ Ht)), Hi. done.
Qed.

Lemma wrap32_id z : in_int z → wrap32 z = z.
Proof.
  unfold in_int, wrap32. intros H.
  rewrite Z.mod_small by lia. lia.
Qed.

Lemma wrap32_in_int z : in_int (wrap32 z).
Proof.
  unfold in_int, wrap32.
  pose proof (Z.mod_pos_bound (z + 2 ^ 31) (2 ^ 32)). lia.
Qed.

(** The strip a Tab key-down is tabbed off to: the one the parent of the
    message's window is linked to (as [New_TabControl] links each page), and
    [m_lptc]'s when the parent is not linked. *)
Lemma strip_of_linked msg c p m :
  windows (world m) !! hwnd msg = Some c →
  windows (world m) !! wParent c = Some p →
  wUserData p ≠ NULL →
  strip_of msg m = Done (wUserData p) m.
Proof.
  intros Hc Hp Hu. unfold strip_of, GetParent, GetWindowLong.
  unfold mbind, M_bind, gets, parent_of, window_long. cbn [world].
  rewrite Hc. cbn [from_option]. rewrite Hp.
  change (GWL_USERDATA =? GWL_USERDATA) with true. cbv iota.
  by destruct (Z.eqb_spec NULL (wUserData p)).
Qed.




Section Wraparound.

Variable tk : Toolkit.


End Wraparound.

(** ** Calls a handler makes *)


Section Extends.

Variable P : Call → Prop.

Lemma extends_ret {A} (a : A) : extends P (mret a : M A).
Proof. intros m a' m' [= _ <-]. exists []. by rewrite app_nil_r. Qed.

Lemma extends_bind {A B} (c : M A) (f : A → M B) :
  extends P c → (∀ a, extends P (f a)) → extends P (c ≫= f).
Proof.
  intros Hc Hf m b m'. unfold mbind, M_bind.
  destruct (c m) as [a m1| |] eqn:E; [|done..]. intros H.
  destruct (Hc _ _ _ E) as (l1 & E1 & H1).
  destruct (Hf _ _ _ _ H) as (l2 & E2 & H2).
  exists (l1 ++ l2). by rewrite E2, E1, <-app_assoc, Forall_app.
Qed.

Lemma extends_gets {A} (f : World → A) : extends P (gets f).
Proof. intros m a' m' [= _ <-]. exists []. by rewrite app_nil_r. Qed.

Lemma extends_modify f : extends P (modify f).
Proof. intros m a' m' [= _ <-]. exists []. by rewrite app_nil_r. Qed.

Lemma extends_set_inbox q : extends P (set_inbox q).
Proof. intros m a' m' [= _ <-]. exists []. by rewrite app_nil_r. Qed.

Lemma extends_call c : P c → extends P (call c).
Proof. intros Hc m a' m' [= _ <-]. exists [c]. by rewrite Forall_singleton. Qed.

Lemma extends_fault {A} : extends P (fault : M A).
Proof. by intros m a' m'. Qed.

Lemma extends_blocked {A} : extends P (blocked : M A).
Proof. by intros m a' m'. Qed.

Lemma extends_defined {A} (o : option A) : extends P (defined o).
Proof. destruct o; [apply extends_ret | apply extends_fault]. Qed.

Lemma extends_if {A} (b : bool) (c d : M A) :
  extends P c → extends P d → extends P (if b then c else d).
Proof. by destruct b. Qed.

End Extends.

Create HintDb extends.
#[local] Hint Resolve extends_ret extends_gets extends_modify extends_set_inbox
  extends_fault extends_blocked extends_defined : extends.

Ltac extends :=
  repeat first
    [ progress intros
    | apply extends_bind
    | apply extends_if
    | solve [auto with extends]
    | solve [apply extends_call; done]
    | match goal with |- extends _ (match ?x with _ => _ end) => destruct x end ].

Section Handlers.

Variable tk : Toolkit.

Lemma extends_deref P : extends P deref_m_lptc.
Proof. unfold deref_m_lptc. extends. Qed.

Lemma extends_page_at P i : extends P (page_at i).
Proof. pose proof (extends_deref P). unfold page_at. extends. Qed.

(** The loop never selects a tab itself. *)
Lemma extends_pump hwnd st q :
  extends no_negative_selection (pump tk hwnd st q).
Proof.
  pose proof (extends_deref no_negative_selection).
  revert st. induction q as [|[status msg] q IH]; intros st; cbn [pump].
  - extends.
  - unfold pump_step, sniff_tab, route, tab_off, strip_of, IsDialogMessage,
      TranslateMessage, DispatchMessage, SetFocus, GetParent, GetWindowLong,
      PostQuitMessage.
    extends.
Qed.

Lemma extends_loop hwnd :
  extends no_negative_selection (TabPageMessageLoop tk hwnd).
Proof. intros m a m'. apply extends_pump. Qed.

Lemma extends_enter_page cur :
  extends no_negative_selection (enter_page tk cur).
Proof.
  pose proof (extends_page_at no_negative_selection).
  pose proof extends_loop.
  unfold enter_page, FirstTabstop_SetFocus, SendMessage, PostMessage, SetFocus,
    GetFocus.
  extends.
Qed.

Lemma select_Done h sel foc m :
  select tk h sel foc m = Done tt (selected tk h sel foc m).
Proof.
  unfold select, selected, TabCtrl_SetCurSel, TabCtrl_SetCurFocus. munfold.
  by rewrite <-app_assoc.
Qed.

Lemma calls_since_app m l w q :
  calls_since m (mkMachine w (trace m ++ l) q) = l.
Proof. unfold calls_since. cbn. by rewrite drop_app_length. Qed.

Lemma calls_since_refl m : calls_since m m = [].
Proof. unfold calls_since. apply drop_all. Qed.

Lemma selections_not_negative l :
  Forall no_negative_selection l → Forall (λ i, 0 ≤ i) (selections l).
Proof.
  induction 1 as [|c l Hc _ IH]; [constructor|].
  unfold selections in *. destruct c; cbn; try done. by constructor.
Qed.

End Handlers.

(** ** Keyboard navigation *)

Section KeyDown.

Variables (tk : Toolkit) (tkd : TC_KEYDOWN) (m : Machine).

Local Abbreviation from := (hwndFrom (hdr tkd)).
Local Abbreviation key := (wVKey tkd).
Local Abbreviation cur := (cur_sel (hwndFrom (hdr tkd)) (world m)).

Lemma keydown_single :
  item_count from (world m) ≤ 1 →
  TabCtrl_OnKeyDown tk tkd m = Done tt m.
Proof.
  intros H. unfold TabCtrl_OnKeyDown, TabCtrl_GetItemCount, TabCtrl_GetCurSel.
  munfold. by rewrite (proj2 (Z.leb_le _ _) H).
Qed.

(** C9.  With an item count of at most 1 the handler returns at once: the
    machine is as it was, so no selection or focus was changed, no call was
    made and nothing was retrieved (the page loop was not entered). *)
Theorem keydown_ignored_without_tabs :
  item_count from (world m) ≤ 1 →
  TabCtrl_OnKeyDown tk tkd m = Done tt m.
Proof. apply keydown_single. Qed.

Variable t : TABCTRL.
Hypothesis Hcount : 1 < item_count from (world m).
Hypothesis Hthis : this_is t (world m).

(** The handler past its first test, with the structure read. *)
Lemma keydown_navigates :
  TabCtrl_OnKeyDown tk tkd m
  = (if vertical t (world m) then
       if key =? VK_PRIOR then
         if 0 =? cur then mret tt
         else select tk from (int_sub cur 1) (int_sub cur 1)
       else if key =? VK_UP then
         if 0 =? cur then mret tt
         else select tk from (int_sub cur 1) cur
       else if key =? VK_NEXT then
         select tk from (int_add cur 1) (int_add cur 1)
       else if key =? VK_DOWN then
         select tk from (int_add cur 1) cur
       else if (key =? VK_LEFT) || (key =? VK_RIGHT) then
         enter_page tk cur
       else mret tt
     else
       if key =? VK_NEXT then
         if 0 =? cur then mret tt
         else select tk from (int_sub cur 1) (int_sub cur 1)
       else if key =? VK_LEFT then
         if 0 =? cur then mret tt
         else select tk from (int_sub cur 1) cur
       else if key =? VK_PRIOR then
         select tk from (int_add cur 1) (int_add cur 1)
       else if key =? VK_RIGHT then
         select tk from (int_add cur 1) cur
       else if (key =? VK_UP) || (key =? VK_DOWN) then
         enter_page tk cur
       else mret tt) m.
Proof.
  unfold TabCtrl_OnKeyDown, TabCtrl_GetItemCount, TabCtrl_GetCurSel.
  unfold mbind at 1, M_bind at 1, gets at 1. cbn [world].
  unfold mbind at 1, M_bind at 1, gets at 1.
  rewrite (proj2 (Z.leb_gt _ _) Hcount).
  rewrite (bind_Done _ _ _ _ _ (deref_this _ _ Hthis)).
  unfold GetWindowLong. unfold mbind at 1, M_bind at 1, gets at 1.
  reflexivity.
Qed.

(** C3, amended.  With more than one tab and a current selection that is not
    negative (and below [INT_MAX]): a previous-page key at selection 0
    leaves the machine as it is and otherwise selects [cur - 1]; a next-page
    key selects [cur + 1], whatever the item count; and whichever key it is,
    no index the handler gives to [TabCtrl_SetCurSel] is negative. *)
Theorem keydown_selection_not_negative :
  0 ≤ cur < 2 ^ 31 - 1 →
  (is_prev_key (vertical t (world m)) key = true →
     (cur = 0 → TabCtrl_OnKeyDown tk tkd m = Done tt m)
     ∧ (cur ≠ 0 →
        TabCtrl_OnKeyDown tk tkd m
        = Done tt (selected tk from (cur - 1) (focus_index key cur (cur - 1)) m)))
  ∧ (is_next_key (vertical t (world m)) key = true →
     TabCtrl_OnKeyDown tk tkd m
     = Done tt (selected tk from (cur + 1) (focus_index key cur (cur + 1)) m))
  ∧ (∀ m', TabCtrl_OnKeyDown tk tkd m = Done tt m' →
     Forall (λ i, 0 ≤ i) (selections (calls_since m m'))).
Proof.
  intros Hcur. rewrite keydown_navigates.
  assert (Hsub : cur ≠ 0 → int_sub cur 1 = cur - 1).
  { intros. apply wrap32_id. unfold in_int. lia. }
  assert (Hadd : int_add cur 1 = cur + 1).
  { apply wrap32_id. unfold in_int. lia. }
  unfold is_prev_key, is_next_key, focus_index.
  unfold VK_PRIOR, VK_NEXT, VK_UP, VK_DOWN, VK_LEFT, VK_RIGHT.
  split; [|split].
  - intros Hk. split; intros H0.
    + rewrite H0 in *. by destruct (vertical t (world m)), (key =? 33),
        (key =? 38), (key =? 34), (key =? 37).
    + rewrite (proj2 (Z.eqb_neq 0 cur)) by done.
      destruct (vertical t (world m));
        repeat match goal with
          | H : context [?k =? ?c] |- _ => destruct (Z.eqb_spec k c); try lia
          | |- context [?k =? ?c] => destruct (Z.eqb_spec k c); try lia
          end; cbn in *; try done; by rewrite select_Done, ?Hsub.
  - intros Hk.
    destruct (vertical t (world m));
      repeat match goal with
        | H : context [?k =? ?c] |- _ => destruct (Z.eqb_spec k c); try lia
        | |- context [?k =? ?c] => destruct (Z.eqb_spec k c); try lia
        end; cbn in *; try done; by rewrite select_Done, ?Hadd.
  - intros m'.
    assert (Hsel : ∀ sel foc, 0 ≤ sel →
      select tk from sel foc m = Done tt m' →
      Forall (λ i, 0 ≤ i) (selections (calls_since m m'))).
    { intros sel foc Hs. rewrite select_Done. intros [= <-].
      unfold selected. rewrite calls_since_app. cbn. by constructor. }
    assert (Hsame : (mret tt : M unit) m = Done tt m' →
      Forall (λ i, 0 ≤ i) (selections (calls_since m m'))).
    { intros [= <-]. rewrite calls_since_refl. constructor. }
    assert (Henter : enter_page tk cur m = Done tt m' →
      Forall (λ i, 0 ≤ i) (selections (calls_since m m'))).
    { intros H. destruct (extends_enter_page tk _ _ _ _ H) as (l & E & Hl).
      destruct m' as [w' tr' q']. cbn in E. subst tr'.
      rewrite calls_since_app. by apply selections_not_negative. }
    destruct (Z.eqb_spec 0 cur) as [E0|E0].
    + destruct (vertical t (world m));
        repeat match goal with
          | |- context [?k =? ?c] => destruct (Z.eqb_spec k c)
          end; cbn [orb]; try done; apply Hsel; lia.
    + destruct (vertical t (world m));
        repeat match goal with
          | |- context [?k =? ?c] => destruct (Z.eqb_spec k c)
          end; cbn [orb]; try done; apply Hsel; lia.
Qed.

End KeyDown.

(** ** Selection change *)

Lemma ShowWindow_Done h c m :
  ShowWindow h c m
  = Done tt (mkMachine
      (upd_windows (alter (set_wVisible (negb (c =? 0))) h) (world m))
      (trace m ++ [CShowWindow h c]) (inbox m)).
Proof. done. Qed.

Lemma PostMessage_Done msg m :
  PostMessage msg m
  = Done tt (mkMachine (world m) (trace m ++ [CPostMessage msg]) (inbox m)).
Proof. done. Qed.

Lemma store_this t f m :
  this_is t (world m) →
  store_m_lptc f m
  = Done tt (mkMachine (upd_heap (alter f (m_lptc (world m))) (world m))
      (trace m) (inbox m)).
Proof.
  intros Ht. unfold store_m_lptc.
  by rewrite (bind_Done _ _ _ _ _ (deref_this _ _ Ht)).
Qed.

(** Run the first computation of a bind with a lemma for it. *)
Lemma selchanged_switches t page m :
  this_is t (world m) →
  index (hTabPages t) (cur_sel (hTab t) (world m)) = Some page →
  TabCtrl_OnSelChanged m = Done TRUE (switched t page m).
Proof.
  intros Ht Hi. unfold TabCtrl_OnSelChanged, TabCtrl_GetCurSel.
  mrun deref_this. mrun @gets_Done.
  mrun deref_this. mrun ShowWindow_Done.
  mrun deref_this. mrun PostMessage_Done.
  mrun page_at_this. mrun ShowWindow_Done.
  mrun page_at_this. mrun store_this.
  unfold switched. cbn. by rewrite <-!app_assoc.
Qed.

Lemma modify_Done f m :
  modify f m = Done tt (mkMachine (f (world m)) (trace m) (inbox m)).
Proof. done. Qed.

(** The keys the handler ignores leave the machine as it is. *)
Lemma keydown_ignored tk tkd t m :
  this_is t (world m) → key_ignored tkd t (world m) →
  TabCtrl_OnKeyDown tk tkd m = Done tt m.
Proof.
  intros Ht [Hc|Hk]; [by apply keydown_single|].
  destruct (Z.le_gt_cases (item_count (hwndFrom (hdr tkd)) (world m)) 1) as [Hc|Hc];
    [by apply keydown_single|].
  rewrite (keydown_navigates tk tkd m t) by (done || lia).
  unfold is_prev_key, is_next_key, is_enter_key in Hk.
  destruct Hk as [[Hk H0]|(Hp & Hn & He)].
  - rewrite H0. cbn [Z.eqb].
    destruct (vertical t (world m));
      repeat match goal with
        | H : context [?k =? ?c] |- _ => destruct (Z.eqb_spec k c)
        end; cbn in *; try done; unfold VK_PRIOR, VK_UP, VK_NEXT, VK_LEFT in *; lia.
  - destruct (vertical t (world m));
      repeat match goal with
        | H : context [?k =? ?c] |- _ => destruct (Z.eqb_spec k c)
        end; cbn in *; done.
Qed.

(** C4.  A key-down notification: once the navigation handler has returned,
    [Notify] goes on into [TabCtrl_OnSelChanged] -- the recorded visible page
    is hidden and posted the hide message, the page at the strip's current
    selection is shown and recorded -- and returns [TRUE]; so it does for the
    keys the handler ignores, which leave the machine as [Notify] set it up.
    A notification that is neither a key-down nor a selection change only
    sets [m_lptc] and returns [FALSE]. *)
Theorem notify_keydown_falls_through tk pnm m :
  (code (hdr pnm) = TCN_KEYDOWN →
   ∀ m1 t page,
     TabCtrl_OnKeyDown tk pnm
       (pointing (window_long (hwndFrom (hdr pnm)) GWL_USERDATA (world m)) m)
     = Done tt m1 →
     this_is t (world m1) →
     index (hTabPages t) (cur_sel (hTab t) (world m1)) = Some page →
     Notify tk pnm m = Done TRUE (switched t page m1))
  ∧ (code (hdr pnm) = TCN_KEYDOWN →
     ∀ t page,
       this_is t
         (upd_m_lptc (window_long (hwndFrom (hdr pnm)) GWL_USERDATA (world m)) (world m)) →
       key_ignored pnm t
         (upd_m_lptc (window_long (hwndFrom (hdr pnm)) GWL_USERDATA (world m)) (world m)) →
       index (hTabPages t) (cur_sel (hTab t) (world m)) = Some page →
       Notify tk pnm m
       = Done TRUE
           (switched t page
              (pointing (window_long (hwndFrom (hdr pnm)) GWL_USERDATA (world m)) m)))
  ∧ (code (hdr pnm) ≠ TCN_KEYDOWN → code (hdr pnm) ≠ TCN_SELCHANGE →
     Notify tk pnm m
     = Done FALSE
         (pointing (window_long (hwndFrom (hdr pnm)) GWL_USERDATA (world m)) m)).
Proof.
  assert (Hkey : code (hdr pnm) = TCN_KEYDOWN →
   ∀ m1 t page,
     TabCtrl_OnKeyDown tk pnm
       (pointing (window_long (hwndFrom (hdr pnm)) GWL_USERDATA (world m)) m)
     = Done tt m1 →
     this_is t (world m1) →
     index (hTabPages t) (cur_sel (hTab t) (world m1)) = Some page →
     Notify tk pnm m = Done TRUE (switched t page m1)).
  { intros Hc m1 t page Hk Ht Hi. unfold Notify, GetWindowLong.
    mrun @gets_Done. mrun modify_Done. rewrite Hc, Z.eqb_refl.
    erewrite bind_Done by exact Hk. by apply selchanged_switches. }
  split; [done|split].
  - intros Hc t page Ht Hk Hi. apply Hkey; try done.
    by apply keydown_ignored with t.
  - intros H1 H2. unfold Notify, GetWindowLong.
    mrun @gets_Done. mrun modify_Done.
    by rewrite (proj2 (Z.eqb_neq _ _) H1), (proj2 (Z.eqb_neq _ _) H2).
Qed.

(** A selection-change notification goes to [TabCtrl_OnSelChanged]. *)
Lemma notify_selchange tk pnm m t page :
  code (hdr pnm) = TCN_SELCHANGE →
  this_is t
    (upd_m_lptc (window_long (hwndFrom (hdr pnm)) GWL_USERDATA (world m)) (world m)) →
  index (hTabPages t)
    (cur_sel (hTab t) (world m)) = Some page →
  Notify tk pnm m
  = Done TRUE (switched t page
      (pointing (window_long (hwndFrom (hdr pnm)) GWL_USERDATA (world m)) m)).
Proof.
  intros Hc Ht Hi. unfold Notify, GetWindowLong.
  mrun @gets_Done. mrun modify_Done. rewrite Hc. cbn [Z.eqb].
  by apply selchanged_switches.
Qed.

Lemma alter_visible_again (b b' : bool) (h : HWND) (ws : gmap Z Window) :
  alter (set_wVisible b) h (alter (set_wVisible b') h ws)
  = alter (set_wVisible b) h ws.
Proof.
  rewrite alter_alter_eq. apply alter_ext. by intros [] _.
Qed.

Lemma visible_after_show b h q (ws : gmap Z Window) w :
  windows w = alter (set_wVisible b) h ws →
  IsWindowVisible q w
  = if decide (q = h) then bool_decide (is_Some (ws !! h)) && b
    else from_option wVisible false (ws !! q).
Proof.
  intros H. unfold IsWindowVisible. rewrite H. case_decide as E.
  - subst q. rewrite lookup_alter_eq. by destruct (ws !! h) as [x|].
  - by rewrite lookup_alter_ne.
Qed.

(** C5.  Handling the selection change twice in a row, with the strip's
    selection at the same index, leaves the world as handling it once does:
    of the pages only the one at that index is visible, the page that was
    visible before is hidden (unless it is that very page), and the structure
    records the page at the index as the visible one. *)
Theorem selchanged_twice_as_once t page m :
  this_is t (world m) →
  index (hTabPages t) (cur_sel (hTab t) (world m)) = Some page →
  is_Some (windows (world m) !! page) →
  (∀ q, q ∈ hTabPages t → IsWindowVisible q (world m) = true → q = hVisiblePage t) →
  TabCtrl_OnSelChanged m = Done TRUE (switched t page m)
  ∧ (TabCtrl_OnSelChanged ≫= λ _, TabCtrl_OnSelChanged) m
    = Done TRUE (switched (set_hVisiblePage page t) page (switched t page m))
  ∧ world (switched (set_hVisiblePage page t) page (switched t page m))
    = world (switched t page m)
  ∧ this_is (set_hVisiblePage page t) (world (switched t page m))
  ∧ (∀ q, q ∈ hTabPages t →
       IsWindowVisible q (world (switched t page m)) = true ↔ q = page)
  ∧ (hVisiblePage t ≠ page →
       IsWindowVisible (hVisiblePage t) (world (switched t page m)) = false).
Proof.
  intros Ht Hi [pw Hpw] Hinv.
  assert (Ht1 : this_is (set_hVisiblePage page t) (world (switched t page m))).
  { destruct Ht as [Hn Hh]. split; [done|]. cbn. by rewrite lookup_alter_eq, Hh. }
  assert (Hvis : ∀ q, IsWindowVisible q (world (switched t page m))
     = if decide (q = page) then true
       else if decide (q = hVisiblePage t) then false
       else IsWindowVisible q (world m)).
  { intros q.
    rewrite (visible_after_show true page q
      (alter (set_wVisible false) (hVisiblePage t) (windows (world m)))) by done.
    case_decide as E1.
    - rewrite bool_decide_eq_true_2; [done|].
      destruct (decide (page = hVisiblePage t)) as [<-|E2].
      + rewrite lookup_alter_eq, Hpw. by eexists.
      + rewrite lookup_alter_ne, Hpw by done. by eexists.
    - case_decide as E2.
      + subst q. rewrite lookup_alter_eq.
        by destruct (windows (world m) !! hVisiblePage t).
      + by rewrite lookup_alter_ne. }
  split; [by apply selchanged_switches|].
  split.
  { erewrite bind_Done by by apply selchanged_switches.
    by apply selchanged_switches. }
  split.
  { unfold switched. cbn. unfold upd_heap, upd_windows. cbn. f_equal.
    - by rewrite alter_visible_again, alter_visible_again.
    - rewrite alter_alter_eq. apply alter_ext. by intros [] _. }
  split; [done|]. split.
  - intros q Hq. rewrite Hvis. case_decide as E1; [done|].
    case_decide as E2; [done|].
    split; [|done]. intros Hv. by apply Hinv in Hv.
  - intros Hne. rewrite Hvis. by rewrite decide_False, decide_True.
Qed.

(** ** Page placement *)

Lemma SetWindowPos_Done page r m :
  SetWindowPos page HWND_TOP (left r) (top r) (right r) (bottom r) 0 m
  = Done (is_window page (world m)) (placed page r m).
Proof.
  unfold SetWindowPos, placed, is_window. munfold.
  destruct (windows (world m) !! page) as [x|] eqn:E; cbn; [done|].
  unfold upd_windows. rewrite alter_id' by done. by destruct m as [[] ? ?].
Qed.

Lemma in_int_add a b : in_int (int_add a b).
Proof. apply wrap32_in_int. Qed.

Lemma in_int_sub a b : in_int (int_sub a b).
Proof. apply wrap32_in_int. Qed.

Lemma display_area_in_int lStyle rtab_0 prc :
  in_int (left (display_area lStyle rtab_0 prc))
  ∧ in_int (top (display_area lStyle rtab_0 prc))
  ∧ in_int (right (display_area lStyle rtab_0 prc))
  ∧ in_int (bottom (display_area lStyle rtab_0 prc)).
Proof.
  unfold display_area.
  repeat match goal with |- context [if ?b then _ else _] => destruct b end;
    cbn; auto using in_int_add, in_int_sub.
Qed.

(** The display area is a rectangle of [LONG]s. *)
Lemma layout_in_int hwnd rect m m' :
  TabControl_GetClientRect hwnd m = Done rect m' →
  in_int (left rect) ∧ in_int (top rect) ∧ in_int (right rect) ∧ in_int (bottom rect).
Proof.
  unfold TabControl_GetClientRect, GetWindowLong, GetWindowRect, GetParent,
    ScreenToClient, TabCtrl_GetItemRect0.
  munfold. destruct (windows (world m) !! hwnd); cbn; [|done].
  destruct (strips (world m) !! hwnd) as [s|]; cbn; [|done].
  destruct (tsItems s); [done|]. intros [= <- _]. apply display_area_in_int.
Qed.

Lemma StretchTabPage_Done hTab_arg iPage m t page rect :
  this_is t (upd_m_lptc (window_long hTab_arg GWL_USERDATA (world m)) (world m)) →
  index (hTabPages t) iPage = Some page →
  TabControl_GetClientRect hTab_arg
    (pointing (window_long hTab_arg GWL_USERDATA (world m)) m)
  = Done rect (pointing (window_long hTab_arg GWL_USERDATA (world m)) m) →
  StretchTabPage hTab_arg iPage m
  = Done (is_window page (world m))
      (placed page rect (pointing (window_long hTab_arg GWL_USERDATA (world m)) m)).
Proof.
  intros Ht Hi Hrect. unfold StretchTabPage, GetWindowLong.
  mrun @gets_Done. mrun modify_Done.
  erewrite bind_Done by exact Hrect.
  mrun page_at_this. by rewrite SetWindowPos_Done.
Qed.

Lemma GetClientRect_window page pw m :
  windows (world m) !! page = Some pw → GetClientRect page m = Done (wClient pw) m.
Proof. intros H. unfold GetClientRect. munfold. by rewrite H. Qed.

Lemma CenterTabPage_Done hTab_arg iPage m t page pw rect :
  this_is t (upd_m_lptc (window_long hTab_arg GWL_USERDATA (world m)) (world m)) →
  index (hTabPages t) iPage = Some page →
  TabControl_GetClientRect hTab_arg
    (pointing (window_long hTab_arg GWL_USERDATA (world m)) m)
  = Done rect (pointing (window_long hTab_arg GWL_USERDATA (world m)) m) →
  windows (world m) !! page = Some pw →
  CenterTabPage hTab_arg iPage m
  = Done TRUE
      (placed page (centered rect (wClient pw))
         (pointing (window_long hTab_arg GWL_USERDATA (world m)) m)).
Proof.
  intros Ht Hi Hrect Hpw. unfold CenterTabPage, GetWindowLong.
  mrun @gets_Done. mrun modify_Done.
  erewrite bind_Done by exact Hrect.
  mrun page_at_this. mrun GetClientRect_window. mrun page_at_this.
  cbv zeta. rewrite SetWindowPos_Done.
  unfold is_window. cbn. by rewrite Hpw.
Qed.

(** C7.  [StretchTabPage] asks for the page to be put, on top, at the origin
    of the display area and with its width and height, whatever the page's
    own size; the page, when it is a window, is placed so. *)
Theorem stretch_fills_display_area hTab_arg iPage m t page rect :
  this_is t (upd_m_lptc (window_long hTab_arg GWL_USERDATA (world m)) (world m)) →
  index (hTabPages t) iPage = Some page →
  TabControl_GetClientRect hTab_arg
    (pointing (window_long hTab_arg GWL_USERDATA (world m)) m)
  = Done rect (pointing (window_long hTab_arg GWL_USERDATA (world m)) m) →
  StretchTabPage hTab_arg iPage m
  = Done (is_window page (world m))
      (placed page rect (pointing (window_long hTab_arg GWL_USERDATA (world m)) m))
  ∧ calls_since m
      (placed page rect (pointing (window_long hTab_arg GWL_USERDATA (world m)) m))
    = [CSetWindowPos page HWND_TOP (left rect) (top rect) (right rect) (bottom rect) 0]
  ∧ ∀ pw, windows (world m) !! page = Some pw →
      is_window page (world m) = TRUE
      ∧ wPlacement <$>
          windows (world (placed page rect
            (pointing (window_long hTab_arg GWL_USERDATA (world m)) m))) !! page
        = Some (Some (left rect, top rect, right rect, bottom rect)).
Proof.
  intros Ht Hi Hrect. split; [|split].
  - by apply StretchTabPage_Done with t.
  - unfold calls_since, placed. cbn. by rewrite drop_app_length.
  - intros pw Hpw. unfold is_window. rewrite Hpw. split; [done|].
    cbn. by rewrite lookup_alter_eq, Hpw.
Qed.

(** One axis of [centered], without overflow. *)
Lemma centered_axis origin extent size :
  in_int origin → in_int extent → 0 ≤ size < 2 ^ 31 → in_int (origin + extent) →
  (if size <? extent
   then int_add origin (int_div (int_sub extent size) 2)
   else origin)
  = (if size <? extent then origin + (extent - size) / 2 else origin).
Proof.
  unfold in_int. intros Ho He Hs Hoe. destruct (Z.ltb_spec size extent); [|done].
  unfold int_add, int_div, int_sub.
  rewrite (wrap32_id (extent - size)) by (unfold in_int; lia).
  rewrite Z.quot_div_nonneg by lia.
  assert (0 ≤ (extent - size) / 2 ≤ extent - size).
  { split; [apply Z.div_pos; lia|]. apply Z.div_le_upper_bound; lia. }
  rewrite (wrap32_id ((extent - size) / 2)) by (unfold in_int; lia).
  apply wrap32_id. unfold in_int. lia.
Qed.

Lemma centered_exact rect rc w h :
  in_int (left rect) → in_int (top rect) → in_int (right rect) → in_int (bottom rect) →
  right rc - left rc = w → bottom rc - top rc = h →
  0 ≤ w < 2 ^ 31 → 0 ≤ h < 2 ^ 31 →
  in_int (left rect + right rect) → in_int (top rect + bottom rect) →
  centered rect rc
  = mkRECT
      (if w <? right rect then left rect + (right rect - w) / 2 else left rect)
      (if h <? bottom rect then top rect + (bottom rect - h) / 2 else top rect)
      w h.
Proof.
  intros Hl Ht Hr Hb Hw Hh Hwr Hhr Hx Hy. unfold centered.
  assert (Ew : int_sub (right rc) (left rc) = w).
  { unfold int_sub. rewrite Hw. apply wrap32_id. unfold in_int. lia. }
  assert (Eh : int_sub (bottom rc) (top rc) = h).
  { unfold int_sub. rewrite Hh. apply wrap32_id. unfold in_int. lia. }
  rewrite Ew, Eh. by rewrite !centered_axis.
Qed.

(** C6.  [CenterTabPage] keeps the page's natural size [w] by [h].  On an
    axis where the page is smaller than the display area its origin is the
    area's plus half the difference, so that the margins on the two sides
    differ by at most one; on an axis where it is not smaller its origin is
    the area's.  (The natural size is not negative and the far corner of the
    display area is a [LONG], so that nothing wraps around.) *)
Theorem center_places_page hTab_arg iPage m t page pw rect w h :
  this_is t (upd_m_lptc (window_long hTab_arg GWL_USERDATA (world m)) (world m)) →
  index (hTabPages t) iPage = Some page →
  TabControl_GetClientRect hTab_arg
    (pointing (window_long hTab_arg GWL_USERDATA (world m)) m)
  = Done rect (pointing (window_long hTab_arg GWL_USERDATA (world m)) m) →
  windows (world m) !! page = Some pw →
  right (wClient pw) - left (wClient pw) = w →
  bottom (wClient pw) - top (wClient pw) = h →
  0 ≤ w < 2 ^ 31 → 0 ≤ h < 2 ^ 31 →
  in_int (left rect + right rect) → in_int (top rect + bottom rect) →
  ∃ x y,
    CenterTabPage hTab_arg iPage m
    = Done TRUE
        (placed page (mkRECT x y w h)
           (pointing (window_long hTab_arg GWL_USERDATA (world m)) m))
    ∧ (w < right rect →
         x = left rect + (right rect - w) / 2
         ∧ x - left rect ≤ left rect + right rect - (x + w) ≤ x - left rect + 1)
    ∧ (right rect ≤ w → x = left rect)
    ∧ (h < bottom rect →
         y = top rect + (bottom rect - h) / 2
         ∧ y - top rect ≤ top rect + bottom rect - (y + h) ≤ y - top rect + 1)
    ∧ (bottom rect ≤ h → y = top rect).
Proof.
  intros Ht Hi Hrect Hpw Hw Hh Hwr Hhr Hx Hy.
  destruct (layout_in_int _ _ _ _ Hrect) as (Hl & Htop & Hr & Hb).
  exists (if w <? right rect then left rect + (right rect - w) / 2 else left rect),
    (if h <? bottom rect then top rect + (bottom rect - h) / 2 else top rect).
  split.
  { rewrite (CenterTabPage_Done _ _ _ t page pw rect) by done.
    by rewrite (centered_exact rect (wClient pw) w h). }
  assert (Hhalf : ∀ d, 0 < d → d / 2 ≤ d - d / 2 ≤ d / 2 + 1).
  { intros d Hd. pose proof (Z.div_mod d 2). pose proof (Z.mod_pos_bound d 2). lia. }
  split; [|split; [|split]]; intros Hlt.
  - rewrite (proj2 (Z.ltb_lt _ _) Hlt). specialize (Hhalf (right rect - w)). lia.
  - by rewrite (proj2 (Z.ltb_ge _ _) Hlt).
  - rewrite (proj2 (Z.ltb_lt _ _) Hlt). specialize (Hhalf (bottom rect - h)). lia.
  - by rewrite (proj2 (Z.ltb_ge _ _) Hlt).
Qed.

(** ** Construction *)

Lemma fresh_hwnd_bound w :
  0 ≤ map_fold (λ k (_ : Window) acc, Z.max k acc) 0 (windows w)
  ∧ ∀ k, is_Some (windows w !! k) →
      k ≤ map_fold (λ k (_ : Window) acc, Z.max k acc) 0 (windows w).
Proof.
  apply (map_fold_weak_ind (λ b (ws : gmap Z Window),
           0 ≤ b ∧ ∀ k, is_Some (ws !! k) → k ≤ b)).
  - split; [done|]. intros k [x Hx]. by rewrite lookup_empty in Hx.
  - intros i x ws r Hi [H0 IH]. split; [lia|].
    intros k [y Hy]. destruct (decide (k = i)) as [->|Hne]; [lia|].
    rewrite lookup_insert_ne in Hy by done.
    specialize (IH k (ex_intro _ y Hy)). lia.
Qed.

Lemma fresh_hwnd_fresh w : windows w !! fresh_hwnd w = None.
Proof.
  destruct (windows w !! fresh_hwnd w) as [x|] eqn:E; [|done].
  destruct (fresh_hwnd_bound w) as [_ H].
  specialize (H _ (ex_intro _ x E)). unfold fresh_hwnd in H. lia.
Qed.

Lemma count_pages_ids ids junk :
  Forall (λ d, d ≠ 0) ids →
  count_pages (ids ++ 0 :: junk) = Some (Z.of_nat (length ids)).
Proof.
  induction 1 as [|d ids Hd _ IH]; [done|].
  cbn. rewrite (proj2 (Z.eqb_neq _ _) Hd), IH. cbn. f_equal. lia.
Qed.

Lemma index_of_nat {A} (l : list A) (k : nat) : index l (Z.of_nat k) = l !! k.
Proof.
  unfold index. rewrite (proj2 (Z.ltb_ge _ _)) by lia. by rewrite Nat2Z.id.
Qed.

Lemma defined_Some {A} (o : option A) a m : o = Some a → defined o m = Done a m.
Proof. by intros ->. Qed.

Lemma InsertItem_Done h i text m :
  TabCtrl_InsertItem h i text m
  = Done tt (mkMachine (upd_strips (alter (insert_item i text) h) (world m))
      (trace m ++ [CInsertItem h i text]) (inbox m)).
Proof. done. Qed.

Lemma SetWindowLong_Done h v m :
  SetWindowLong h GWL_USERDATA v m
  = Done tt (mkMachine (upd_windows (alter (set_wUserData v) h) (world m))
      (trace m ++ [CSetWindowLong h GWL_USERDATA v]) (inbox m)).
Proof. done. Qed.

Lemma CreateDialog_Done d parent tpl m :
  templates (world m) !! d = Some tpl →
  CreateDialog d parent m
  = Done (fresh_hwnd (world m))
      (mkMachine
         (upd_windows (insert (fresh_hwnd (world m)) (dialog_window parent tpl))
            (world m))
         (trace m ++ [CCreateDialog d parent]) (inbox m)).
Proof. intros H. unfold CreateDialog. munfold. by rewrite H. Qed.

(** The display area depends on the strip's window, its parent's origin and
    its first tab only. *)
Lemma layout_area hwnd sw sw' pwin pwin' s s' m :
  windows (world m) !! hwnd = Some sw' →
  wStyle sw' = wStyle sw → wRect sw' = wRect sw → wOrigin sw' = wOrigin sw →
  windows (world m) !! wParent sw' = Some pwin' →
  wOrigin pwin' = wOrigin pwin →
  strips (world m) !! hwnd = Some s' →
  tsItems s' ≠ [] → tsItemRect0 s' = tsItemRect0 s →
  TabControl_GetClientRect hwnd m = Done (area_of sw pwin s) m.
Proof.
  intros Hw Hst Hr Ho Hp Hpo Hs Hi Hir.
  unfold TabControl_GetClientRect, GetWindowLong, GetWindowRect, GetParent,
    ScreenToClient, TabCtrl_GetItemRect0, window_long, parent_of, area_of.
  munfold. rewrite Hw. cbn. rewrite !Hw. cbn. rewrite Hp, Hs.
  destruct (tsItems s'); [done|].
  cbn. by rewrite Hst, Hr, Ho, Hpo, Hir.
Qed.

Section Construct.

Variables (lptc : Z) (hTab_arg : HWND) (labels : list string) (ids junk : list Z).
Variables (fStretch : BOOL) (m : Machine) (t0 : TABCTRL) (sw pwin : Window).
Variable s0 : TabStrip.

Hypothesis Hlptc : lptc ≠ NULL.
Hypothesis Hheap : heap (world m) !! lptc = Some t0.
Hypothesis Hsw : windows (world m) !! hTab_arg = Some sw.
Hypothesis Hpwin : windows (world m) !! wParent sw = Some pwin.
Hypothesis Hs0 : strips (world m) !! hTab_arg = Some s0.
Hypothesis Hids : Forall (λ d, d ≠ 0) ids.
Hypothesis Hlabels : (length ids ≤ length labels)%nat.
Hypothesis Htpl : Forall (λ d, is_Some (templates (world m) !! d)) ids.

Local Abbreviation going := (building lptc hTab_arg labels ids fStretch m sw pwin s0).

Lemma going_strip_window pages mk :
  going pages mk → windows (world mk) !! hTab_arg = Some (set_wUserData lptc sw).
Proof.
  intros B. rewrite (b_old _ _ _ _ _ _ _ _ _ _ _ B).
  - by rewrite lookup_alter_eq, Hsw.
  - intros Hin. apply (b_new _ _ _ _ _ _ _ _ _ _ _ B) in Hin. congruence.
Qed.

Lemma going_parent_window pages mk :
  going pages mk →
  ∃ pwin', windows (world mk) !! wParent sw = Some pwin'
           ∧ wOrigin pwin' = wOrigin pwin.
Proof.
  intros B. rewrite (b_old _ _ _ _ _ _ _ _ _ _ _ B).
  - destruct (decide (wParent sw = hTab_arg)) as [E|E].
    + rewrite E, lookup_alter_eq, Hsw. eexists; split; [done|].
      rewrite E, Hsw in Hpwin. by injection Hpwin as <-.
    + rewrite lookup_alter_ne, Hpwin by done. by eexists.
  - intros Hin. apply (b_new _ _ _ _ _ _ _ _ _ _ _ B) in Hin. congruence.
Qed.

Lemma store_this_at t f p mm :
  this_is t (world mm) → m_lptc (world mm) = p →
  store_m_lptc f mm
  = Done tt (mkMachine (upd_heap (alter f p) (world mm)) (trace mm) (inbox mm)).
Proof. intros Ht <-. by apply store_this with t. Qed.

Lemma going_step pages mk :
  going pages mk → (length pages < length ids)%nat →
  ∃ h mk',
    add_page hTab_arg (ids ++ 0 :: junk) (Z.of_nat (length pages)) mk = Done tt mk'
    ∧ going (pages ++ [h]) mk'.
Proof.
  intros B Hk.
  destruct (b_struct _ _ _ _ _ _ _ _ _ _ _ B) as [hv Hst].
  pose proof (b_this _ _ _ _ _ _ _ _ _ _ _ B) as Hm.
  assert (Hthis : this_is
    (mkTABCTRL hTab_arg hv (pages ++ replicate (length ids - length pages) NULL)
       labels (Z.of_nat (length ids)) fStretch) (world mk)) by (by split; rewrite Hm).
  destruct (lookup_lt_is_Some_2 labels (length pages)) as [label Hlabel]; [lia|].
  destruct (lookup_lt_is_Some_2 ids (length pages)) as [d Hd]; [lia|].
  destruct (Forall_lookup_1 _ _ _ _ Htpl Hd) as [tpl Htpl_d].
  assert (Htplk : templates (world mk) !! d = Some tpl)
    by by rewrite (b_templates _ _ _ _ _ _ _ _ _ _ _ B).
  pose proof (going_strip_window _ _ B) as Hstrip.
  destruct (going_parent_window _ _ B) as (pwin' & Hpwin' & Horigin).
  destruct (b_strip _ _ _ _ _ _ _ _ _ _ _ B) as (sk & Hsk & Hitems & Hrect0).
  assert (Hparent : parent_of hTab_arg (world mk) = wParent sw)
    by (unfold parent_of; by rewrite Hstrip).
  pose proof (fresh_hwnd_fresh (world mk)) as Hfresh.
  set (k := length pages) in *.
  set (h := fresh_hwnd (world mk)) in *.
  assert (Hh1 : h ≠ hTab_arg) by congruence.
  assert (Hh2 : h ≠ wParent sw) by congruence.
  pose (m1 := mkMachine
    (upd_strips (alter (insert_item (Z.of_nat k) label) hTab_arg) (world mk))
    (trace mk ++ [CInsertItem hTab_arg (Z.of_nat k) label]) (inbox mk)).
  pose (m2 := mkMachine
    (upd_windows (insert h (dialog_window (wParent sw) tpl)) (world m1))
    (trace m1 ++ [CCreateDialog d (wParent sw)]) (inbox m1)).
  pose (pages' := <[k:=h]> (pages ++ replicate (length ids - k) NULL)).
  pose (m3 := mkMachine
    (upd_heap (alter (set_hTabPages pages') lptc) (world m2)) (trace m2) (inbox m2)).
  pose (m4 := mkMachine
    (upd_windows (alter (set_wUserData hTab_arg) h) (world m3))
    (trace m3 ++ [CSetWindowLong h GWL_USERDATA hTab_arg]) (inbox m3)).
  pose (rect := area_of sw pwin s0).
  pose (geo := if fStretch =? 0
               then centered rect (wClient (dialog_window (wParent sw) tpl))
               else rect).
  pose (m5 := placed h geo m4).
  assert (Hthis3 : this_is
    (mkTABCTRL hTab_arg hv pages' labels (Z.of_nat (length ids)) fStretch)
    (world m4)).
  { split; [by rewrite <-Hm in Hlptc|]. cbn. by rewrite Hm, lookup_alter_eq, Hst. }
  assert (Hpage : index pages' (Z.of_nat k) = Some h).
  { rewrite index_of_nat. apply list_lookup_insert_eq.
    rewrite length_app, length_replicate. lia. }
  assert (Hud : window_long hTab_arg GWL_USERDATA (world m4) = lptc).
  { unfold window_long. cbn. rewrite lookup_alter_ne, lookup_insert_ne by done.
    by rewrite Hstrip. }
  assert (Harea : TabControl_GetClientRect hTab_arg m4 = Done rect m4).
  { apply (layout_area hTab_arg sw (set_wUserData lptc sw) pwin pwin' s0
             (insert_item (Z.of_nat k) label sk)); try done.
    - cbn. by rewrite lookup_alter_ne, lookup_insert_ne.
    - cbn. by rewrite lookup_alter_ne, lookup_insert_ne.
    - cbn. by rewrite lookup_alter_eq, Hsk.
    - unfold insert_item. rewrite (proj2 (Z.ltb_ge _ _)) by lia. cbn.
      intros E. apply (f_equal length) in E. rewrite length_app in E.
      cbn in E. lia.
    - unfold insert_item. rewrite (proj2 (Z.ltb_ge _ _)) by lia. done. }
  assert (Hwin : windows (world m4) !! h
                 = Some (set_wUserData hTab_arg (dialog_window (wParent sw) tpl))).
  { cbn. by rewrite lookup_alter_eq, lookup_insert_eq. }
  assert (Hpoint : pointing lptc m4 = m4).
  { unfold pointing, upd_m_lptc, m4, m3, m2, m1, upd_windows, upd_heap,
      upd_strips. cbn. by rewrite Hm. }
  assert (Hbound : (0 <=? Z.of_nat k)
      && (Z.of_nat k
          <? Z.of_nat (length (pages ++ replicate (length ids - k) NULL))) = true).
  { rewrite length_app, length_replicate. apply andb_true_iff.
    split; [apply Z.leb_le|apply Z.ltb_lt]; lia. }
  exists h, m5. split.
  - unfold add_page.
    mrun deref_this. cbn [tabNames hTab].
    erewrite bind_Done
      by (apply defined_Some; rewrite index_of_nat; exact Hlabel).
    mrun InsertItem_Done.
    mrun deref_this. cbn [tabNames hTab].
    unfold GetParent. mrun @gets_Done.
    change (parent_of hTab_arg _) with (parent_of hTab_arg (world mk)).
    rewrite Hparent.
    erewrite bind_Done
      by (apply defined_Some; rewrite index_of_nat, lookup_app_l by done; exact Hd).
    erewrite bind_Done by (apply (CreateDialog_Done d (wParent sw) tpl); exact Htplk).
    cbn [world trace inbox].
    change (fresh_hwnd _) with h.
    mrun deref_this. cbn [hTabPages].
    rewrite Hbound, Nat2Z.id.
    erewrite bind_Done
      by (eapply (store_this_at _ _ lptc); [exact Hthis | exact Hm]).
    cbn [world trace inbox].
    change (<[k:=h]> _) with pages'.
    erewrite bind_Done by (eapply page_at_this; [exact Hthis3 | exact Hpage]).
    mrun SetWindowLong_Done.
    erewrite bind_Done by (eapply deref_this; exact Hthis3).
    cbn [blStretchTabs hTab].
    change (mkMachine _ _ _) with m4.
    assert (Hthis3' : this_is
      (mkTABCTRL hTab_arg hv pages' labels (Z.of_nat (length ids)) fStretch)
      (upd_m_lptc (window_long hTab_arg GWL_USERDATA (world m4)) (world m4))).
    { rewrite Hud. change (upd_m_lptc lptc (world m4)) with (world (pointing lptc m4)).
      by rewrite Hpoint. }
    assert (Harea' : TabControl_GetClientRect hTab_arg
        (pointing (window_long hTab_arg GWL_USERDATA (world m4)) m4)
      = Done rect (pointing (window_long hTab_arg GWL_USERDATA (world m4)) m4))
      by by rewrite Hud, Hpoint.
    unfold m5, geo. destruct (fStretch =? 0); cbn [negb].
    + erewrite bind_Done
        by (eapply CenterTabPage_Done; [exact Hthis3' | exact Hpage | exact Harea' | exact Hwin]).
      by rewrite Hud, Hpoint.
    + erewrite bind_Done
        by (eapply StretchTabPage_Done; [exact Hthis3' | exact Hpage | exact Harea']).
      by rewrite Hud, Hpoint.
  - assert (Hnotin : h ∉ pages).
    { intros Hin. apply list_elem_of_lookup in Hin as [i Hi].
      destruct (b_pages _ _ _ _ _ _ _ _ _ _ _ B i h Hi) as (? & ? & _ & _ & Hw).
      congruence. }
    assert (Hwk : ∀ x, x ≠ h → windows (world m5) !! x = windows (world mk) !! x).
    { intros x Hx. cbn. by rewrite !lookup_alter_ne, lookup_insert_ne. }
    assert (Htake : take (S k) labels = take k labels ++ [label])
      by by apply take_S_r.
    assert (Hlen : length (take k labels) = k) by (rewrite length_take; lia).
    assert (Hk1 : length (pages ++ [h]) = S k)
      by (rewrite length_app; cbn; unfold k; lia).
    split.
    + cbn. exact Hm.
    + rewrite Hk1. lia.
    + exists hv. cbn. rewrite lookup_alter_eq, Hst. cbn. do 2 f_equal.
      unfold pages'. rewrite Hk1.
      replace (length ids - k)%nat with (S (length ids - S k))%nat by lia.
      cbn [replicate]. rewrite insert_app_r_alt by done.
      replace (k - length pages)%nat with 0%nat by (unfold k; lia).
      by rewrite <-app_assoc.
    + intros x Hx. rewrite not_elem_of_app, list_elem_of_singleton in Hx.
      destruct Hx as [Hx1 Hx2]. rewrite Hwk by done.
      by apply (b_old _ _ _ _ _ _ _ _ _ _ _ B).
    + intros x Hx. rewrite elem_of_app, list_elem_of_singleton in Hx.
      destruct Hx as [Hx| ->]; [by apply (b_new _ _ _ _ _ _ _ _ _ _ _ B)|].
      pose proof (b_old _ _ _ _ _ _ _ _ _ _ _ B h Hnotin) as Ho.
      rewrite Hfresh in Ho. symmetry in Ho.
      apply lookup_alter_None in Ho. exact Ho.
    + apply NoDup_app. split; [apply (b_nodup _ _ _ _ _ _ _ _ _ _ _ B)|].
      split; [|apply NoDup_singleton].
      intros x Hx Hx'. apply list_elem_of_singleton in Hx'. by subst x.
    + exists (insert_item (Z.of_nat k) label sk). split; [|split].
      * cbn. by rewrite lookup_alter_eq, Hsk.
      * unfold insert_item. rewrite (proj2 (Z.ltb_ge _ _)) by lia.
        cbn [tsItems]. rewrite Nat2Z.id, Hitems, length_app, Hlen.
        rewrite Nat.min_l by lia.
        rewrite take_app_length' by done. rewrite drop_app_length' by done.
        by rewrite Hk1, Htake, <-app_assoc.
      * unfold insert_item. by rewrite (proj2 (Z.ltb_ge _ _)) by lia.
    + cbn. apply (b_templates _ _ _ _ _ _ _ _ _ _ _ B).
    + intros i page Hi.
      destruct (decide (i < k)%nat) as [Hlt|Hge].
      * rewrite lookup_app_l in Hi by done.
        destruct (b_pages _ _ _ _ _ _ _ _ _ _ _ B i page Hi)
          as (d' & tpl' & Hd' & Ht' & Hw').
        exists d', tpl'. split; [done|]. split; [done|].
        rewrite Hwk; [done|]. intros ->. apply Hnotin.
        apply list_elem_of_lookup. by exists i.
      * rewrite lookup_app_r in Hi by (unfold k in *; lia).
        apply list_lookup_singleton_Some in Hi as [Hi <-].
        assert (i = k) as -> by (unfold k in *; lia).
        exists d, tpl. split; [done|]. split; [done|].
        cbn. rewrite lookup_alter_eq, lookup_alter_eq, lookup_insert_eq.
        done.
    + destruct (b_calls _ _ _ _ _ _ _ _ _ _ _ B) as (l & Hl & Hins & Hcre & Hsh).
      exists (l ++ [CInsertItem hTab_arg (Z.of_nat k) label;
                    CCreateDialog d (wParent sw);
                    CSetWindowLong h GWL_USERDATA hTab_arg;
                    CSetWindowPos h HWND_TOP (left geo) (top geo) (right geo)
                      (bottom geo) 0]).
      split; [|split; [|split]].
      * cbn. rewrite Hl. by rewrite <-!app_assoc.
      * unfold inserted in *. rewrite omap_app, Hins, Hk1. cbn.
        rewrite Htake, imap_app, Hlen. cbn. by rewrite Nat.add_0_r.
      * unfold created in *. rewrite omap_app, Hcre, Hk1. cbn.
        rewrite (take_S_r ids k d) by done. by rewrite fmap_app.
      * unfold shown in *. by rewrite omap_app, Hsh.
Qed.

Lemma going_loop j : ∀ pages mk turns,
  going pages mk → (length ids - length pages = j)%nat → (j < turns)%nat →
  ∃ pages' mk',
    add_pages hTab_arg (ids ++ 0 :: junk) turns (Z.of_nat (length pages)) mk
    = Done tt mk'
    ∧ going pages' mk' ∧ length pages' = length ids.
Proof.
  induction j as [|j IH]; intros pages mk turns B Hj Hturns.
  - exists pages, mk. pose proof (b_len _ _ _ _ _ _ _ _ _ _ _ B).
    split; [|split; [done|lia]].
    destruct (b_struct _ _ _ _ _ _ _ _ _ _ _ B) as [hv Hst].
    pose proof (b_this _ _ _ _ _ _ _ _ _ _ _ B) as Hm.
    destruct turns; cbn [add_pages];
      (erewrite bind_Done by (eapply deref_this; by split; rewrite Hm));
      cbn [tabPageCount]; by rewrite (proj2 (Z.ltb_ge _ _)) by lia.
  - destruct turns as [|turns]; [lia|].
    destruct (b_struct _ _ _ _ _ _ _ _ _ _ _ B) as [hv Hst].
    pose proof (b_this _ _ _ _ _ _ _ _ _ _ _ B) as Hm.
    destruct (going_step pages mk B) as (h & mk1 & Hrun & B1); [lia|].
    destruct (IH (pages ++ [h]) mk1 turns B1) as (pages' & mk' & Hrun' & B' & Hlen').
    { rewrite length_app. cbn. lia. }
    { lia. }
    exists pages', mk'. split; [|done].
    cbn [add_pages].
    erewrite bind_Done by (eapply deref_this; by split; rewrite Hm).
    cbn [tabPageCount]. rewrite (proj2 (Z.ltb_lt _ _)) by lia.
    erewrite bind_Done by exact Hrun.
    rewrite length_app in Hrun'. cbn [length] in Hrun'.
    by rewrite Nat2Z.inj_add in Hrun'.
Qed.

(** The machine when the loop is reached. *)
Lemma going_start :
  ∃ m0,
    New_TabControl lptc hTab_arg labels (ids ++ 0 :: junk) fStretch m
    = (add_pages hTab_arg (ids ++ 0 :: junk) (S (length ids)) 0;;
       page ← page_at 0;
       ShowWindow page SW_SHOW;;
       page ← page_at 0;
       store_m_lptc (set_hVisiblePage page)) m0
    ∧ going [] m0.
Proof.
  eexists. split.
  - unfold New_TabControl.
    mrun modify_Done. mrun SetWindowLong_Done.
    erewrite bind_Done by (eapply (store_this_at t0 _ lptc); by split).
    cbn [world trace inbox].
    erewrite bind_Done
      by (eapply (store_this_at _ _ lptc);
          [split; [done|cbn; by rewrite lookup_alter_eq, Hheap] | done]).
    cbn [world trace inbox].
    erewrite bind_Done
      by (eapply (store_this_at _ _ lptc);
          [split; [done|cbn; by rewrite !lookup_alter_eq, Hheap] | done]).
    cbn [world trace inbox].
    erewrite bind_Done by (apply defined_Some, count_pages_ids, Hids).
    erewrite bind_Done
      by (eapply (store_this_at _ _ lptc);
          [split; [done|cbn; by rewrite !lookup_alter_eq, Hheap] | done]).
    cbn [world trace inbox].
    erewrite bind_Done
      by (eapply (store_this_at _ _ lptc);
          [split; [done|cbn; by rewrite !lookup_alter_eq, Hheap] | done]).
    cbn [world trace inbox]. rewrite Nat2Z.id. reflexivity.
  - split.
    + done.
    + cbn. lia.
    + exists (hVisiblePage t0). cbn. rewrite !lookup_alter_eq, Hheap. cbn.
      by rewrite Nat.sub_0_r.
    + intros h _. done.
    + intros h Hh. by apply elem_of_nil in Hh.
    + constructor.
    + exists s0. by split.
    + done.
    + intros i page Hi. by rewrite lookup_nil in Hi.
    + exists [CSetWindowLong hTab_arg GWL_USERDATA lptc]. by split.
Qed.

(** C8, amended.  For a template list with at least one entry before its
    null entry, labels for each of them, and a dialog resource for each:
    [New_TabControl] returns, with a page list as long as the template list
    before the null entry; it has inserted one strip item per label, in label
    order; it has created one dialog per entry, in the strip's parent, each a
    window that was not there before, linked to the strip and placed in the
    strip's display area by the policy asked for; it has shown the page at
    index 0 and no other window; and that page is recorded as the visible
    one. *)
Theorem new_tabcontrol_builds_pages :
  ids ≠ [] →
  ∃ m' pages page0,
    New_TabControl lptc hTab_arg labels (ids ++ 0 :: junk) fStretch m = Done tt m'
    ∧ length pages = length ids
    ∧ pages !! 0%nat = Some page0
    ∧ m_lptc (world m') = lptc
    ∧ heap (world m') !! lptc
      = Some (mkTABCTRL hTab_arg page0 pages labels (Z.of_nat (length ids)) fStretch)
    ∧ inserted (calls_since m m')
      = imap (λ i s, (hTab_arg, Z.of_nat i, s)) (take (length ids) labels)
    ∧ tsItems <$> strips (world m') !! hTab_arg
      = Some (take (length ids) labels ++ tsItems s0)
    ∧ created (calls_since m m') = (λ d, (d, wParent sw)) <$> ids
    ∧ NoDup pages
    ∧ (∀ page, page ∈ pages → windows (world m) !! page = None)
    ∧ TabControl_GetClientRect hTab_arg m' = Done (area_of sw pwin s0) m'
    ∧ (∀ i page, pages !! i = Some page →
         ∃ d tpl, ids !! i = Some d ∧ templates (world m) !! d = Some tpl
           ∧ windows (world m') !! page
             = Some (set_wVisible (if decide (i = 0%nat) then true else dtVisible tpl)
                       (page_window hTab_arg fStretch sw (area_of sw pwin s0) tpl)))
    ∧ shown (calls_since m m') = [(page0, SW_SHOW)]
    ∧ IsWindowVisible page0 (world m') = true.
Proof.
  intros Hne.
  destruct going_start as (m0 & Hrun0 & B0).
  destruct (going_loop (length ids) [] m0 (S (length ids)) B0)
    as (pages & mf & Hloop & Bf & Hlen); [cbn; lia | lia |].
  destruct pages as [|page0 rest]; [by destruct ids|].
  destruct (b_struct _ _ _ _ _ _ _ _ _ _ _ Bf) as [hv Hst].
  pose proof (b_this _ _ _ _ _ _ _ _ _ _ _ Bf) as Hm.
  rewrite Hlen, Nat.sub_diag in Hst. cbn [replicate] in Hst.
  rewrite app_nil_r in Hst.
  assert (Hthis : this_is
    (mkTABCTRL hTab_arg hv (page0 :: rest) labels (Z.of_nat (length ids)) fStretch)
    (world mf)) by (by split; rewrite Hm).
  destruct (b_pages _ _ _ _ _ _ _ _ _ _ _ Bf 0%nat page0 eq_refl)
    as (d0 & tpl0 & Hd0 & Htpl0 & Hw0).
  destruct (b_calls _ _ _ _ _ _ _ _ _ _ _ Bf) as (l & Hl & Hins & Hcre & Hsh).
  destruct (b_strip _ _ _ _ _ _ _ _ _ _ _ Bf) as (sk & Hsk & Hitems & Hrect0).
  pose proof (b_nodup _ _ _ _ _ _ _ _ _ _ _ Bf) as Hnd.
  pose (m' := mkMachine
    (upd_heap (alter (set_hVisiblePage page0) lptc)
       (upd_windows (alter (set_wVisible true) page0) (world mf)))
    (trace mf ++ [CShowWindow page0 SW_SHOW]) (inbox mf)).
  assert (Bold : ∀ x, x ≠ page0 → windows (world m') !! x = windows (world mf) !! x).
  { intros x Hx. cbn. by rewrite lookup_alter_ne. }
  assert (Hp0 : page0 ≠ hTab_arg).
  { intros ->. pose proof (going_strip_window _ _ Bf) as Hs.
    rewrite (b_new _ _ _ _ _ _ _ _ _ _ _ Bf hTab_arg) in Hsw; [done|]. by left. }
  assert (Hp1 : page0 ≠ wParent sw).
  { intros E. rewrite <-E, (b_new _ _ _ _ _ _ _ _ _ _ _ Bf page0) in Hpwin; [done|].
    by left. }
  exists m', (page0 :: rest), page0.
  split.
  { rewrite Hrun0.
    erewrite bind_Done by exact Hloop.
    erewrite bind_Done by (eapply page_at_this; [exact Hthis|done]).
    mrun ShowWindow_Done.
    erewrite bind_Done by (eapply page_at_this; [exact Hthis|done]).
    by erewrite (store_this_at _ _ lptc) by (exact Hthis || exact Hm). }
  split; [done|]. split; [done|]. split; [exact Hm|].
  split. { cbn. by rewrite lookup_alter_eq, Hst. }
  assert (Hcalls : calls_since m m' = l ++ [CShowWindow page0 SW_SHOW]).
  { unfold calls_since. cbn. by rewrite Hl, <-app_assoc, drop_app_length. }
  split. { rewrite Hcalls. unfold inserted in *. rewrite omap_app, Hins, Hlen. cbn.
           by rewrite app_nil_r. }
  split. { change (strips (world m')) with (strips (world mf)).
           rewrite Hsk. cbn [fmap option_fmap option_map].
           by rewrite Hitems, Hlen. }
  split. { rewrite Hcalls. unfold created in *. rewrite omap_app, Hcre, Hlen. cbn.
           by rewrite app_nil_r, firstn_all. }
  split; [done|].
  split. { apply (b_new _ _ _ _ _ _ _ _ _ _ _ Bf). }
  split.
  { destruct (going_parent_window _ _ Bf) as (pwin' & Hpwin' & Horigin).
    apply (layout_area hTab_arg sw (set_wUserData lptc sw) pwin pwin' s0 sk);
      try done.
    - rewrite Bold by done. apply (going_strip_window _ _ Bf).
    - rewrite Bold by done. exact Hpwin'.
    - rewrite Hitems. destruct labels; cbn in *; [|done].
      destruct ids; [done|cbn in *; lia]. }
  split.
  { intros i page Hi.
    destruct (b_pages _ _ _ _ _ _ _ _ _ _ _ Bf i page Hi)
      as (d & tpl & Hd & Ht & Hw).
    exists d, tpl. split; [done|]. split; [done|].
    case_decide as Ei.
    - subst i. injection Hi as <-. cbn. by rewrite lookup_alter_eq, Hw.
    - rewrite Bold, Hw.
      + by destruct tpl as [? ? []].
      + intros ->. apply Ei. apply (NoDup_lookup _ _ _ _ Hnd Hi). done. }
  split. { rewrite Hcalls. unfold shown in *. by rewrite omap_app, Hsh. }
  unfold IsWindowVisible. cbn. by rewrite lookup_alter_eq, Hw0.
Qed.

End Construct.

(** ** The properties on the concrete world *)

Module Witness.

Import Example.

(** Settle a closed side condition by evaluation. *)
Ltac concrete :=
  repeat first
    [ apply Forall_nil
    | apply Forall_cons
    | progress unfold quiet
    | match goal with |- _ ∧ _ => split end ];
  try (vm_compute; intros;
       first [ reflexivity | discriminate | congruence | eexists; reflexivity ]).

Lemma ready_this : this_is tabctrl (world ready).
Proof. split; [vm_compute; discriminate | vm_compute; reflexivity]. Qed.

(** The loop of the first page, a Tab key-down retrieved, then the hide
    message of that page: the loop returns there and leaves the character
    message after it unretrieved. *)
Lemma hide_message_ends_loop_witness :
  TabPageMessageLoop toolkit page0
    (with_inbox ([tab_to edit] ++ hide_of page0 :: [char_to edit]) ready)
  = Done tt (with_inbox [char_to edit] (route_all toolkit page0 [tab_to edit] ready)).
Proof.
  apply (hide_message_ends_loop toolkit page0 [tab_to edit] 1
           (mkMSG page0 WM_SHOWWINDOW FALSE 0) [char_to edit] ready
           (mkTabStops true (Some edit))
           (route_all toolkit page0 [tab_to edit] ready)).
  - vm_compute. reflexivity.
  - discriminate.
  - discriminate.
  - reflexivity.
  - reflexivity.
Defined.

(** C1 as stated fails: the loop of the first page returns on a hide message
    addressed to the second page, before the Tab key-down that would have
    closed the tab cycle is retrieved. *)
Lemma hide_of_other_window_ends_loop :
  hwnd (hide_of page1).2 ≠ page0
  ∧ TabPageMessageLoop toolkit page0
      (with_inbox [tab_to edit; hide_of page1; tab_to edit] ready)
    = Done tt (with_inbox [tab_to edit] (route_all toolkit page0 [tab_to edit] ready)).
Proof. split; [vm_compute; discriminate | vm_compute; reflexivity]. Qed.



(** The right arrow on the horizontal strip at selection 0 selects item 1. *)
Lemma keydown_selection_not_negative_witness :
  TabCtrl_OnKeyDown toolkit (keydown VK_RIGHT) ready
  = Done tt (selected toolkit strip 1 0 ready).
Proof.
  assert (Hcur : 0 ≤ cur_sel (hwndFrom (hdr (keydown VK_RIGHT))) (world ready) < 2 ^ 31 - 1)
    by (vm_compute; split; [discriminate | reflexivity]).
  assert (Hcount : 1 < item_count (hwndFrom (hdr (keydown VK_RIGHT))) (world ready))
    by (vm_compute; reflexivity).
  destruct (keydown_selection_not_negative toolkit (keydown VK_RIGHT) ready tabctrl
              Hcount ready_this Hcur) as (_ & Hnext & _).
  rewrite Hnext by (vm_compute; reflexivity).
  vm_compute. reflexivity.
Defined.

(** C3 as stated fails: with no tab selected ([TabCtrl_GetCurSel] answers
    -1) the left arrow has the handler select index -2. *)
Lemma keydown_selects_negative_index :
  1 < item_count strip (world deselected)
  ∧ cur_sel strip (world deselected) = -1
  ∧ TabCtrl_OnKeyDown toolkit (keydown VK_LEFT) deselected
    = Done tt (selected toolkit strip (-2) (-1) deselected)
  ∧ selections (calls_since deselected (selected toolkit strip (-2) (-1) deselected))
    = [-2].
Proof. repeat split; vm_compute; reflexivity. Qed.

(** The right arrow: [Notify] selects item 1 and then switches the visible
    page; a Home key, which the handler ignores: [Notify] handles a selection
    change all the same; a selection-changing notification: [FALSE]. *)
Lemma notify_keydown_falls_through_witness :
  Notify toolkit (keydown VK_RIGHT) ready
  = Done TRUE (switched tabctrl page1 (selected toolkit strip 1 0 ready))
  ∧ Notify toolkit (keydown 36) ready
    = Done TRUE
        (switched tabctrl page0
           (pointing (window_long (hwndFrom (hdr (keydown 36))) GWL_USERDATA (world ready))
              ready))
  ∧ Notify toolkit selchanging ready
    = Done FALSE
        (pointing (window_long (hwndFrom (hdr selchanging)) GWL_USERDATA (world ready))
           ready).
Proof.
  split; [|split].
  - destruct (notify_keydown_falls_through toolkit (keydown VK_RIGHT) ready)
      as (H & _ & _).
    apply H.
    + reflexivity.
    + vm_compute. reflexivity.
    + split; [vm_compute; discriminate | vm_compute; reflexivity].
    + vm_compute. reflexivity.
  - destruct (notify_keydown_falls_through toolkit (keydown 36) ready)
      as (_ & H & _).
    apply H.
    + reflexivity.
    + split; [vm_compute; discriminate | vm_compute; reflexivity].
    + right. right. repeat split; vm_compute; reflexivity.
    + vm_compute. reflexivity.
  - destruct (notify_keydown_falls_through toolkit selchanging ready)
      as (_ & _ & H).
    apply H; vm_compute; discriminate.
Defined.

(** With the second tab selected and the first page still visible, handling
    the selection change twice leaves the second page visible and the first
    hidden. *)
Lemma selchanged_twice_as_once_witness :
  (TabCtrl_OnSelChanged ≫= λ _, TabCtrl_OnSelChanged) turned
  = Done TRUE (switched (set_hVisiblePage page1 tabctrl) page1
                 (switched tabctrl page1 turned))
  ∧ (IsWindowVisible page1 (world (switched tabctrl page1 turned)) = true ↔ page1 = page1)
  ∧ IsWindowVisible page0 (world (switched tabctrl page1 turned)) = false.
Proof.
  destruct (selchanged_twice_as_once tabctrl page1 turned)
    as (_ & H2 & _ & _ & Hvis & Hold).
  - split; [vm_compute; discriminate | vm_compute; reflexivity].
  - vm_compute. reflexivity.
  - vm_compute. eexists. reflexivity.
  - intros q Hq. change (q ∈ [page0; page1]) in Hq. rewrite !elem_of_cons in Hq.
    destruct Hq as [->|[->|Hq]].
    + reflexivity.
    + vm_compute. discriminate.
    + destruct (proj1 (elem_of_nil q) Hq).
  - split; [exact H2|]. split.
    + apply Hvis. right. left.
    + apply Hold. vm_compute. discriminate.
Defined.

(** The first page, 100 by 80, centred in the display area, 286 by 162 at
    (10, 32). *)
Lemma center_places_page_witness :
  ∃ x y,
    CenterTabPage strip 0 ready
    = Done TRUE
        (placed page0 (mkRECT x y 100 80)
           (pointing (window_long strip GWL_USERDATA (world ready)) ready))
    ∧ x = 103 ∧ y = 73.
Proof.
  destruct (center_places_page strip 0 ready tabctrl page0
              (set_wVisible true
                 (page_window strip FALSE strip_window area (mkDlgTemplate 100 80 false)))
              area 100 80)
    as (x & y & Hrun & Hx & _ & Hy & _).
  - split; [vm_compute; discriminate | vm_compute; reflexivity].
  - reflexivity.
  - vm_compute. reflexivity.
  - vm_compute. reflexivity.
  - reflexivity.
  - reflexivity.
  - split; [discriminate | reflexivity].
  - split; [discriminate | reflexivity].
  - split; [discriminate | reflexivity].
  - split; [discriminate | reflexivity].
  - exists x, y. split; [exact Hrun|]. split.
    + apply Hx. reflexivity.
    + apply Hy. reflexivity.
Defined.

(** The second page stretched over the display area. *)
Lemma stretch_fills_display_area_witness :
  StretchTabPage strip 1 ready
  = Done (is_window page1 (world ready))
      (placed page1 area
         (pointing (window_long strip GWL_USERDATA (world ready)) ready)).
Proof.
  destruct (stretch_fills_display_area strip 1 ready tabctrl page1 area)
    as (H & _).
  - split; [vm_compute; discriminate | vm_compute; reflexivity].
  - reflexivity.
  - vm_compute. reflexivity.
  - exact H.
Defined.

(** The construction of the example: two pages, the first one shown. *)
Lemma new_tabcontrol_builds_pages_witness :
  ∃ m' pages page0,
    New_TabControl this strip labels ([101; 102] ++ 0 :: []) FALSE
      (mkMachine before [] [])
    = Done tt m'
    ∧ length pages = 2%nat
    ∧ heap (world m') !! this = Some (mkTABCTRL strip page0 pages labels 2 FALSE)
    ∧ shown (calls_since (mkMachine before [] []) m') = [(page0, SW_SHOW)].
Proof.
  destruct (new_tabcontrol_builds_pages this strip labels [101; 102] [] FALSE
              (mkMachine before [] []) (mkTABCTRL 0 0 [] [] 0 0)
              strip_window dialog_frame (mkTabStrip [] (-1) (mkRECT 2 2 50 22)))
    as (m' & pages & page0 & Hrun & Hlen & _ & _ & Hheap & _ & _ & _ & _ & _ & _ & _
        & Hshown & _).
  - discriminate.
  - concrete.
  - concrete.
  - concrete.
  - concrete.
  - concrete.
  - cbn. lia.
  - concrete.
  - discriminate.
  - exists m', pages, page0. repeat split; assumption.
Defined.

(** C8 as stated fails: with a template list that starts with its null entry
    the page list is empty and the read of its entry 0 is undefined. *)
Lemma new_tabcontrol_without_templates :
  count_pages [0] = Some 0
  ∧ New_TabControl this strip labels [0] FALSE (mkMachine before [] []) = Fault.
Proof. split; vm_compute; reflexivity. Qed.

(** A strip with one tab: the arrow key that would enter the page is
    ignored. *)
Lemma keydown_ignored_without_tabs_witness :
  TabCtrl_OnKeyDown toolkit (keydown VK_DOWN)
    (mkMachine (upd_strips (alter (λ s, mkTabStrip ["General"%string] 0 (tsItemRect0 s)) strip)
                  (world ready)) [] [tab_to edit])
  = Done tt
      (mkMachine (upd_strips (alter (λ s, mkTabStrip ["General"%string] 0 (tsItemRect0 s)) strip)
                    (world ready)) [] [tab_to edit]).
Proof.
  apply keydown_ignored_without_tabs. vm_compute. discriminate.
Defined.

(** A Tab key-down, then the quit request: [PostQuitMessage(0)] is called. *)
Lemma quit_is_posted_again_witness :
  TabPageMessageLoop toolkit page0
    (with_inbox ([tab_to edit] ++ quit :: [char_to edit]) ready)
  = Done tt
      (mkMachine (world (route_all toolkit page0 [tab_to edit] ready))
         (trace (route_all toolkit page0 [tab_to edit] ready) ++ [CPostQuitMessage 0])
         [char_to edit]).
Proof.
  apply (quit_is_posted_again toolkit page0 [tab_to edit] (mkMSG NULL WM_QUIT 0 0)
           [char_to edit] ready (mkTabStops true (Some edit))).
  vm_compute. reflexivity.
Defined.

End Witness.

(** ** More on the page-local input loop *)

Section LoopRuns.

Variable tk : Toolkit.

(** The default processing of a message: the message is offered to the
    dialog manager and, when that has not handled it, translated and
    dispatched. *)
Lemma route_trace page msg m :
  ∃ l, trace (exec (route tk page msg) m) = trace m ++ l
       ∧ inbox (exec (route tk page msg) m) = inbox m
       ∧ (l = [CIsDialogMessage page msg]
          ∨ l = [CIsDialogMessage page msg; CTranslateMessage msg;
                 CDispatchMessage msg]).
Proof.
  unfold exec, route, IsDialogMessage, TranslateMessage, DispatchMessage.
  munfold. destruct (_ =? 0); cbn.
  - eexists. split; [by rewrite <-!app_assoc|]. split; [done|]. by right.
  - eexists. split; [done|]. split; [done|]. by left.
Qed.

Lemma route_all_cons page x l m :
  route_all tk page (x :: l) m = route_all tk page l (exec (route tk page x.2) m).
Proof. done. Qed.

Lemma route_all_calls page pre : ∀ m,
  ∃ l, trace (route_all tk page pre m) = trace m ++ l
       ∧ inbox (route_all tk page pre m) = inbox m
       ∧ Forall routing_call l
       ∧ offered l = (λ x, (page, x.2)) <$> pre
       ∧ translated l = dispatched l
       ∧ sublist (dispatched l) (pre.*2).
Proof.
  induction pre as [|x pre IH]; intros m.
  - exists []. rewrite app_nil_r. repeat split; done.
  - rewrite route_all_cons.
    destruct (route_trace page x.2 m) as (l1 & E1 & Q1 & H1).
    destruct (IH (exec (route tk page x.2) m)) as (l2 & E2 & Q2 & F2 & O2 & T2 & S2).
    exists (l1 ++ l2). rewrite E2, E1, <-app_assoc. split; [done|].
    split; [by rewrite Q2|].
    unfold offered, translated, dispatched in *. rewrite !omap_app, O2, T2.
    destruct H1 as [-> | ->]; cbn.
    + split; [by constructor|]. split; [done|]. split; [done|].
      by apply sublist_cons.
    + split; [by repeat constructor|]. split; [done|]. split; [done|].
      by apply sublist_skip.
Qed.

(** A turn of the loop that goes on to the next retrieval has routed the
    message -- which was a message, and no hide message -- and has recorded
    its window when it is the first Tab key-down. *)
Lemma pump_step_Next page status msg st m st1 m1 :
  pump_step tk page status msg st m = Done (Next st1) m1 →
  quiet (status, msg) ∧ m1 = exec (route tk page msg) m
  ∧ st1 = (if is_tab_keydown msg && negb (fFirstStop st)
           then mkTabStops true (Some (hwnd msg)) else st).
Proof.
  unfold pump_step, quiet. cbn [fst snd].
  destruct (Z.eqb_spec status 0); [done|].
  destruct (Z.eqb_spec (-1) status); [done|].
  destruct (is_hide msg); [done|].
  unfold mbind at 1, M_bind at 1.
  destruct (sniff_tab msg st m) as [[st2| |] m2| |] eqn:E; try done.
  assert (m2 = m ∧ st2 = (if is_tab_keydown msg && negb (fFirstStop st)
                          then mkTabStops true (Some (hwnd msg)) else st))
    as [-> ->].
  { revert E. unfold sniff_tab.
    destruct (is_tab_keydown msg); [|by intros [= <- <-]].
    destruct (negb (fFirstStop st)); [by intros [= <- <-]|].
    unfold mbind at 1, M_bind at 1.
    destruct (hFirstStop st) as [h|]; [|done]. cbn [defined mret M_ret].
    destruct (h =? hwnd msg); [|by intros [= <- <-]].
    unfold mbind, M_bind. by destruct (tab_off msg m). }
  unfold mbind, M_bind. rewrite route_Done. cbn. intros [= <- <-].
  repeat split; done.
Qed.

Lemma pump_through_route_all page pre : ∀ st m st' m',
  pump_through tk page st pre m = Some (st', m') →
  Forall quiet pre ∧ m' = route_all tk page pre m.
Proof.
  induction pre as [|[status msg] pre IH]; intros st m st' m'; cbn [pump_through].
  - by intros [= _ <-].
  - destruct (pump_step tk page status msg st m) as [[st1| |] m1| |] eqn:E; try done.
    apply pump_step_Next in E as (Hq & -> & _). intros H.
    apply IH in H as [Hqs ->]. split; [by constructor|done].
Qed.

(** With nothing left to retrieve the loop waits in [GetMessage]. *)
Lemma pump_waits page pre : ∀ st m st' m',
  pump_through tk page st pre m = Some (st', m') →
  pump tk page st pre (with_inbox pre m) = Blocked (with_inbox [] m').
Proof.
  induction pre as [|[status msg] pre IH]; intros st m st' m'.
  - by intros [= _ <-].
  - cbn [pump_through pump]. intros H.
    unfold mbind at 1, M_bind at 1; cbn [set_inbox].
    unfold mbind at 1, M_bind at 1.
    change (mkMachine (world (with_inbox ?q0 m)) (trace (with_inbox ?q0 m)) ?q)
      with (with_inbox q m).
    rewrite (blind_pump_step tk).
    destruct (pump_step tk page status msg st m) as [[st1| |] m1| |]; try done.
    cbn [res_inbox]. by eapply IH.
Qed.

(** The state the loop carries depends on the messages alone: the window of
    the first Tab key-down retrieved since the loop was entered. *)
Lemma pump_through_set page pre : ∀ st m st' m',
  pump_through tk page st pre m = Some (st', m') →
  fFirstStop st = true → st' = st.
Proof.
  induction pre as [|[status msg] pre IH]; intros st m st' m'; cbn [pump_through].
  - by intros [= <- _].
  - destruct (pump_step tk page status msg st m) as [[st1| |] m1| |] eqn:E; try done.
    apply pump_step_Next in E as (_ & _ & ->). intros H Hset.
    rewrite Hset, andb_false_r in H. by apply IH in H.
Qed.

Lemma pump_through_seen page pre : ∀ m st' m',
  pump_through tk page (mkTabStops false None) pre m = Some (st', m') →
  st' = stops_after pre.
Proof.
  induction pre as [|[status msg] pre IH]; intros m st' m'; cbn [pump_through].
  - by intros [= <- _].
  - destruct (pump_step tk page status msg _ m) as [[st1| |] m1| |] eqn:E; try done.
    apply pump_step_Next in E as (_ & _ & ->). intros H.
    unfold stops_after. cbn [first_tab snd fFirstStop negb] in *.
    rewrite andb_true_r in H. destruct (is_tab_keydown msg).
    + by apply pump_through_set in H.
    + by apply IH in H.
Qed.

Lemma TabPageMessageLoop_inbox page x q m :
  TabPageMessageLoop tk page (with_inbox (x :: q) m)
  = pump tk page (mkTabStops false None) (x :: q) m.
Proof. unfold TabPageMessageLoop. rewrite with_inbox_inbox. apply pump_inbox. Qed.

(** X3.  While the loop retrieves messages it stays in for, it gives each of
    them, in the order retrieved, to [IsDialogMessage] with its page, and
    translates and dispatches those the dialog manager has not handled; it
    makes no other call.  With nothing more to retrieve it waits in
    [GetMessage]: it does not return.  The state it carries is the window of
    the first Tab key-down among the messages. *)
Theorem loop_routes_and_waits page pre m st' m' :
  pump_through tk page (mkTabStops false None) pre m = Some (st', m') →
  TabPageMessageLoop tk page (with_inbox pre m) = Blocked (with_inbox [] m')
  ∧ st' = stops_after pre
  ∧ m' = route_all tk page pre m
  ∧ Forall routing_call (calls_since m m')
  ∧ offered (calls_since m m') = (λ x, (page, x.2)) <$> pre
  ∧ translated (calls_since m m') = dispatched (calls_since m m')
  ∧ sublist (dispatched (calls_since m m')) (pre.*2).
Proof.
  intros H. split.
  { unfold TabPageMessageLoop. rewrite with_inbox_inbox. by eapply pump_waits. }
  split; [by apply pump_through_seen in H|].
  apply pump_through_route_all in H as [_ ->]. split; [done|].
  destruct (route_all_calls page pre m) as (l & E & _ & F & O & T & S).
  unfold calls_since. by rewrite E, drop_app_length.
Qed.

(** X4.  When [GetMessage] returns -1 the loop returns at once: what was
    retrieved with the error is not routed, nothing more is retrieved, and
    no call is made -- in particular the quit request is not posted, and the
    caller is not told. *)
Theorem retrieval_error_ends_loop page pre msg rest m st' m' :
  pump_through tk page (mkTabStops false None) pre m = Some (st', m') →
  TabPageMessageLoop tk page (with_inbox (pre ++ (-1, msg) :: rest) m)
  = Done tt (with_inbox rest m')
  ∧ Forall routing_call (calls_since m (with_inbox rest m')).
Proof.
  intros Hpre. split.
  - destruct pre as [|x pre]; cbn [app]; rewrite TabPageMessageLoop_inbox;
      [|change (x :: pre ++ ?l) with ((x :: pre) ++ l)];
      rewrite (pump_app tk page _ _ _ _ _ _ _ Hpre) || injection Hpre as <- <-;
      done.
  - apply pump_through_route_all in Hpre as [_ ->].
    destruct (route_all_calls page pre m) as (l & E & _ & F & _).
    unfold calls_since. cbn [with_inbox trace]. by rewrite E, drop_app_length.
Qed.


Lemma deref_nowhere m :
  m_lptc (world m) = NULL ∨ heap (world m) !! m_lptc (world m) = None →
  deref_m_lptc m = Fault.
Proof.
  intros H. unfold deref_m_lptc. munfold.
  destruct (Z.eqb_spec (m_lptc (world m)) NULL); [done|].
  destruct H as [H|H]; [done|]. by rewrite H.
Qed.









End LoopRuns.

(** ** More on keyboard navigation and selection change *)

Lemma this_is_focus_on t h w : this_is t w → this_is t (focus_on h w).
Proof. unfold focus_on. by destruct (_ || _). Qed.

Lemma SetFocus_Done h m :
  SetFocus h m
  = Done tt (mkMachine (focus_on h (world m)) (trace m ++ [CSetFocus h]) (inbox m)).
Proof. done. Qed.

Lemma page_at_outside t i m :
  this_is t (world m) → index (hTabPages t) i = None → page_at i m = Fault.
Proof.
  intros Ht Hi. unfold page_at.
  rewrite (bind_Done _ _ _ _ _ (deref_this _ _ Ht)), Hi. done.
Qed.

Section Entering.

Variable tk : Toolkit.

Lemma enter_page_run cur page t m :
  this_is t (world m) → index (hTabPages t) cur = Some page →
  page_at cur (entered tk page m) = Done page (entered tk page m) →
  enter_page tk cur m = TabPageMessageLoop tk page (entered tk page m).
Proof.
  intros Ht Hi Hafter. unfold enter_page.
  mrun page_at_this. mrun SetFocus_Done.
  erewrite bind_Done
    by (eapply page_at_this; [apply this_is_focus_on; exact Ht | exact Hi]).
  unfold FirstTabstop_SetFocus, SendMessage, GetFocus, PostMessage.
  munfold. rewrite <-!app_assoc. cbn [app].
  change (mkMachine _ _ _) with (entered tk page m).
  unfold mbind, M_bind in Hafter |- *. by rewrite Hafter.
Qed.

Lemma extends_entering_pump hwnd st q :
  extends entering_call (pump tk hwnd st q).
Proof.
  pose proof (extends_deref entering_call).
  revert st. induction q as [|[status msg] q IH]; intros st; cbn [pump].
  - extends.
  - unfold pump_step, sniff_tab, route, tab_off, strip_of, IsDialogMessage,
      TranslateMessage, DispatchMessage, SetFocus, GetParent, GetWindowLong,
      PostQuitMessage.
    extends.
Qed.

Lemma extends_entering_loop hwnd :
  extends entering_call (TabPageMessageLoop tk hwnd).
Proof. intros m a m'. apply extends_entering_pump. Qed.

Lemma extends_entering cur : extends entering_call (enter_page tk cur).
Proof.
  pose proof (extends_page_at entering_call).
  pose proof extends_entering_loop.
  unfold enter_page, FirstTabstop_SetFocus, SendMessage, PostMessage, SetFocus,
    GetFocus.
  extends.
Qed.

Lemma entering_selects_nothing l : Forall entering_call l → selections l = [].
Proof.
  induction 1 as [|c l Hc _ IH]; [done|].
  unfold selections in *. by destruct c.
Qed.

Variables (tkd : TC_KEYDOWN) (m : Machine) (t : TABCTRL).

Hypothesis Hcount : 1 < item_count (hwndFrom (hdr tkd)) (world m).
Hypothesis Hthis : this_is t (world m).
Hypothesis Hkey : is_enter_key (vertical t (world m)) (wVKey tkd) = true.

Lemma keydown_enters :
  TabCtrl_OnKeyDown tk tkd m
  = enter_page tk (cur_sel (hwndFrom (hdr tkd)) (world m)) m.
Proof.
  rewrite (keydown_navigates tk tkd m t) by done.
  revert Hkey. unfold is_enter_key.
  unfold VK_PRIOR, VK_NEXT, VK_UP, VK_DOWN, VK_LEFT, VK_RIGHT.
  destruct (vertical t (world m));
    repeat match goal with
      | |- context [?k =? ?c] => destruct (Z.eqb_spec k c); try lia
      end; cbn [orb]; done.
Qed.

(** X2.  With more than one tab, the keys across the strip (left and right
    on a vertical strip, up and down on a horizontal one) enter the page at
    the current selection: the focus is put on the page, the page is sent
    [WM_NEXTDLGCTL] with [wParam] 1, a Tab key-down is posted to the window
    that has the focus once that was processed, and the handler stays in the
    page's loop until the loop returns.  It asks for no selection and no
    strip focus: its calls are these three, the loop's routing, and the
    loop's final [SetFocus] or [PostQuitMessage]. *)
Theorem keydown_enters_page page :
  index (hTabPages t) (cur_sel (hwndFrom (hdr tkd)) (world m)) = Some page →
  page_at (cur_sel (hwndFrom (hdr tkd)) (world m)) (entered tk page m)
  = Done page (entered tk page m) →
  TabCtrl_OnKeyDown tk tkd m = TabPageMessageLoop tk page (entered tk page m)
  ∧ ∀ m', TabCtrl_OnKeyDown tk tkd m = Done tt m' →
      Forall entering_call (calls_since m m')
      ∧ selections (calls_since m m') = [].
Proof.
  intros Hi Hafter. rewrite keydown_enters. split.
  - by apply enter_page_run with t.
  - intros m' H. destruct (extends_entering _ _ _ _ H) as (l & E & Hl).
    destruct m' as [w' tr' q']. cbn in E. subst tr'.
    rewrite calls_since_app. split; [done|]. by apply entering_selects_nothing.
Qed.

End Entering.

Section Unchecked.

Variable tk : Toolkit.

Lemma selchanged_outside t m :
  this_is t (world m) →
  index (hTabPages t) (cur_sel (hTab t) (world m)) = None →
  TabCtrl_OnSelChanged m = Fault.
Proof.
  intros Ht Hi. unfold TabCtrl_OnSelChanged, TabCtrl_GetCurSel.
  mrun deref_this. mrun @gets_Done.
  mrun deref_this. mrun ShowWindow_Done.
  mrun deref_this. mrun PostMessage_Done.
  unfold mbind, M_bind. by erewrite page_at_outside.
Qed.

Lemma pointing_same m : pointing (m_lptc (world m)) m = m.
Proof. by destruct m as [[] ? ?]. Qed.

(** X8.  The handlers index the page list with the strip's selection as
    the strip reports it, unchecked.  With a selection outside the page
    list -- none at all (-1), or a tab that has no page -- the
    selection-change handler, [Notify] for a selection change, and the
    key-down handler on a key that enters the page read outside the
    array. *)
Theorem selection_outside_pages_is_undefined pnm t m :
  this_is t (world m) →
  (index (hTabPages t) (cur_sel (hTab t) (world m)) = None →
   TabCtrl_OnSelChanged m = Fault
   ∧ (window_long (hwndFrom (hdr pnm)) GWL_USERDATA (world m) = m_lptc (world m) →
      code (hdr pnm) = TCN_SELCHANGE → Notify tk pnm m = Fault))
  ∧ (1 < item_count (hwndFrom (hdr pnm)) (world m) →
     is_enter_key (vertical t (world m)) (wVKey pnm) = true →
     index (hTabPages t) (cur_sel (hwndFrom (hdr pnm)) (world m)) = None →
     TabCtrl_OnKeyDown tk pnm m = Fault).
Proof.
  intros Ht. split.
  - intros Hi. split; [by apply selchanged_outside with t|].
    intros Hp Hc. unfold Notify, GetWindowLong.
    mrun @gets_Done. mrun modify_Done. rewrite Hc. cbn [Z.eqb].
    rewrite Hp.
    change (mkMachine _ _ _) with (pointing (m_lptc (world m)) m).
    rewrite pointing_same. by apply selchanged_outside with t.
  - intros Hcount Hkey Hi. rewrite (keydown_enters tk pnm m t) by done.
    unfold enter_page, mbind, M_bind. by erewrite page_at_outside.
Qed.

Lemma keydown_nowhere tkd m :
  1 < item_count (hwndFrom (hdr tkd)) (world m) →
  deref_m_lptc m = Fault →
  TabCtrl_OnKeyDown tk tkd m = Fault.
Proof.
  intros Hcount Hd. unfold TabCtrl_OnKeyDown, TabCtrl_GetItemCount, TabCtrl_GetCurSel.
  mrun @gets_Done. mrun @gets_Done.
  rewrite (proj2 (Z.leb_gt _ _) Hcount).
  unfold mbind, M_bind. by rewrite Hd.
Qed.

(** X9.  [Notify] takes the structure from the sender's [GWL_USERDATA]
    without a check.  A key-down or selection-change notification from a
    window that has no structure linked (the word is null, or what it
    points to is no structure) dereferences that pointer. *)
Theorem notify_from_unlinked_window pnm m :
  window_long (hwndFrom (hdr pnm)) GWL_USERDATA (world m) = NULL
  ∨ heap (world m) !! window_long (hwndFrom (hdr pnm)) GWL_USERDATA (world m) = None →
  code (hdr pnm) = TCN_KEYDOWN ∨ code (hdr pnm) = TCN_SELCHANGE →
  Notify tk pnm m = Fault.
Proof.
  intros Hp Hc. unfold Notify, GetWindowLong.
  mrun @gets_Done. mrun modify_Done.
  set (p := window_long (hwndFrom (hdr pnm)) GWL_USERDATA (world m)) in *.
  assert (Hd : ∀ tr q, deref_m_lptc (mkMachine (upd_m_lptc p (world m)) tr q) = Fault).
  { intros tr q. by apply deref_nowhere. }
  assert (Hs : ∀ tr q,
    TabCtrl_OnSelChanged (mkMachine (upd_m_lptc p (world m)) tr q) = Fault).
  { intros tr q. unfold TabCtrl_OnSelChanged, mbind, M_bind. by rewrite Hd. }
  destruct Hc as [Hc|Hc]; rewrite Hc; [|apply Hs].
  change (TCN_KEYDOWN =? TCN_KEYDOWN) with true. cbv iota.
  destruct (Z.le_gt_cases (item_count (hwndFrom (hdr pnm)) (world m)) 1) as [H1|H1].
  - erewrite bind_Done by (apply keydown_single; exact H1). apply Hs.
  - unfold mbind at 1, M_bind at 1. by rewrite keydown_nowhere.
Qed.

End Unchecked.

(** X7.  Handling a selection change when the selected page is the one
    already visible leaves the world exactly as it was -- the page is hidden
    and shown again -- but the page is still posted the hide message; a page
    loop that retrieves that message returns. *)
Theorem reselecting_visible_page_posts_hide t page pw m :
  this_is t (world m) →
  index (hTabPages t) (cur_sel (hTab t) (world m)) = Some page →
  hVisiblePage t = page →
  windows (world m) !! page = Some pw → wVisible pw = true →
  TabCtrl_OnSelChanged m = Done TRUE (switched t page m)
  ∧ world (switched t page m) = world m
  ∧ calls_since m (switched t page m)
    = [CShowWindow page FALSE;
       CPostMessage (mkMSG page WM_SHOWWINDOW FALSE 0);
       CShowWindow page TRUE]
  ∧ ∀ tk q rest m0,
      TabPageMessageLoop tk q
        (with_inbox ((1, mkMSG page WM_SHOWWINDOW FALSE 0) :: rest) m0)
      = Done tt (with_inbox rest m0).
Proof.
  intros Ht Hi Hv Hpw Hvis. split; [by apply selchanged_switches|].
  split; [|split].
  - unfold switched. cbn [world]. rewrite Hv.
    destruct Ht as [Hn Hh]. destruct (world m) as [ws ss ts f hp p] eqn:Ew.
    unfold upd_heap, upd_windows. cbn in *. f_equal.
    + rewrite alter_visible_again. apply alter_id.
      intros x Hx. rewrite Hpw in Hx. injection Hx as <-.
      destruct pw. cbn in Hvis. by subst.
    + apply alter_id. intros x Hx. rewrite Hh in Hx. injection Hx as <-.
      destruct t. cbn in Hv. by subst.
  - unfold switched. rewrite calls_since_app. by rewrite Hv.
  - done.
Qed.

(** ** More on the layout *)

(** X1.  The display area, for all four placements of the tabs, when no
    coordinate is large enough to wrap and the first tab's rectangle is not
    inverted.  It lies inside the strip: at least 4 from its left edge, 6
    from its top, 8 from its right and 6 from its bottom.  Its size depends
    on the orientation only, not on the side the tabs are on: the strip's
    width less 12 and, on a vertical strip, the tab's width; the strip's
    height less 12 and, on a horizontal strip, 4 and the tab's height.  The
    calculation reads the window system and changes nothing. *)
Theorem display_area_within_strip hwnd m sw pwin s :
  windows (world m) !! hwnd = Some sw →
  windows (world m) !! wParent sw = Some pwin →
  strips (world m) !! hwnd = Some s → tsItems s ≠ [] →
  Forall small
    [left (wRect sw); top (wRect sw); right (wRect sw); bottom (wRect sw);
     (wOrigin pwin).1; (wOrigin pwin).2; (wOrigin sw).1; (wOrigin sw).2;
     left (tsItemRect0 s); top (tsItemRect0 s); right (tsItemRect0 s);
     bottom (tsItemRect0 s)] →
  left (tsItemRect0 s) ≤ right (tsItemRect0 s) →
  top (tsItemRect0 s) ≤ bottom (tsItemRect0 s) →
  ∃ r,
    TabControl_GetClientRect hwnd m = Done r m
    ∧ left (strip_box sw pwin) + 4 ≤ left r
    ∧ top (strip_box sw pwin) + 6 ≤ top r
    ∧ left r + right r ≤ left (strip_box sw pwin) + right (strip_box sw pwin) - 8
    ∧ top r + bottom r ≤ top (strip_box sw pwin) + bottom (strip_box sw pwin) - 6
    ∧ right r
      = right (strip_box sw pwin) - 12
        - (if Z.land (wStyle sw) TCS_VERTICAL =? 0 then 0
           else right (tsItemRect0 s) - left (tsItemRect0 s))
    ∧ bottom r
      = bottom (strip_box sw pwin) - 12
        - (if Z.land (wStyle sw) TCS_VERTICAL =? 0
           then 4 + (bottom (tsItemRect0 s) - top (tsItemRect0 s)) else 0).
Proof.
  intros Hw Hp Hs Hi Hsmall Htw Hth.
  exists (area_of sw pwin s).
  split; [by apply (layout_area hwnd sw sw pwin pwin s s)|].
  rewrite !Forall_cons in Hsmall. unfold small in Hsmall.
  destruct Hsmall as (? & ? & ? & ? & ? & ? & ? & ? & ? & ? & ? & ? & _).
  unfold area_of, display_area, strip_box, int_add, int_sub.
  destruct (Z.land (wStyle sw) TCS_BOTTOM =? 0),
    (Z.land (wStyle sw) TCS_VERTICAL =? 0); cbn [negb andb left top right bottom];
    repeat match goal with
      | |- context [wrap32 ?z] => rewrite (wrap32_id z) by (unfold in_int; lia)
      end; lia.
Qed.

(** ** More on the construction *)

Lemma apart_refl lptc hTab_arg m : apart lptc hTab_arg m m.
Proof. done. Qed.

Lemma apart_trans lptc hTab_arg m1 m2 m3 :
  apart lptc hTab_arg m1 m2 → apart lptc hTab_arg m2 m3 → apart lptc hTab_arg m1 m3.
Proof.
  intros (F1 & S1 & H1 & Q1) (F2 & S2 & H2 & Q2).
  split; [congruence|]. split; [|split; [|congruence]].
  - intros k Hk. by rewrite S2, S1.
  - intros p Hp. by rewrite H2, H1.
Qed.

(** The visibility of a window after [TabCtrl_OnSelChanged]. *)
Lemma switched_visible t page m q :
  is_Some (windows (world m) !! page) →
  IsWindowVisible q (world (switched t page m))
  = if decide (q = page) then true
    else if decide (q = hVisiblePage t) then false
    else IsWindowVisible q (world m).
Proof.
  intros [pw Hpw].
  rewrite (visible_after_show true page q
    (alter (set_wVisible false) (hVisiblePage t) (windows (world m)))) by done.
  case_decide as E1.
  - rewrite bool_decide_eq_true_2; [done|].
    destruct (decide (page = hVisiblePage t)) as [<-|E2].
    + rewrite lookup_alter_eq, Hpw. by eexists.
    + rewrite lookup_alter_ne, Hpw by done. by eexists.
  - case_decide as E2.
    + subst q. rewrite lookup_alter_eq.
      by destruct (windows (world m) !! hVisiblePage t).
    + by rewrite lookup_alter_ne.
Qed.

Lemma returned_machine {A} (a b : A) m1 m2 : Done a m1 = Done b m2 → m2 = m1.
Proof. by intros [= _ ->]. Qed.

Lemma bind_ret {A B} (a : A) (f : A → M B) mm : (mret a ≫= f) mm = f a mm.
Proof. done. Qed.

Lemma deref_reads mm t mm' : deref_m_lptc mm = Done t mm' → mm' = mm.
Proof.
  unfold deref_m_lptc. munfold. destruct (_ =? NULL); [done|].
  destruct (heap (world mm) !! m_lptc (world mm)); [|done]. by intros [= _ <-].
Qed.

Lemma page_at_reads i mm page mm' : page_at i mm = Done page mm' → mm' = mm.
Proof.
  unfold page_at, mbind, M_bind.
  destruct (deref_m_lptc mm) as [t m1| |] eqn:E; [|done..].
  apply deref_reads in E as ->.
  destruct (index (hTabPages t) i); [|done]. by intros [= _ <-].
Qed.

Lemma layout_reads hwnd mm r mm' :
  TabControl_GetClientRect hwnd mm = Done r mm' → mm' = mm.
Proof.
  unfold TabControl_GetClientRect, GetWindowLong, GetWindowRect, GetParent,
    ScreenToClient, TabCtrl_GetItemRect0.
  munfold. destruct (windows (world mm) !! hwnd); cbn; [|done].
  destruct (strips (world mm) !! hwnd) as [s|]; cbn; [|done].
  destruct (tsItems s); [done|]. by intros [= _ <-].
Qed.

(** Placing a page changes windows and [m_lptc] only. *)
Lemma placing_apart hTab_arg i mm b mm' :
  StretchTabPage hTab_arg i mm = Done b mm' ∨ CenterTabPage hTab_arg i mm = Done b mm' →
  focus (world mm') = focus (world mm) ∧ strips (world mm') = strips (world mm)
  ∧ heap (world mm') = heap (world mm) ∧ inbox mm' = inbox mm.
Proof.
  intros [H|H]; revert H.
  - unfold StretchTabPage, GetWindowLong. mrun @gets_Done. mrun modify_Done.
    unfold mbind at 1, M_bind at 1.
    destruct (TabControl_GetClientRect _ _) as [r m1| |] eqn:E; [|done..].
    apply layout_reads in E as ->.
    unfold mbind at 1, M_bind at 1.
    destruct (page_at _ _) as [page m1| |] eqn:E; [|done..].
    apply page_at_reads in E as ->.
    rewrite SetWindowPos_Done. by intros [= _ <-].
  - unfold CenterTabPage, GetWindowLong. mrun @gets_Done. mrun modify_Done.
    unfold mbind at 1, M_bind at 1.
    destruct (TabControl_GetClientRect _ _) as [r m1| |] eqn:E; [|done..].
    apply layout_reads in E as ->.
    unfold mbind at 1, M_bind at 1.
    destruct (page_at _ _) as [page m1| |] eqn:E; [|done..].
    apply page_at_reads in E as ->.
    unfold mbind at 1, M_bind at 1, GetClientRect at 1.
    unfold mbind at 1, M_bind at 1, gets at 1. cbn [world id].
    destruct (windows _ !! page) as [pw|]; [|done].
    cbn [fmap option_fmap option_map defined mret M_ret].
    unfold mbind at 1, M_bind at 1.
    destruct (page_at _ _) as [page' m1| |] eqn:E; [|done..].
    apply page_at_reads in E as ->.
    cbv zeta. rewrite SetWindowPos_Done. by intros [= _ <-].
Qed.

Lemma CreateDialog_apart d parent mm h mm' :
  CreateDialog d parent mm = Done h mm' →
  ∃ f, mm' = mkMachine (upd_windows f (world mm))
               (trace mm ++ [CCreateDialog d parent]) (inbox mm).
Proof.
  unfold CreateDialog. munfold.
  destruct (templates (world mm) !! d); intros [= _ <-].
  - by eexists.
  - exists id. by destruct mm as [[] ? ?].
Qed.

Section Constructed.

Variables (lptc : Z) (hTab_arg : HWND) (labels : list string) (ids junk : list Z).
Variables (fStretch : BOOL) (m : Machine) (t0 : TABCTRL) (sw pwin : Window).
Variable s0 : TabStrip.

Hypothesis Hlptc : lptc ≠ NULL.
Hypothesis Hheap : heap (world m) !! lptc = Some t0.
Hypothesis Hsw : windows (world m) !! hTab_arg = Some sw.
Hypothesis Hpwin : windows (world m) !! wParent sw = Some pwin.
Hypothesis Hs0 : strips (world m) !! hTab_arg = Some s0.
Hypothesis Hids : Forall (λ d, d ≠ 0) ids.
Hypothesis Hlabels : (length ids ≤ length labels)%nat.
Hypothesis Htpl : Forall (λ d, is_Some (templates (world m) !! d)) ids.

Local Abbreviation going := (building lptc hTab_arg labels ids fStretch m sw pwin s0).

(** The lines before the loop. *)
Lemma start_apart :
  ∃ m0,
    New_TabControl lptc hTab_arg labels (ids ++ 0 :: junk) fStretch m
    = (add_pages hTab_arg (ids ++ 0 :: junk) (S (length ids)) 0;;
       page ← page_at 0;
       ShowWindow page SW_SHOW;;
       page ← page_at 0;
       store_m_lptc (set_hVisiblePage page)) m0
    ∧ going [] m0 ∧ apart lptc hTab_arg m m0.
Proof.
  eexists. split; [|split].
  - unfold New_TabControl.
    mrun modify_Done. mrun SetWindowLong_Done.
    erewrite bind_Done by (eapply (store_this_at t0 _ lptc); by split).
    cbn [world trace inbox].
    erewrite bind_Done
      by (eapply (store_this_at _ _ lptc);
          [split; [done|cbn; by rewrite lookup_alter_eq, Hheap] | done]).
    cbn [world trace inbox].
    erewrite bind_Done
      by (eapply (store_this_at _ _ lptc);
          [split; [done|cbn; by rewrite !lookup_alter_eq, Hheap] | done]).
    cbn [world trace inbox].
    erewrite bind_Done by (apply defined_Some, count_pages_ids, Hids).
    erewrite bind_Done
      by (eapply (store_this_at _ _ lptc);
          [split; [done|cbn; by rewrite !lookup_alter_eq, Hheap] | done]).
    cbn [world trace inbox].
    erewrite bind_Done
      by (eapply (store_this_at _ _ lptc);
          [split; [done|cbn; by rewrite !lookup_alter_eq, Hheap] | done]).
    cbn [world trace inbox]. rewrite Nat2Z.id. reflexivity.
  - split.
    + done.
    + cbn. lia.
    + exists (hVisiblePage t0). cbn. rewrite !lookup_alter_eq, Hheap. cbn.
      by rewrite Nat.sub_0_r.
    + intros h _. done.
    + intros h Hh. by apply elem_of_nil in Hh.
    + constructor.
    + exists s0. by split.
    + done.
    + intros i page Hi. by rewrite lookup_nil in Hi.
    + exists [CSetWindowLong hTab_arg GWL_USERDATA lptc]. by split.
  - split; [done|]. split; [done|]. split; [|done].
    intros p Hp. cbn. by rewrite !lookup_alter_ne.
Qed.

(** A turn of the loop. *)
Lemma step_apart pages mk :
  going pages mk → (length pages < length ids)%nat →
  ∃ h mk',
    add_page hTab_arg (ids ++ 0 :: junk) (Z.of_nat (length pages)) mk = Done tt mk'
    ∧ going (pages ++ [h]) mk' ∧ apart lptc hTab_arg mk mk'.
Proof.
  intros B Hk.
  destruct (going_step lptc hTab_arg labels ids junk fStretch m sw pwin s0
              Hlptc Hsw Hpwin Hlabels Htpl pages mk B Hk) as (h & mk' & Hrun & B').
  exists h, mk'. split; [done|]. split; [done|].
  destruct (b_struct _ _ _ _ _ _ _ _ _ _ _ B) as [hv Hst].
  pose proof (b_this _ _ _ _ _ _ _ _ _ _ _ B) as Hm.
  assert (Hthis : this_is
    (mkTABCTRL hTab_arg hv (pages ++ replicate (length ids - length pages) NULL)
       labels (Z.of_nat (length ids)) fStretch) (world mk)) by (by split; rewrite Hm).
  revert Hrun. unfold add_page.
  mrun deref_this. cbn [tabNames hTab].
  destruct (index labels (Z.of_nat (length pages))) as [label|]; [|done].
  cbn [defined]. rewrite bind_ret.
  mrun InsertItem_Done.
  mrun deref_this. cbn [hTab]. unfold GetParent. mrun @gets_Done.
  destruct (index (ids ++ 0 :: junk) (Z.of_nat (length pages))) as [d|]; [|done].
  cbn [defined]. rewrite bind_ret.
  unfold mbind at 1, M_bind at 1.
  destruct (CreateDialog _ _ _) as [page m1| |] eqn:E; [|done..].
  apply CreateDialog_apart in E as [f ->].
  mrun deref_this. cbn [hTabPages].
  destruct (_ && _); [|done].
  erewrite bind_Done
    by (eapply (store_this_at _ _ lptc); [exact Hthis | exact Hm]).
  cbn [world trace inbox].
  unfold mbind at 1, M_bind at 1.
  destruct (page_at _ _) as [page' m1| |] eqn:E; [|done..].
  apply page_at_reads in E as ->.
  mrun SetWindowLong_Done.
  unfold mbind at 1, M_bind at 1.
  destruct (deref_m_lptc _) as [t1 m1| |] eqn:E; [|done..].
  apply deref_reads in E as ->.
  unfold mbind at 1, M_bind at 1.
  destruct (negb _).
  - destruct (StretchTabPage _ _ _) as [b m1| |] eqn:E; [|done..].
    intros [= <-].
    destruct (placing_apart _ _ _ _ _ (or_introl E)) as (F & S & H & Q).
    split; [by rewrite F|]. split; [|split; [|by rewrite Q]].
    + intros k Hne. rewrite S. cbn. by rewrite lookup_alter_ne.
    + intros p Hne. rewrite H. cbn. by rewrite lookup_alter_ne.
  - destruct (CenterTabPage _ _ _) as [b m1| |] eqn:E; [|done..].
    intros [= <-].
    destruct (placing_apart _ _ _ _ _ (or_intror E)) as (F & S & H & Q).
    split; [by rewrite F|]. split; [|split; [|by rewrite Q]].
    + intros k Hne. rewrite S. cbn. by rewrite lookup_alter_ne.
    + intros p Hne. rewrite H. cbn. by rewrite lookup_alter_ne.
Qed.

Lemma loop_apart j : ∀ pages mk turns,
  going pages mk → (length ids - length pages = j)%nat → (j < turns)%nat →
  ∃ pages' mk',
    add_pages hTab_arg (ids ++ 0 :: junk) turns (Z.of_nat (length pages)) mk
    = Done tt mk'
    ∧ going pages' mk' ∧ length pages' = length ids
    ∧ apart lptc hTab_arg mk mk'.
Proof.
  induction j as [|j IH]; intros pages mk turns B Hj Hturns.
  - exists pages, mk. pose proof (b_len _ _ _ _ _ _ _ _ _ _ _ B).
    split; [|split; [done|split; [lia|apply apart_refl]]].
    destruct (b_struct _ _ _ _ _ _ _ _ _ _ _ B) as [hv Hst].
    pose proof (b_this _ _ _ _ _ _ _ _ _ _ _ B) as Hm.
    destruct turns; cbn [add_pages];
      (erewrite bind_Done by (eapply deref_this; by split; rewrite Hm));
      cbn [tabPageCount]; by rewrite (proj2 (Z.ltb_ge _ _)) by lia.
  - destruct turns as [|turns]; [lia|].
    destruct (b_struct _ _ _ _ _ _ _ _ _ _ _ B) as [hv Hst].
    pose proof (b_this _ _ _ _ _ _ _ _ _ _ _ B) as Hm.
    destruct (step_apart pages mk B) as (h & mk1 & Hrun & B1 & A1); [lia|].
    destruct (IH (pages ++ [h]) mk1 turns B1)
      as (pages' & mk' & Hrun' & B' & Hlen' & A').
    { rewrite length_app. cbn. lia. }
    { lia. }
    exists pages', mk'. split; [|split; [done|split; [done|]]].
    + cbn [add_pages].
      erewrite bind_Done by (eapply deref_this; by split; rewrite Hm).
      cbn [tabPageCount]. rewrite (proj2 (Z.ltb_lt _ _)) by lia.
      erewrite bind_Done by exact Hrun.
      rewrite length_app in Hrun'. cbn [length] in Hrun'.
      by rewrite Nat2Z.inj_add in Hrun'.
    + by apply apart_trans with mk1.
Qed.

(** The run of [New_TabControl]: the machine [mf] the loop leaves, then the
    first page shown and recorded. *)
Lemma construct_end :
  ids ≠ [] →
  ∃ mf page0 rest,
    New_TabControl lptc hTab_arg labels (ids ++ 0 :: junk) fStretch m
    = Done tt (first_shown lptc page0 mf)
    ∧ going (page0 :: rest) mf
    ∧ length (page0 :: rest) = length ids
    ∧ apart lptc hTab_arg m mf.
Proof.
  intros Hne.
  destruct start_apart as (m0 & Hrun0 & B0 & A0).
  destruct (loop_apart (length ids) [] m0 (S (length ids)) B0)
    as (pages & mf & Hloop & Bf & Hlen & Af); [cbn; lia | lia |].
  destruct pages as [|page0 rest]; [by destruct ids|].
  exists mf, page0, rest.
  split; [|split; [done|split; [done|by apply apart_trans with m0]]].
  destruct (b_struct _ _ _ _ _ _ _ _ _ _ _ Bf) as [hv Hst].
  pose proof (b_this _ _ _ _ _ _ _ _ _ _ _ Bf) as Hm.
  assert (Hthis : this_is
    (mkTABCTRL hTab_arg hv
       ((page0 :: rest) ++ replicate (length ids - length (page0 :: rest)) NULL)
       labels (Z.of_nat (length ids)) fStretch)
    (world mf)) by (by split; rewrite Hm).
  rewrite Hrun0.
  erewrite bind_Done by exact Hloop.
  erewrite bind_Done by (eapply page_at_this; [exact Hthis|done]).
  mrun ShowWindow_Done.
  erewrite bind_Done by (eapply page_at_this; [exact Hthis|done]).
  by erewrite (store_this_at _ _ lptc) by (exact Hthis || exact Hm).
Qed.

(** X10.  [New_TabControl] keeps to its own: of the windows there were it
    changes only the strip, and of the strip only the link to the
    structure; every window it adds is a page of the structure; the focus,
    the dialog resources, the other tab strips, the other structures and
    the messages to come are as they were. *)
Theorem new_tabcontrol_keeps_to_its_own :
  ids ≠ [] →
  ∃ m' t,
    New_TabControl lptc hTab_arg labels (ids ++ 0 :: junk) fStretch m = Done tt m'
    ∧ heap (world m') !! lptc = Some t
    ∧ (∀ h x, windows (world m) !! h = Some x →
         windows (world m') !! h
         = Some (if decide (h = hTab_arg) then set_wUserData lptc x else x))
    ∧ (∀ h, windows (world m) !! h = None →
         is_Some (windows (world m') !! h) → h ∈ hTabPages t)
    ∧ focus (world m') = focus (world m)
    ∧ templates (world m') = templates (world m)
    ∧ (∀ k, k ≠ hTab_arg → strips (world m') !! k = strips (world m) !! k)
    ∧ (∀ p, p ≠ lptc → heap (world m') !! p = heap (world m) !! p)
    ∧ inbox m' = inbox m.
Proof.
  intros Hne.
  destruct (construct_end Hne) as (mf & page0 & rest & Hrun & Bf & Hlen & F & S & H & Q).
  destruct (b_struct _ _ _ _ _ _ _ _ _ _ _ Bf) as [hv Hst].
  rewrite Hlen, Nat.sub_diag in Hst. cbn [replicate] in Hst.
  rewrite app_nil_r in Hst.
  pose proof (b_new _ _ _ _ _ _ _ _ _ _ _ Bf) as Hnew.
  pose proof (b_old _ _ _ _ _ _ _ _ _ _ _ Bf) as Hold.
  eexists _, _. split; [exact Hrun|].
  split. { cbn. rewrite lookup_alter_eq, Hst. done. }
  cbn [set_hVisiblePage hTabPages].
  split; [|split; [|split; [done|split;
    [apply (b_templates _ _ _ _ _ _ _ _ _ _ _ Bf)|split; [done|split; [|done]]]]]].
  - intros h x Hx.
    assert (Hnot : h ∉ page0 :: rest).
    { intros Hin. apply Hnew in Hin. congruence. }
    cbn. rewrite lookup_alter_ne by (intros ->; apply Hnot; by left).
    rewrite Hold by done. case_decide as E.
    + subst h. by rewrite lookup_alter_eq, Hx.
    + by rewrite lookup_alter_ne, Hx.
  - intros h Hnone [x Hx]. cbn in Hx.
    destruct (decide (h ∈ page0 :: rest)) as [Hin|Hnot]; [done|].
    rewrite lookup_alter_ne in Hx by (intros ->; apply Hnot; by left).
    rewrite Hold in Hx by done.
    destruct (decide (h = hTab_arg)) as [->|E]; [by pose proof (eq_trans (eq_sym Hsw) Hnone)|].
    rewrite lookup_alter_ne in Hx by done.
    by pose proof (eq_trans (eq_sym Hx) Hnone).
  - intros p Hp. cbn. rewrite lookup_alter_ne by done. by apply H.
Qed.

(** X11.  Construction and selection together.  When none of the dialog
    resources is of a visible dialog, [New_TabControl] leaves exactly the
    first page visible among its pages.  And when a tab [i] is selected
    afterwards, [Notify] for the strip's selection change hides the first
    page, posts it the hide message, shows page [i] and records it: exactly
    page [i] is visible among the pages. *)
Theorem construct_then_select tk :
  ids ≠ [] →
  Forall (λ d, dtVisible <$> templates (world m) !! d = Some false) ids →
  ∃ m' pages page0,
    New_TabControl lptc hTab_arg labels (ids ++ 0 :: junk) fStretch m = Done tt m'
    ∧ pages !! 0%nat = Some page0
    ∧ heap (world m') !! lptc
      = Some (mkTABCTRL hTab_arg page0 pages labels (Z.of_nat (length ids)) fStretch)
    ∧ (∀ q, q ∈ pages → IsWindowVisible q (world m') = true ↔ q = page0)
    ∧ ∀ i page pnm m2,
        pages !! i = Some page →
        windows (world m2) = windows (world m') →
        heap (world m2) = heap (world m') →
        cur_sel hTab_arg (world m2) = Z.of_nat i →
        hwndFrom (hdr pnm) = hTab_arg → code (hdr pnm) = TCN_SELCHANGE →
        ∃ m3,
          Notify tk pnm m2 = Done TRUE m3
          ∧ calls_since m2 m3
            = [CShowWindow page0 FALSE;
               CPostMessage (mkMSG page0 WM_SHOWWINDOW FALSE 0);
               CShowWindow page TRUE]
          ∧ hVisiblePage <$> heap (world m3) !! lptc = Some page
          ∧ (∀ q, q ∈ pages → IsWindowVisible q (world m3) = true ↔ q = page).
Proof.
  intros Hne Hinvisible.
  destruct (construct_end Hne) as (mf & page0 & rest & Hrun & Bf & Hlen & _).
  destruct (b_struct _ _ _ _ _ _ _ _ _ _ _ Bf) as [hv Hst].
  rewrite Hlen, Nat.sub_diag in Hst. cbn [replicate] in Hst.
  rewrite app_nil_r in Hst.
  pose proof (b_nodup _ _ _ _ _ _ _ _ _ _ _ Bf) as Hnd.
  pose proof (going_strip_window _ _ _ _ _ _ _ _ _ Hsw _ _ Bf) as Hstrip.
  assert (Hp0 : page0 ≠ hTab_arg).
  { intros ->. rewrite (b_new _ _ _ _ _ _ _ _ _ _ _ Bf hTab_arg) in Hsw; [done|].
    by left. }
  set (t := mkTABCTRL hTab_arg page0 (page0 :: rest) labels
              (Z.of_nat (length ids)) fStretch).
  assert (Hheap' : heap (world (first_shown lptc page0 mf)) !! lptc = Some t).
  { cbn. by rewrite lookup_alter_eq, Hst. }
  assert (Hwin : ∀ i q, (page0 :: rest) !! i = Some q →
    ∃ x, windows (world (first_shown lptc page0 mf)) !! q = Some x
         ∧ wVisible x = bool_decide (i = 0%nat)).
  { intros i q Hi.
    destruct (b_pages _ _ _ _ _ _ _ _ _ _ _ Bf i q Hi) as (d & tpl & Hd & Ht & Hw).
    assert (Hv : dtVisible tpl = false).
    { apply (Forall_lookup_1 _ _ _ _ Hinvisible) in Hd. rewrite Ht in Hd.
      by injection Hd. }
    destruct i as [|i].
    - injection Hi as <-. cbn. rewrite lookup_alter_eq, Hw. by eexists.
    - assert (q ≠ page0).
      { intros ->. by pose proof (NoDup_lookup _ (S i) 0%nat page0 Hnd Hi eq_refl). }
      cbn. rewrite lookup_alter_ne, Hw by done. eexists. split; [done|].
      cbn. by rewrite Hv. }
  assert (Hvis : ∀ q, q ∈ page0 :: rest →
    IsWindowVisible q (world (first_shown lptc page0 mf)) = true ↔ q = page0).
  { intros q Hq. apply list_elem_of_lookup in Hq as [i Hi].
    destruct (Hwin i q Hi) as (x & Hx & Hv).
    unfold IsWindowVisible. rewrite Hx. cbn [from_option]. rewrite Hv.
    rewrite bool_decide_eq_true. split.
    - intros ->. by injection Hi.
    - intros ->. by apply (NoDup_lookup _ i 0%nat page0 Hnd Hi). }
  exists (first_shown lptc page0 mf), (page0 :: rest), page0.
  split; [done|]. split; [done|]. split; [done|]. split; [done|].
  intros i page pnm m2 Hi Hws Hhp Hsel Hfrom Hcode.
  assert (Hud : window_long (hwndFrom (hdr pnm)) GWL_USERDATA (world m2) = lptc).
  { unfold window_long. rewrite Hfrom, Hws. cbn.
    by rewrite lookup_alter_ne, Hstrip by done. }
  assert (Hthis : this_is t (upd_m_lptc lptc (world m2))).
  { split; [done|]. cbn. by rewrite Hhp. }
  assert (Hidx : index (hTabPages t) (cur_sel (hTab t) (world m2)) = Some page).
  { cbn [hTab hTabPages t]. by rewrite Hsel, index_of_nat. }
  exists (switched t page (pointing lptc m2)).
  split.
  { rewrite (notify_selchange tk pnm m2 t page Hcode); by rewrite ?Hud. }
  split. { unfold switched, calls_since. cbn. by rewrite drop_app_length. }
  split. { cbn. rewrite lookup_alter_eq, Hhp, Hheap'. done. }
  intros q Hq.
  destruct (Hwin i page Hi) as (x & Hx & _).
  rewrite switched_visible by (cbn; rewrite Hws, Hx; by eexists).
  cbn [hVisiblePage t]. case_decide as E1; [done|].
  case_decide as E2; [done|].
  change (IsWindowVisible q (world (pointing lptc m2)))
    with (from_option wVisible false (windows (world m2) !! q)).
  rewrite Hws. split; [|done]. intros Hv. by apply Hvis in Hv.
Qed.

End Constructed.

(** ** Construction from a missing dialog resource *)

Lemma layout_returns hwnd sw s (ws : gmap Z Window) (ss : gmap Z TabStrip) :
  ws !! hwnd = Some sw → ss !! hwnd = Some s → tsItems s ≠ [] →
  ∃ r, ∀ mm, windows (world mm) = ws → strips (world mm) = ss →
    TabControl_GetClientRect hwnd mm = Done r mm.
Proof.
  intros Hw Hs Hi. eexists. intros mm Ew Es.
  unfold TabControl_GetClientRect, GetWindowLong, GetWindowRect, GetParent,
    ScreenToClient, TabCtrl_GetItemRect0, window_long, parent_of.
  munfold. rewrite Ew, Hw. cbn. rewrite Ew, Hw, Es, Hs. cbn.
  destruct (tsItems s); [done|]. rewrite ?Ew. reflexivity.
Qed.

Section Unmade.

Variables (lptc : Z) (hTab_arg : HWND) (label : string) (labels : list string).
Variables (d : Z) (junk : list Z) (fStretch : BOOL) (m : Machine).
Variables (t0 : TABCTRL) (sw : Window) (s0 : TabStrip).

Hypothesis Hlptc : lptc ≠ NULL.
Hypothesis Hheap : heap (world m) !! lptc = Some t0.
Hypothesis Hsw : windows (world m) !! hTab_arg = Some sw.
Hypothesis Hs0 : strips (world m) !! hTab_arg = Some s0.
Hypothesis Hnull : windows (world m) !! NULL = None.
Hypothesis Hd : d ≠ 0.
Hypothesis Hnone : templates (world m) !! d = None.
Hypothesis Hstretch : fStretch ≠ 0.

(** The turn of the loop for the template without a resource: the tab is
    inserted, [CreateDialog] answers [NULL], and [NULL] is stored, linked and
    placed like a page. *)
Lemma unmade_page M hv s :
  m_lptc (world M) = lptc →
  heap (world M) !! lptc
  = Some (mkTABCTRL hTab_arg hv [NULL] (label :: labels) 1 fStretch) →
  windows (world M) !! hTab_arg = Some (set_wUserData lptc sw) →
  windows (world M) !! NULL = None →
  strips (world M) !! hTab_arg = Some s →
  templates (world M) !! d = None →
  ∃ r,
    add_page hTab_arg (d :: 0 :: junk) 0 M
    = Done tt
        (mkMachine (upd_strips (alter (insert_item 0 label) hTab_arg) (world M))
           (trace M ++ [CInsertItem hTab_arg 0 label;
                        CCreateDialog d (wParent sw);
                        CSetWindowLong NULL GWL_USERDATA hTab_arg;
                        CSetWindowPos NULL HWND_TOP (left r) (top r) (right r)
                          (bottom r) 0])
           (inbox M)).
Proof.
  intros Hm Hst Hw Hn Hs Ht.
  assert (Hthis : this_is
    (mkTABCTRL hTab_arg hv [NULL] (label :: labels) 1 fStretch) (world M))
    by (by split; rewrite Hm).
  destruct (layout_returns hTab_arg (set_wUserData lptc sw)
              (insert_item 0 label s) (windows (world M))
              (alter (insert_item 0 label) hTab_arg (strips (world M)))) as [r Hr].
  { done. }
  { by rewrite lookup_alter_eq, Hs. }
  { unfold insert_item. cbn. by destruct (tsItems s). }
  exists r. unfold add_page.
  mrun deref_this. cbn [tabNames hTab index].
  change (index (label :: labels) 0) with (Some label).
  cbn [defined]. rewrite bind_ret.
  mrun InsertItem_Done.
  mrun deref_this. cbn [hTab]. unfold GetParent. mrun @gets_Done.
  change (index (d :: 0 :: junk) 0) with (Some d).
  cbn [defined]. rewrite bind_ret.
  assert (Hparent : ∀ w, windows w = windows (world M) →
    parent_of hTab_arg w = wParent sw).
  { intros w E. unfold parent_of. by rewrite E, Hw. }
  rewrite Hparent by done.
  unfold CreateDialog at 1.
  unfold mbind at 1, M_bind at 1. unfold mbind at 1, M_bind at 1.
  unfold call at 1. cbn [world trace inbox].
  unfold mbind at 1, M_bind at 1, gets at 1. cbn [world id templates upd_strips].
  rewrite Ht. cbn [mret M_ret].
  mrun deref_this. cbn [hTabPages length].
  change ((0 <=? 0) && (0 <? Z.of_nat 1)) with true. cbv iota.
  change (<[Z.to_nat 0:=NULL]> [NULL]) with [NULL].
  erewrite bind_Done by (eapply (store_this_at _ _ lptc); [exact Hthis | exact Hm]).
  cbn [world trace inbox].
  assert (Hsame : alter (set_hTabPages [NULL]) lptc (heap (world M)) = heap (world M)).
  { apply alter_id. intros x Hx. rewrite Hst in Hx. by injection Hx as <-. }
  unfold upd_heap at 1. cbn [heap windows strips templates focus m_lptc upd_strips].
  rewrite Hsame.
  erewrite bind_Done by (eapply page_at_this; [exact Hthis | reflexivity]).
  mrun SetWindowLong_Done.
  unfold upd_windows at 1. cbn [heap windows strips templates focus m_lptc].
  rewrite (alter_id' _ _ _ Hn).
  mrun deref_this. cbn [blStretchTabs hTab].
  rewrite (proj2 (Z.eqb_neq _ _) Hstretch). cbn [negb].
  assert (Hud : ∀ w, windows w = windows (world M) →
    window_long hTab_arg GWL_USERDATA w = lptc).
  { intros w E. unfold window_long. by rewrite E, Hw. }
  erewrite bind_Done.
  2: { eapply (StretchTabPage_Done _ _ _ _ NULL r).
       - rewrite Hud by done. split; [exact Hlptc | exact Hst].
       - reflexivity.
       - apply Hr; reflexivity. }
  rewrite Hud by done.
  unfold placed, pointing, upd_windows, upd_strips, upd_m_lptc. cbn.
  rewrite (alter_id' _ _ _ Hn), <-Hm, <-!app_assoc. done.
Qed.

Ltac structure :=
  split; [done | cbn; rewrite ?lookup_alter_eq, Hheap; reflexivity].

(** X12.  [New_TabControl] does not look at what [CreateDialog] answers.
    With stretched pages and one template that names no dialog resource, it
    inserts the tab, stores the null handle as the page, and returns: no
    window was made, and the null handle is recorded as the visible page. *)
Theorem stretch_construct_without_resource :
  ∃ m',
    New_TabControl lptc hTab_arg (label :: labels) (d :: 0 :: junk) fStretch m
    = Done tt m'
    ∧ heap (world m') !! lptc
      = Some (mkTABCTRL hTab_arg NULL [NULL] (label :: labels) 1 fStretch)
    ∧ created (calls_since m m') = [(d, wParent sw)]
    ∧ inserted (calls_since m m') = [(hTab_arg, 0, label)]
    ∧ windows (world m') = alter (set_wUserData lptc) hTab_arg (windows (world m)).
Proof.
  assert (Hne : hTab_arg ≠ NULL).
  { intros E. rewrite E in Hsw. by pose proof (eq_trans (eq_sym Hsw) Hnull). }
  pose (M0 := mkMachine
    (upd_heap (alter (set_hTabPages [NULL]) lptc)
       (upd_heap (alter (set_tabPageCount 1) lptc)
          (upd_heap (alter (set_blStretchTabs fStretch) lptc)
             (upd_heap (alter (set_tabNames (label :: labels)) lptc)
                (upd_heap (alter (set_hTab hTab_arg) lptc)
                   (upd_windows (alter (set_wUserData lptc) hTab_arg)
                      (upd_m_lptc lptc (world m))))))))
    (trace m ++ [CSetWindowLong hTab_arg GWL_USERDATA lptc]) (inbox m)).
  assert (Hst0 : heap (world M0) !! lptc
    = Some (mkTABCTRL hTab_arg (hVisiblePage t0) [NULL] (label :: labels) 1 fStretch)).
  { cbn. by rewrite !lookup_alter_eq, Hheap. }
  destruct (unmade_page M0 (hVisiblePage t0) s0) as [r Hpage]; try done.
  { cbn. by rewrite lookup_alter_eq, Hsw. }
  { cbn. by rewrite lookup_alter_ne. }
  set (M1 := mkMachine _ _ _) in Hpage.
  assert (Hst1 : heap (world M1) !! lptc
    = Some (mkTABCTRL hTab_arg (hVisiblePage t0) [NULL] (label :: labels) 1 fStretch))
    by exact Hst0.
  assert (Hthis0 : this_is
    (mkTABCTRL hTab_arg (hVisiblePage t0) [NULL] (label :: labels) 1 fStretch)
    (world M0)) by by split.
  assert (Hthis1 : this_is
    (mkTABCTRL hTab_arg (hVisiblePage t0) [NULL] (label :: labels) 1 fStretch)
    (world M1)) by by split.
  assert (Hloop : add_pages hTab_arg (d :: 0 :: junk) 2 0 M0 = Done tt M1).
  { cbn [add_pages].
    erewrite bind_Done by (eapply deref_this; exact Hthis0).
    cbn [tabPageCount]. change (0 <? 1) with true. cbv iota.
    erewrite bind_Done by exact Hpage.
    erewrite bind_Done by (eapply deref_this; exact Hthis1).
    done. }
  assert (Htr1 : trace M1
    = trace m ++ [CSetWindowLong hTab_arg GWL_USERDATA lptc;
                  CInsertItem hTab_arg 0 label; CCreateDialog d (wParent sw);
                  CSetWindowLong NULL GWL_USERDATA hTab_arg;
                  CSetWindowPos NULL HWND_TOP (left r) (top r) (right r) (bottom r) 0]).
  { cbn. by rewrite <-!app_assoc. }
  assert (Hwin1 : windows (world M1)
    = alter (set_wUserData lptc) hTab_arg (windows (world m))) by done.
  assert (Hnull1 : windows (world M1) !! NULL = None).
  { rewrite Hwin1. by rewrite lookup_alter_ne. }
  assert (Hm1 : m_lptc (world M1) = lptc) by done.
  clearbody M1.
  exists (first_shown lptc NULL M1). split.
  - unfold New_TabControl.
    mrun modify_Done. mrun SetWindowLong_Done.
    erewrite bind_Done by (eapply (store_this_at _ _ lptc); [structure | done]).
    cbn [world trace inbox].
    erewrite bind_Done by (eapply (store_this_at _ _ lptc); [structure | done]).
    cbn [world trace inbox].
    erewrite bind_Done by (eapply (store_this_at _ _ lptc); [structure | done]).
    cbn [world trace inbox].
    cbn [count_pages]. rewrite (proj2 (Z.eqb_neq _ _) Hd).
    change (0 =? 0) with true. cbn [fmap option_fmap option_map defined].
    rewrite bind_ret.
    erewrite bind_Done by (eapply (store_this_at _ _ lptc); [structure | done]).
    cbn [world trace inbox].
    erewrite bind_Done by (eapply (store_this_at _ _ lptc); [structure | done]).
    cbn [world trace inbox].
    change (Z.to_nat (Z.succ 0)) with 1%nat. cbn [replicate].
    change (Z.succ 0) with 1. change (mkMachine _ _ _) with M0.
    erewrite bind_Done by exact Hloop.
    erewrite bind_Done by (eapply page_at_this; [exact Hthis1 | reflexivity]).
    mrun ShowWindow_Done.
    erewrite bind_Done by (eapply page_at_this; [exact Hthis1 | reflexivity]).
    by erewrite (store_this_at _ _ lptc) by (exact Hthis1 || exact Hm1).
  - split; [cbn; by rewrite lookup_alter_eq, Hst1|].
    assert (Hcalls : calls_since m (first_shown lptc NULL M1)
      = [CSetWindowLong hTab_arg GWL_USERDATA lptc; CInsertItem hTab_arg 0 label;
         CCreateDialog d (wParent sw); CSetWindowLong NULL GWL_USERDATA hTab_arg;
         CSetWindowPos NULL HWND_TOP (left r) (top r) (right r) (bottom r) 0;
         CShowWindow NULL SW_SHOW]).
    { unfold calls_since. cbn. by rewrite Htr1, <-!app_assoc, drop_app_length. }
    rewrite Hcalls. split; [done|]. split; [done|].
    cbn. rewrite <-Hwin1. by apply alter_id'.
Qed.

End Unmade.

(** ** The handlers of the pages *)

Lemma ones_16_bit n : 0 ≤ n → Z.testbit 65535 n = bool_decide (n < 16).
Proof.
  intros Hn. change 65535 with (Z.ones 16). case_bool_decide.
  - apply Z.ones_spec_low. lia.
  - apply Z.ones_spec_high. lia.
Qed.

(** The two words packed into the [wParam] of a forwarded command are read
    back by the receiver's message cracker. *)
Lemma MAKEWPARAM_words l h :
  LOWORD (MAKEWPARAM l h) = l `mod` 2 ^ 16
  ∧ HIWORD (MAKEWPARAM l h) = h `mod` 2 ^ 16.
Proof.
  rewrite <-!(Z.land_ones _ 16) by lia. change (Z.ones 16) with 65535.
  unfold LOWORD, HIWORD, MAKEWPARAM. split; apply Z.bits_inj'; intros n Hn.
  - rewrite !Z.land_spec, Z.lor_spec, Z.land_spec, ones_16_bit by done.
    case_bool_decide; [|by rewrite !andb_false_r].
    rewrite Z.shiftl_spec, (Z.testbit_neg_r _ (n - 16)) by lia.
    by rewrite orb_false_r, !andb_true_r.
  - rewrite !Z.land_spec, Z.shiftr_spec, Z.lor_spec, Z.land_spec by done.
    rewrite Z.shiftl_spec, Z.land_spec by lia.
    rewrite (ones_16_bit (n + 16)) by lia.
    rewrite bool_decide_eq_false_2 by lia.
    replace (n + 16 - 16) with n by lia.
    by rewrite andb_false_r, orb_false_l, <-andb_assoc, andb_diag.
Qed.

Section PageHandlers.

Variables (tk : Toolkit) (host : Host).

Lemma extends_command hwnd id ctl code :
  extends entering_call (TabPage_OnCommand tk host hwnd id ctl code).
Proof.
  pose proof (extends_deref entering_call).
  pose proof (extends_entering_loop tk).
  unfold TabPage_OnCommand, FirstTabstop_SetFocus, SendMessage, PostMessage,
    SetFocus, GetFocus.
  extends.
Qed.

(** X13.  A [WM_COMMAND] of a page goes to the host's procedure first, with
    the identifier and the notification code packed into [wParam] as the
    host's cracker reads them back and the control's handle in [lParam].
    For a notification (a code other than 0) that is all: no call is made
    and nothing is retrieved.  For a code of 0 the focus is put on the
    control, the page is sent [WM_NEXTDLGCTL], a Tab key-down is posted to
    the window that then has the focus, and the handler stays in the page's
    loop until the loop returns.  In no case does it ask the strip for a
    selection. *)
Theorem command_forwarded_then_engaged hwnd id ctl code t m :
  this_is t (world m) →
  LOWORD (MAKEWPARAM id code) = id `mod` 2 ^ 16
  ∧ HIWORD (MAKEWPARAM id code) = code `mod` 2 ^ 16
  ∧ (code ≠ 0 →
     TabPage_OnCommand tk host hwnd id ctl code m
     = Done tt (forwarded host hwnd id ctl code m))
  ∧ (code = 0 →
     TabPage_OnCommand tk host hwnd id ctl code m
     = TabPageMessageLoop tk hwnd
         (engaged tk ctl hwnd (forwarded host hwnd id ctl code m)))
  ∧ (∀ m', TabPage_OnCommand tk host hwnd id ctl code m = Done tt m' →
       Forall entering_call (calls_since m m')
       ∧ selections (calls_since m m') = []).
Proof.
  intros Ht.
  destruct (MAKEWPARAM_words id code) as [Hlo Hhi].
  split; [done|]. split; [done|].
  assert (Hrun : TabPage_OnCommand tk host hwnd id ctl code m
    = (if negb (code =? 0) then mret tt
       else SetFocus ctl;; FirstTabstop_SetFocus tk hwnd;; TabPageMessageLoop tk hwnd)
        (forwarded host hwnd id ctl code m)).
  { unfold TabPage_OnCommand. mrun @gets_Done. mrun deref_this. by mrun modify_Done. }
  split; [|split].
  - intros Hc. rewrite Hrun. by rewrite (proj2 (Z.eqb_neq _ _) Hc).
  - intros ->. rewrite Hrun. cbn [Z.eqb negb].
    mrun SetFocus_Done.
    unfold FirstTabstop_SetFocus, SendMessage, GetFocus, PostMessage.
    munfold. by rewrite <-!app_assoc.
  - intros m' H. destruct (extends_command _ _ _ _ _ _ _ H) as (l & E & Hl).
    destruct m' as [w' tr' q']. cbn in E. subst tr'.
    rewrite calls_since_app. split; [done|]. by apply entering_selects_nothing.
Qed.

(** X14.  A click on a page outside its controls sends one [WM_NOTIFY], and
    sends it to the strip itself ([m_lptc->hTab]), not to the strip's
    parent; nothing else is called.  The structure it points to is a
    [TCN_KEYDOWN] from the strip with [VK_LEFT] on a vertical strip and
    [VK_DOWN] on a horizontal one: the key for which [TabCtrl_OnKeyDown], in
    that orientation and with more than one tab, enters the page at the
    current selection. *)
Theorem click_simulates_enter_key hwnd fDoubleClick x y keyFlags t m :
  this_is t (world m) →
  TabPage_OnLButtonDown host hwnd fDoubleClick x y keyFlags m
  = Done tt
      (mkMachine
         (notified host
            (mkMSG (hTab t) WM_NOTIFY (GetDlgCtrlID host (hTab t) (world m))
               (nm_address host))
            (click_notification t (GetDlgCtrlID host (hTab t) (world m))
               (vertical t (world m)))
            (world m))
         (trace m
          ++ [CSendMessage
                (mkMSG (hTab t) WM_NOTIFY (GetDlgCtrlID host (hTab t) (world m))
                   (nm_address host))])
         (inbox m))
  ∧ ∀ id m',
      this_is t (world m') →
      1 < item_count (hTab t) (world m') →
      TabCtrl_OnKeyDown tk (click_notification t id (vertical t (world m'))) m'
      = enter_page tk (cur_sel (hTab t) (world m')) m'.
Proof.
  intros Ht. split.
  - unfold TabPage_OnLButtonDown, GetWindowLong, click_notification, vertical.
    mrun deref_this. mrun @gets_Done.
    destruct (negb _); mrun deref_this; mrun deref_this; mrun @gets_Done; done.
  - intros id m' Ht' Hcount.
    assert (Hkey : is_enter_key (vertical t (world m'))
      (wVKey (click_notification t id (vertical t (world m')))) = true).
    { unfold click_notification. cbn [wVKey]. by destruct (vertical t (world m')). }
    exact (keydown_enters tk (click_notification t id (vertical t (world m'))) m' t
             Hcount Ht' Hkey).
Qed.

End PageHandlers.

(** ** These properties on the concrete world *)

Module Runs.

Import Example Scene.

(** Settle a closed side condition by evaluation. *)
Ltac evaluate :=
  repeat first
    [ apply List.Forall_nil
    | apply List.Forall_cons
    | progress unfold quiet, small
    | match goal with |- _ ∧ _ => split end ];
  try (vm_compute; intros;
       first [ reflexivity | discriminate | congruence | eexists; reflexivity ]).

Lemma ready_structure q : this_is tabctrl (world (with_inbox q ready)).
Proof. split; [vm_compute; discriminate | vm_compute; reflexivity]. Qed.

(** The display area of the example's strip, 298 by 198 at (6, 6) with tabs
    20 high on top: 286 by 162. *)
Lemma display_area_within_strip_witness :
  ∃ r, TabControl_GetClientRect strip ready = Done r ready
       ∧ 10 ≤ left r ∧ 12 ≤ top r ∧ right r = 286 ∧ bottom r = 162.
Proof.
  destruct (display_area_within_strip strip ready linked_strip dialog_frame two_tabs)
    as (r & Hrun & Hl & Ht & _ & _ & Hw & Hh).
  - vm_compute. reflexivity.
  - vm_compute. reflexivity.
  - vm_compute. reflexivity.
  - discriminate.
  - evaluate.
  - vm_compute. discriminate.
  - vm_compute. discriminate.
  - exists r. split; [exact Hrun|]. split; [exact Hl|]. split; [exact Ht|].
    split; [exact Hw | exact Hh].
Defined.

(** The down arrow on the horizontal strip enters the first page; the hide
    message of the page is waiting, so the loop returns at once. *)
Lemma keydown_enters_page_witness :
  TabCtrl_OnKeyDown toolkit (keydown VK_DOWN) (with_inbox [hide_of page0] ready)
  = TabPageMessageLoop toolkit page0
      (entered toolkit page0 (with_inbox [hide_of page0] ready)).
Proof.
  destruct (keydown_enters_page toolkit (keydown VK_DOWN)
              (with_inbox [hide_of page0] ready) tabctrl) with (page := page0)
    as [H _].
  - vm_compute. reflexivity.
  - apply ready_structure.
  - vm_compute. reflexivity.
  - vm_compute. reflexivity.
  - vm_compute. reflexivity.
  - exact H.
Defined.

(** A character, Tab on the edit control, Tab on the button: the loop has
    routed the three and waits. *)
Lemma loop_routes_and_waits_witness :
  TabPageMessageLoop toolkit page0
    (with_inbox [char_to edit; tab_to edit; tab_to button] ready)
  = Blocked
      (with_inbox []
         (route_all toolkit page0 [char_to edit; tab_to edit; tab_to button] ready))
  ∧ offered
      (calls_since ready
         (route_all toolkit page0 [char_to edit; tab_to edit; tab_to button] ready))
    = [(page0, (char_to edit).2); (page0, (tab_to edit).2); (page0, (tab_to button).2)].
Proof.
  destruct (loop_routes_and_waits toolkit page0
              [char_to edit; tab_to edit; tab_to button] ready
              (mkTabStops true (Some edit))
              (route_all toolkit page0 [char_to edit; tab_to edit; tab_to button] ready))
    as (Hrun & _ & _ & _ & Hoff & _).
  - vm_compute. reflexivity.
  - split; [exact Hrun | exact Hoff].
Defined.

(** A Tab key-down, then a failed retrieval: the loop returns and leaves
    what follows unretrieved. *)
Lemma retrieval_error_ends_loop_witness :
  TabPageMessageLoop toolkit page0
    (with_inbox ([tab_to edit] ++ (-1, mkMSG NULL 0 0 0) :: [char_to edit]) ready)
  = Done tt (with_inbox [char_to edit] (route_all toolkit page0 [tab_to edit] ready)).
Proof.
  destruct (retrieval_error_ends_loop toolkit page0 [tab_to edit] (mkMSG NULL 0 0 0)
              [char_to edit] ready (mkTabStops true (Some edit))
              (route_all toolkit page0 [tab_to edit] ready)) as [H _].
  - vm_compute. reflexivity.
  - exact H.
Defined.



(** The first tab is selected and its page visible: a selection change
    leaves the world as it is and posts the page the hide message. *)
Lemma reselecting_visible_page_posts_hide_witness :
  TabCtrl_OnSelChanged ready = Done TRUE (switched tabctrl page0 ready)
  ∧ world (switched tabctrl page0 ready) = world ready.
Proof.
  destruct (reselecting_visible_page_posts_hide tabctrl page0 shown_page ready)
    as (Hrun & Hworld & _).
  - apply (ready_structure []).
  - vm_compute. reflexivity.
  - reflexivity.
  - vm_compute. reflexivity.
  - reflexivity.
  - split; [exact Hrun | exact Hworld].
Defined.

(** With no tab selected the selection-change handler reads entry -1 of the
    page list. *)
Lemma selection_outside_pages_is_undefined_witness :
  TabCtrl_OnSelChanged deselected = Fault
  ∧ TabCtrl_OnKeyDown toolkit (keydown VK_DOWN) deselected = Fault.
Proof.
  destruct (selection_outside_pages_is_undefined toolkit (keydown VK_DOWN) tabctrl
              deselected) as [Hsel Hkey].
  - split; [vm_compute; discriminate | vm_compute; reflexivity].
  - destruct Hsel as [H _]; [vm_compute; reflexivity|].
    split; [exact H|]. apply Hkey; vm_compute; reflexivity.
Defined.

(** A selection change notified in the name of the dialog, which has no
    structure linked. *)
Lemma notify_from_unlinked_window_witness :
  Notify toolkit (mkTC_KEYDOWN (mkNMHDR dialog 0 TCN_SELCHANGE) 0 0) ready = Fault.
Proof.
  apply notify_from_unlinked_window.
  - left. vm_compute. reflexivity.
  - right. reflexivity.
Defined.

(** The construction of the example leaves the dialog as it was, links the
    strip, and leaves the focus where it was. *)
Lemma new_tabcontrol_keeps_to_its_own_witness :
  ∃ m',
    New_TabControl this strip labels ([101; 102] ++ 0 :: []) FALSE
      (mkMachine before [] [])
    = Done tt m'
    ∧ windows (world m') !! dialog = Some dialog_frame
    ∧ windows (world m') !! strip = Some linked_strip
    ∧ focus (world m') = NULL.
Proof.
  destruct (new_tabcontrol_keeps_to_its_own this strip labels [101; 102] [] FALSE
              (mkMachine before [] []) (mkTABCTRL 0 0 [] [] 0 0)
              strip_window dialog_frame (mkTabStrip [] (-1) (mkRECT 2 2 50 22)))
    as (m' & t & Hrun & _ & Hold & _ & Hfocus & _).
  - discriminate.
  - vm_compute. reflexivity.
  - vm_compute. reflexivity.
  - vm_compute. reflexivity.
  - vm_compute. reflexivity.
  - evaluate.
  - cbn. lia.
  - evaluate.
  - discriminate.
  - exists m'. split; [exact Hrun|]. split; [|split; [|exact Hfocus]].
    + apply (Hold dialog dialog_frame). vm_compute. reflexivity.
    + apply (Hold strip strip_window). vm_compute. reflexivity.
Defined.

(** The example constructed, then the second tab selected: the second page
    is the one recorded and visible, the first is hidden. *)
Lemma construct_then_select_witness :
  ∃ m3,
    Notify toolkit (mkTC_KEYDOWN (mkNMHDR strip 0 TCN_SELCHANGE) 0 0)
      (mkMachine (select_item strip 1 (world built)) [] [])
    = Done TRUE m3
    ∧ hVisiblePage <$> heap (world m3) !! this = Some page1
    ∧ (IsWindowVisible page0 (world m3) = true ↔ page0 = page1).
Proof.
  destruct (construct_then_select this strip labels [101; 102] [] FALSE
              (mkMachine before [] []) (mkTABCTRL 0 0 [] [] 0 0)
              strip_window dialog_frame (mkTabStrip [] (-1) (mkRECT 2 2 50 22)))
    with (tk := toolkit)
    as (m' & pages & first & Hrun & _ & Hheap & _ & Hselect).
  - discriminate.
  - vm_compute. reflexivity.
  - vm_compute. reflexivity.
  - vm_compute. reflexivity.
  - vm_compute. reflexivity.
  - evaluate.
  - cbn. lia.
  - evaluate.
  - discriminate.
  - evaluate.
  - assert (Hbuilt : New_TabControl this strip labels ([101; 102] ++ 0 :: []) FALSE
                       (mkMachine before [] []) = Done tt built)
      by (vm_compute; reflexivity).
    rewrite Hbuilt in Hrun. apply returned_machine in Hrun. subst m'.
    assert (Hpages : pages = [page0; page1]).
    { assert (Hb : heap (world built) !! this = Some tabctrl)
        by (vm_compute; reflexivity).
      rewrite Hb in Hheap. by injection Hheap as _ <-. }
    subst pages.
    destruct (Hselect 1%nat page1 (mkTC_KEYDOWN (mkNMHDR strip 0 TCN_SELCHANGE) 0 0)
                (mkMachine (select_item strip 1 (world built)) [] []))
      as (m3 & Hnotify & _ & Hrecorded & Hvisible).
    + reflexivity.
    + vm_compute. reflexivity.
    + vm_compute. reflexivity.
    + vm_compute. reflexivity.
    + reflexivity.
    + reflexivity.
    + exists m3. split; [exact Hnotify|]. split; [exact Hrecorded|].
      apply Hvisible. left.
Defined.

(** The example's strip given one template without a resource, stretched:
    the constructor returns with the null handle as its only page. *)
Lemma stretch_construct_without_resource_witness :
  ∃ m',
    New_TabControl this strip labels [unmade; 0] TRUE (mkMachine before [] [])
    = Done tt m'
    ∧ heap (world m') !! this = Some (mkTABCTRL strip NULL [NULL] labels 1 TRUE)
    ∧ created (calls_since (mkMachine before [] []) m') = [(unmade, dialog)].
Proof.
  destruct (stretch_construct_without_resource this strip "General"%string
              ["Advanced"%string] unmade [] TRUE (mkMachine before [] [])
              (mkTABCTRL 0 0 [] [] 0 0) strip_window
              (mkTabStrip [] (-1) (mkRECT 2 2 50 22)))
    as (m' & Hrun & Hheap & Hcreated & _).
  - discriminate.
  - vm_compute. reflexivity.
  - vm_compute. reflexivity.
  - vm_compute. reflexivity.
  - vm_compute. reflexivity.
  - discriminate.
  - vm_compute. reflexivity.
  - discriminate.
  - exists m'. split; [exact Hrun|]. split; [exact Hheap | exact Hcreated].
Defined.

(** The edit control of the first page tells that it has got the focus: the
    command goes to the host and nothing else happens. *)
Lemma command_forwarded_then_engaged_witness :
  TabPage_OnCommand toolkit quiet_host page0 1 edit EN_SETFOCUS
    (with_inbox [tab_to edit] ready)
  = Done tt (forwarded quiet_host page0 1 edit EN_SETFOCUS
               (with_inbox [tab_to edit] ready)).
Proof.
  destruct (command_forwarded_then_engaged toolkit quiet_host page0 1 edit
              EN_SETFOCUS tabctrl (with_inbox [tab_to edit] ready))
    as (_ & _ & H & _).
  - apply ready_structure.
  - apply H. discriminate.
Defined.

(** A click on the first page of the horizontal strip: the strip is sent a
    key-down notification with the down arrow. *)
Lemma click_simulates_enter_key_witness :
  TabPage_OnLButtonDown quiet_host page0 FALSE 5 5 0 ready
  = Done tt
      (mkMachine (world ready)
         [CSendMessage (mkMSG strip WM_NOTIFY 1000 4096)] [])
  ∧ wVKey (click_notification tabctrl 1000 (vertical tabctrl (world ready)))
    = VK_DOWN.
Proof.
  destruct (click_simulates_enter_key toolkit quiet_host page0 FALSE 5 5 0 tabctrl
              ready) as [H _].
  - apply (ready_structure []).
  - split; [|vm_compute; reflexivity].
    rewrite H. vm_compute. reflexivity.
Defined.

End Runs.
